(** * The calculator's state-management core, embedded from the Python sources

    The development follows the package [app/] file by file, one module per
    class, a method [Class.method] keeping its name. A method that mutates
    its object returns the object's new state; one that can raise returns an
    [outcome], together with the state it leaves behind, since an exception
    undoes nothing. Python floats are IEEE-754 binary64 values, so operands
    and results are primitive floats; what the interpreter does around the
    hardware operations (raising [ZeroDivisionError], the special cases of
    [**], the sign rule of [%]) is written out in module [PyFloat]. *)

From Stdlib Require Import ZArith List Ascii String Bool Lia Floats.
Import ListNotations.
Local Open Scope Z_scope.

(** ** app/exceptions.py, and the built-in exceptions the code catches *)

Module Exceptions.

Inductive exn : Type :=
| OperationError (msg : string)
| ValidationError (msg : string)
| ConfigurationError (msg : string)
| HistoryError (msg : string)
| IndexError (msg : string)
| KeyError (key : string)
| ValueError
| TypeError
| OverflowError
| ZeroDivisionError
| UserException (name : string).

(** A call either returns a value or raises. *)
Inductive outcome (A : Type) : Type :=
| Return (a : A)
| Raise (e : exn).
Arguments Return {A} a.
Arguments Raise {A} e.

Definition bind {A B} (r : outcome A) (k : A -> outcome B) : outcome B :=
  match r with
  | Return a => k a
  | Raise e => Raise e
  end.

(** [try: r except <classes in handles>: handler e]. *)
Definition try_except {A} (r : outcome A) (handles : exn -> bool)
    (handler : exn -> outcome A) : outcome A :=
  match r with
  | Return a => Return a
  | Raise e => if handles e then handler e else Raise e
  end.

Definition is_OperationError (e : exn) : bool :=
  match e with OperationError _ => true | _ => false end.
Definition is_ValidationError (e : exn) : bool :=
  match e with ValidationError _ => true | _ => false end.
Definition is_HistoryError (e : exn) : bool :=
  match e with HistoryError _ => true | _ => false end.

End Exceptions.
Export Exceptions.

Declare Scope py_scope.
Delimit Scope py_scope with py.
Notation "x <- c ;; k" := (bind c (fun x => k))
  (at level 61, c at next level, right associativity) : py_scope.

(** ** Python's float operations over binary64 *)

Module PyFloat.

Local Open Scope float_scope.

(** [x != x], the NaN test the sources use. *)
Definition ne (x y : float) : bool := negb (x =? y).

(** Exact value of a finite non-zero float as [(negative, mantissa, exponent)]:
    the float is [(-1)^negative * mantissa * 2^exponent]. *)
Definition decode (x : float) : option (bool * Z * Z) :=
  match Prim2SF x with
  | S754_finite s m e => Some (s, Zpos m, e)
  | _ => None
  end.

(** A float from an exactly representable [m * 2^e] with [0 <= m < 2^53]. *)
Definition encode (negative : bool) (m e : Z) : float :=
  let f := Z.ldexp (of_uint63 (Uint63.of_Z m)) e in
  if negative then - f else f.

(** C's [fmod x y] for finite [x] and finite non-zero [y]: the remainder has
    the sign of [x] and is computed exactly. On the other inputs C gives
    NaN ([x] infinite, [y] zero, a NaN operand) or [x] ([y] infinite). *)
Definition fmod (x y : float) : float :=
  if is_nan x || is_nan y || is_infinity x || is_zero y then nan
  else if is_infinity y then x
  else
    match decode x, decode y with
    | Some (sx, mx, ex), Some (_, my, ey) =>
        let e0 := Z.min ex ey in
        let r := Z.modulo (mx * 2 ^ (ex - e0)) (my * 2 ^ (ey - e0)) in
        encode sx r e0
    | _, _ => x  (* x is a zero *)
    end.

(** C's [floor]. *)
Definition floor (x : float) : float :=
  match decode x with
  | Some (s, m, e) =>
      if (0 <=? e)%Z then x
      else
        let d := (2 ^ (- e))%Z in
        let q := (if s then - ((m + d - 1) / d) else m / d)%Z in
        if (q =? 0)%Z then (if s then neg_zero else zero)
        else encode (q <? 0)%Z (Z.abs q) 0
  | None => x
  end.

Definition copysign (x y : float) : float :=
  if get_sign y then - abs x else abs x.

(** [x / y] on floats: [float_div] raises on a zero divisor. *)
Definition truediv (x y : float) : outcome float :=
  if y =? 0 then Raise ZeroDivisionError else Return (x / y).

(** [x % y] on floats ([float_rem]): [fmod] moved to the sign of [y]. *)
Definition rem (x y : float) : outcome float :=
  if y =? 0 then Raise ZeroDivisionError
  else
    let m := fmod x y in
    if ne m 0 then
      if negb (Bool.eqb (y <? 0) (m <? 0)) then Return (m + y) else Return m
    else Return (copysign 0 y).

(** [x // y] on floats ([float_floor_div]). *)
Definition floordiv (x y : float) : outcome float :=
  if y =? 0 then Raise ZeroDivisionError
  else
    let m := fmod x y in
    let d := (x - m) / y in
    let d := if ne m 0 && negb (Bool.eqb (y <? 0) (m <? 0)) then d - 1 else d in
    if ne d 0 then
      let f := floor d in
      Return (if 0.5 <? d - f then f + 1 else f)
    else Return (copysign 0 (x / y)).

(** [DOUBLE_IS_ODD_INTEGER] of floatobject.c. *)
Definition is_odd_integer (x : float) : bool := fmod (abs x) 2 =? 1.

(** What [x ** y] evaluates to: a float, or a complex number when a negative
    base meets a fractional exponent (its value is not needed here, only
    whether computing it overflows). *)
Inductive number : Type :=
| Float (x : float)
| Complex.

Section Pow.

(** The platform's C library [pow], called only on a finite positive base
    and a finite non-zero exponent. *)
Variable libm_pow : float -> float -> float.

(** [x ** y] on floats ([float_pow]), case by case in the interpreter's
    order. An infinite result of the C library is ERANGE, hence
    [OverflowError]. A negative base with a fractional exponent is handed to
    the complex power ([complex_pow], [_Py_c_pow]), which computes the
    modulus [pow(hypot(iv, 0), iw)] and multiplies it by the cosine and the
    sine of the phase: the product is infinite, and the call raises
    [OverflowError], exactly when the modulus is (the cosine of a float is
    never zero); an underflow is no error. *)
Definition pow (iv iw : float) : outcome number :=
  if iw =? 0 then Return (Float 1)
  else if is_nan iv then Return (Float iv)
  else if is_nan iw then Return (Float (if iv =? 1 then 1 else iw))
  else if is_infinity iw then
    let av := abs iv in
    if av =? 1 then Return (Float 1)
    else if Bool.eqb (0 <? iw) (1 <? av) then Return (Float (abs iw))
    else Return (Float 0)
  else if is_infinity iv then
    let odd := is_odd_integer iw in
    if 0 <? iw then Return (Float (if odd then iv else abs iv))
    else Return (Float (if odd then copysign 0 iv else 0))
  else if iv =? 0 then
    if iw <? 0 then Raise ZeroDivisionError
    else Return (Float (if is_odd_integer iw then iv else 0))
  else if (iv <? 0) && ne iw (floor iw) then
    if is_infinity (libm_pow (abs iv) iw) then Raise OverflowError
    else Return Complex
  else
    let negate_result := (iv <? 0) && is_odd_integer iw in
    let iv := if iv <? 0 then - iv else iv in
    if iv =? 1 then Return (Float (if negate_result then -1 else 1))
    else
      let ix := libm_pow iv iw in
      if is_infinity ix then Raise OverflowError
      else Return (Float (if negate_result then - ix else ix)).

End Pow.

End PyFloat.

(** What the interpreter and the C library contribute and the sources leave
    to them: the library's [pow], and the built-in [round(x, ndigits)] on a
    float (which returns a float for the non-negative [ndigits] a validated
    configuration carries). *)
Module Platform.

Record t : Type := {
  libm_pow : float -> float -> float;
  round : float -> Z -> float
}.

End Platform.

(** A Python object handed to the engine where a number is expected, told
    apart by what [float()] makes of it: a float or a numeral string is its
    value [PyNum x]; [PyInt n] is the int [n], of any size; [PyStr] is a
    string that is no numeral ([ValueError]); [PyNone] stands for the
    objects without a conversion to float ([None], a list and the like),
    which [float()] rejects with [TypeError]. *)
Inductive PyValue : Type :=
| PyNum (x : float)
| PyInt (n : Z)
| PyStr (s : string)
| PyNone.

(** [float(n)] on an int ([PyLong_AsDouble]): the nearest double, ties to
    even, and [OverflowError] where that is beyond the largest one. *)
Definition int_to_float (n : Z) : outcome float :=
  match binary_normalize prec emax n 0 false with
  | S754_infinity _ => Raise OverflowError
  | x => Return (SF2Prim x)
  end.

Definition py_float (value : PyValue) : outcome float :=
  match value with
  | PyNum x => Return x
  | PyInt n => int_to_float n
  | PyStr _ => Raise ValueError
  | PyNone => Raise TypeError
  end.

(** [os.path] on a POSIX system. *)
Module PosixPath.

(** [path.endswith('/')]. *)
Fixpoint endswith_sep (path : string) : bool :=
  match path with
  | EmptyString => false
  | String c EmptyString => Ascii.eqb c "/"%char
  | String _ rest => endswith_sep rest
  end.

(** [os.path.join(a, b)]: an absolute [b] replaces [a]; otherwise [b] is
    appended, after a separator unless [a] is empty or ends with one. *)
Definition join (a b : string) : string :=
  if String.prefix "/" b then b
  else if String.eqb a "" || endswith_sep a then (a ++ b)%string
  else (a ++ "/" ++ b)%string.

End PosixPath.

(** Python lists used as stacks and trimmed by slicing. *)
Module PyList.

Section Ops.
Context {A : Type}.

Definition append (l : list A) (x : A) : list A := l ++ [x].

(** [l.pop()]: the last element and what is left, [None] on an empty list. *)
Definition pop (l : list A) : option (A * list A) :=
  match rev l with
  | [] => None
  | x :: r => Some (x, rev r)
  end.

(** [l[start:]] for any integer [start], negative ones counting from the
    end and both ends clamped. *)
Definition slice_from (start : Z) (l : list A) : list A :=
  let n := Z.of_nat (List.length l) in
  let s := if start <? 0 then Z.max (start + n) 0 else Z.min start n in
  skipn (Z.to_nat s) l.

End Ops.

End PyList.

(** ** app/calculation.py *)

Module Calculation.

(** A [Calculation] object. [oid] is the object's identity (what [is]
    compares); the other fields are the instance attributes. The timestamp
    is an instant, counted in microseconds. *)
Record t : Type := {
  oid : nat;
  operation : string;
  operand1 : float;
  operand2 : float;
  result : float;
  timestamp : Z
}.

(** [Calculation(operation, operand1, operand2, result)], allocated at
    identity [oid] when the clock reads [now]. *)
Definition __init__ (oid : nat) (now : Z) (operation : string)
    (operand1 operand2 result : float) : t :=
  {| oid := oid; operation := operation; operand1 := operand1;
     operand2 := operand2; result := result; timestamp := now |}.

(** [c1 == c2]. The class defines no [__eq__], so the comparison is
    [object]'s: identity. *)
Definition eq (c1 c2 : t) : bool := Nat.eqb (oid c1) (oid c2).

(** Agreement on the five attributes, bit for bit on the floats. *)
Definition same_fields (c1 c2 : t) : Prop :=
  operation c1 = operation c2 /\ operand1 c1 = operand1 c2 /\
  operand2 c1 = operand2 c2 /\ result c1 = result c2 /\
  timestamp c1 = timestamp c2.

(** The cells of one row of the data frame, as [row.to_dict()] hands them to
    [from_dict]: [None] is an absent column; a timestamp cell is an ISO-8601
    string, given by the instant it denotes, another string ([NotIso]), or
    no string at all ([NotStr]), as the NaN of an empty cell. *)
Inductive TimestampCell : Type :=
| Iso (instant : Z)
| NotIso
| NotStr.

Record Row : Type := {
  row_operation : option string;
  row_operand1 : option PyValue;
  row_operand2 : option PyValue;
  row_result : option PyValue;
  row_timestamp : option TimestampCell
}.

Definition getitem {A} (cell : option A) (key : string) : outcome A :=
  match cell with
  | Some v => Return v
  | None => Raise (KeyError key)
  end.

Definition fromisoformat (cell : TimestampCell) : outcome Z :=
  match cell with
  | Iso instant => Return instant
  | NotIso => Raise ValueError
  | NotStr => Raise TypeError
  end.

Definition from_dict (oid : nat) (now : Z) (data : Row) : outcome t :=
  (operation <- getitem (row_operation data) "operation" ;;
   v1 <- getitem (row_operand1 data) "operand1" ;;
   operand1 <- py_float v1 ;;
   v2 <- getitem (row_operand2 data) "operand2" ;;
   operand2 <- py_float v2 ;;
   v <- getitem (row_result data) "result" ;;
   result <- py_float v ;;
   let calc := __init__ oid now operation operand1 operand2 result in
   match row_timestamp data with
   | Some cell =>
       instant <- fromisoformat cell ;;
       Return {| oid := oid; operation := operation; operand1 := operand1;
                 operand2 := operand2; result := result;
                 timestamp := instant |}
   | None => Return calc
   end)%py.

(** [to_dict]: the five attributes under their keys, the timestamp as the
    ISO-8601 string [isoformat()] writes, which [fromisoformat] reads back
    to the same instant. *)
Definition to_dict (self : t) : Row :=
  {| row_operation := Some (operation self);
     row_operand1 := Some (PyNum (operand1 self));
     row_operand2 := Some (PyNum (operand2 self));
     row_result := Some (PyNum (result self));
     row_timestamp := Some (Iso (timestamp self)) |}.

End Calculation.

(** ** app/operations.py *)

Module AddOperation.
Definition execute (a b : float) : outcome float := Return (a + b)%float.
Definition get_name : string := "add".
End AddOperation.

Module SubtractOperation.
Definition execute (a b : float) : outcome float := Return (a - b)%float.
Definition get_name : string := "subtract".
End SubtractOperation.

Module MultiplyOperation.
Definition execute (a b : float) : outcome float := Return (a * b)%float.
Definition get_name : string := "multiply".
End MultiplyOperation.

Module DivideOperation.
Definition execute (a b : float) : outcome float :=
  if (b =? 0)%float then Raise (OperationError "Division by zero is not allowed")
  else PyFloat.truediv a b.
Definition get_name : string := "divide".
End DivideOperation.

Module PowerOperation.
Definition handled (e : exn) : bool :=
  match e with ValueError | OverflowError => true | _ => false end.

Definition execute (P : Platform.t) (a b : float) : outcome float :=
  try_except
    (result <- PyFloat.pow (Platform.libm_pow P) a b ;;
     match result with
     | PyFloat.Float r =>
         if PyFloat.ne r r
         then Raise (OperationError "Invalid result from power operation")
         else Return r
     | PyFloat.Complex =>
         Raise (OperationError "Invalid result from power operation")
     end)%py
    handled
    (fun _ => Raise (OperationError "Power operation failed")).
Definition get_name : string := "power".
End PowerOperation.

Module RootOperation.
Definition handled (e : exn) : bool :=
  match e with
  | ValueError | OverflowError | ZeroDivisionError => true
  | _ => false
  end.

(** [b % 2 == 0], the test of an even degree. *)
Definition even_degree (b : float) : outcome bool :=
  (m <- PyFloat.rem b 2 ;; Return (m =? 0)%float)%py.

(** [-x] on what [**] returned. *)
Definition neg (x : PyFloat.number) : PyFloat.number :=
  match x with
  | PyFloat.Float r => PyFloat.Float (- r)%float
  | PyFloat.Complex => PyFloat.Complex
  end.

Definition execute (P : Platform.t) (a b : float) : outcome float :=
  if (b =? 0)%float then Raise (OperationError "Root degree cannot be zero")
  else
    (even <- (if (a <? 0)%float then even_degree b else Return false) ;;
     if even
     then Raise (OperationError "Cannot calculate even root of negative number")
     else
       try_except
         (e <- PyFloat.truediv 1 b ;;
          result <- (if (a <? 0)%float
                     then (p <- PyFloat.pow (Platform.libm_pow P) (abs a) e ;;
                           Return (neg p))
                     else PyFloat.pow (Platform.libm_pow P) a e) ;;
          match result with
          | PyFloat.Float r =>
              if PyFloat.ne r r
              then Raise (OperationError "Invalid result from root operation")
              else Return r
          | PyFloat.Complex =>
              Raise (OperationError "Invalid result from root operation")
          end)
         handled
         (fun _ => Raise (OperationError "Root operation failed")))%py.
Definition get_name : string := "root".
End RootOperation.

Module ModulusOperation.
Definition execute (a b : float) : outcome float :=
  if (b =? 0)%float then Raise (OperationError "Modulus by zero is not allowed")
  else PyFloat.rem a b.
Definition get_name : string := "modulus".
End ModulusOperation.

Module IntegerDivideOperation.
Definition execute (a b : float) : outcome float :=
  if (b =? 0)%float then Raise (OperationError "Division by zero is not allowed")
  else PyFloat.floordiv a b.
Definition get_name : string := "int_divide".
End IntegerDivideOperation.

Module PercentageOperation.
Definition execute (a b : float) : outcome float :=
  if (b =? 0)%float
  then Raise (OperationError "Cannot calculate percentage with zero denominator")
  else (q <- PyFloat.truediv a b ;; Return (q * 100)%float)%py.
Definition get_name : string := "percent".
End PercentageOperation.

Module AbsoluteDifferenceOperation.
Definition execute (a b : float) : outcome float := Return (abs (a - b))%float.
Definition get_name : string := "abs_diff".
End AbsoluteDifferenceOperation.

(** The operation classes, and [execute] dispatched on the instance. *)
Module Operation.

Inductive t : Type :=
| Add | Subtract | Multiply | Divide | Power | Root | Modulus
| IntegerDivide | Percentage | AbsoluteDifference.

Definition execute (P : Platform.t) (op : t) (a b : float) : outcome float :=
  match op with
  | Add => AddOperation.execute a b
  | Subtract => SubtractOperation.execute a b
  | Multiply => MultiplyOperation.execute a b
  | Divide => DivideOperation.execute a b
  | Power => PowerOperation.execute P a b
  | Root => RootOperation.execute P a b
  | Modulus => ModulusOperation.execute a b
  | IntegerDivide => IntegerDivideOperation.execute a b
  | Percentage => PercentageOperation.execute a b
  | AbsoluteDifference => AbsoluteDifferenceOperation.execute a b
  end.

Definition get_name (op : t) : string :=
  match op with
  | Add => AddOperation.get_name
  | Subtract => SubtractOperation.get_name
  | Multiply => MultiplyOperation.get_name
  | Divide => DivideOperation.get_name
  | Power => PowerOperation.get_name
  | Root => RootOperation.get_name
  | Modulus => ModulusOperation.get_name
  | IntegerDivide => IntegerDivideOperation.get_name
  | Percentage => PercentageOperation.get_name
  | AbsoluteDifference => AbsoluteDifferenceOperation.get_name
  end.

End Operation.

Module OperationFactory.

(** The class-level registry with its built-in entries, in insertion
    order. *)
Definition _operations : list (string * Operation.t) :=
  [ ("add", Operation.Add); ("subtract", Operation.Subtract);
    ("multiply", Operation.Multiply); ("divide", Operation.Divide);
    ("power", Operation.Power); ("root", Operation.Root);
    ("modulus", Operation.Modulus); ("int_divide", Operation.IntegerDivide);
    ("percent", Operation.Percentage);
    ("abs_diff", Operation.AbsoluteDifference) ]%string.

Fixpoint get {V} (d : list (string * V)) (key : string) : option V :=
  match d with
  | [] => None
  | (k, v) :: d' => if String.eqb k key then Some v else get d' key
  end.

Definition get_available_operations : list string := map fst _operations.

Definition create_operation (operation_name : string) : outcome Operation.t :=
  match get _operations operation_name with
  | None =>
      Raise (OperationError
               ("Unknown operation: " ++ operation_name ++
                ". Available operations: " ++
                String.concat ", " get_available_operations)%string)
  | Some operation_class => Return operation_class
  end.

End OperationFactory.

(** ** app/input_validators.py *)

Module InputValidator.

Definition coercion_failure (e : exn) : bool :=
  match e with ValueError | TypeError => true | _ => false end.

(** [float(value)] is a float whenever it returns, so of the second test
    only [num != num] is left. *)
Definition validate_number (value : PyValue) (max_value : option float)
    : outcome float :=
  (num <- try_except (py_float value) coercion_failure
            (fun _ => Raise (ValidationError "Invalid number")) ;;
   if PyFloat.ne num num then Raise (ValidationError "Invalid number")
   else
     match max_value with
     | Some m =>
         if (m <? abs num)%float
         then Raise (ValidationError "Number exceeds maximum allowed value")
         else Return num
     | None => Return num
     end)%py.

Definition validate_operation (operation : string)
    (available_operations : list string) : outcome string :=
  if existsb (String.eqb operation) available_operations
  then Return operation
  else Raise (ValidationError ("Unknown operation: " ++ operation)%string).

Definition validate_positive_number (value : PyValue) : outcome float :=
  (num <- validate_number value None ;;
   if (num <=? 0)%float
   then Raise (ValidationError "Value must be positive")
   else Return num)%py.

Definition validate_non_zero (value : PyValue) : outcome float :=
  (num <- validate_number value None ;;
   if (num =? 0)%float
   then Raise (ValidationError "Value cannot be zero")
   else Return num)%py.

End InputValidator.

(** ** app/calculator_config.py *)

Module CalculatorConfig.

(** The settings after [_load_config] and the conversions of
    [_validate_config]. *)
Record t : Type := {
  log_dir : string;
  history_dir : string;
  max_history_size : Z;
  auto_save : bool;
  precision : Z;
  max_input_value : float;
  default_encoding : string
}.

Definition DEFAULTS : t :=
  {| log_dir := "logs"; history_dir := "history"; max_history_size := 100;
     auto_save := true; precision := 2; max_input_value := 1e10;
     default_encoding := "utf-8" |}.

(** The range checks of [_validate_config]. *)
Definition _validate_config (self : t) : outcome unit :=
  if max_history_size self <? 1
  then Raise (ConfigurationError "CALCULATOR_MAX_HISTORY_SIZE must be at least 1")
  else if precision self <? 0
  then Raise (ConfigurationError "CALCULATOR_PRECISION must be non-negative")
  else if (max_input_value self <=? 0)%float
  then Raise (ConfigurationError "CALCULATOR_MAX_INPUT_VALUE must be positive")
  else Return tt.

End CalculatorConfig.

(** ** What the engine does to the world around it

    The process-wide parts the sources touch: the allocator that gives every
    new object its identity, the singleton logger, standard output and the
    file system. Their effects are recorded in order. *)

Module World.

Inductive Message : Type :=
| Text (s : string)
| CalculationPerformed (calculation : Calculation.t).

Inductive Event : Type :=
| Logged (level : string) (message : Message)
| Printed (line : string)
| CsvWritten (file_path encoding : string) (rows : list Calculation.t)
| Handled (observer : string) (calculation : Calculation.t).

Record t : Type := {
  next_oid : nat;
  events : list Event;
  (** whether writing a CSV file at a path succeeds *)
  writable : string -> bool
}.

Definition emit (w : t) (e : Event) : t :=
  {| next_oid := next_oid w; events := events w ++ [e];
     writable := writable w |}.

(** Allocation of one object: its identity, and the world after it. *)
Definition alloc (w : t) : nat * t :=
  (next_oid w,
   {| next_oid := S (next_oid w); events := events w;
      writable := writable w |}).

Definition info (w : t) (message : Message) : t := emit w (Logged "INFO" message).
Definition print (w : t) (line : string) : t := emit w (Printed line).

End World.

(** ** app/history.py

    The store hands out and takes in copies of its list only, and so do the
    mementos, so no two objects share a list and lists are plain values
    here. The [Calculation] objects in them are shared, and never mutated
    once they are in a list. *)

Module CalculationHistory.

Record t : Type := {
  _history : list Calculation.t;
  _max_size : Z
}.

Definition __init__ (max_size : Z) : t :=
  {| _history := []; _max_size := max_size |}.

Definition set_list (self : t) (l : list Calculation.t) : t :=
  {| _history := l; _max_size := _max_size self |}.

(** The trimming every mutator ends with:
    [if len(h) > max_size: h = h[-max_size:]]. *)
Definition trim (max_size : Z) (h : list Calculation.t) : list Calculation.t :=
  if max_size <? Z.of_nat (List.length h)
  then PyList.slice_from (- max_size) h
  else h.

Definition add_calculation (self : t) (calculation : Calculation.t) : t :=
  set_list self (trim (_max_size self) (PyList.append (_history self) calculation)).

Definition get_history (self : t) : list Calculation.t := _history self.

Definition clear_history (self : t) : t := set_list self [].

Definition get_last_calculation (self : t) : outcome Calculation.t :=
  match PyList.pop (_history self) with
  | None => Raise (HistoryError "History is empty")
  | Some (last, _) => Return last
  end.

Definition remove_last_calculation (self : t) : outcome unit * t :=
  match PyList.pop (_history self) with
  | None => (Raise (HistoryError "History is empty"), self)
  | Some (_, rest) => (Return tt, set_list self rest)
  end.

Definition set_history (self : t) (history : list Calculation.t) : t :=
  set_list self (trim (_max_size self) history).

Definition __len__ (self : t) : Z := Z.of_nat (List.length (_history self)).

(** [save_to_csv]: the rows reach the file, or any failure underneath comes
    back as [HistoryError]. *)
Definition save_to_csv (self : t) (file_path encoding : string) (w : World.t)
    : outcome unit * World.t :=
  if World.writable w file_path
  then (Return tt, World.emit w (World.CsvWritten file_path encoding (_history self)))
  else (Raise (HistoryError "Failed to save history to CSV"), w).

(** What [load_from_csv] finds at the path. *)
Inductive CsvFile : Type :=
| Missing
| Unreadable
| EmptyData
| Frame (rows : list Calculation.Row).

(** The loop [for _, row in df.iterrows()]: each row becomes a new
    [Calculation] appended to the store; the first row that fails ends the
    loop with its exception. *)
Fixpoint append_rows (now : Z) (rows : list Calculation.Row) (self : t)
    (w : World.t) : outcome unit * t * World.t :=
  match rows with
  | [] => (Return tt, self, w)
  | row :: rows' =>
      let (oid, w) := World.alloc w in
      match Calculation.from_dict oid now row with
      | Raise e => (Raise e, self, w)
      | Return calc =>
          append_rows now rows' (set_list self (PyList.append (_history self) calc)) w
      end
  end.

Definition load_from_csv (self : t) (file : CsvFile) (now : Z) (w : World.t)
    : outcome unit * t * World.t :=
  match file with
  | Missing => (Raise (HistoryError "Failed to load history from CSV"), self, w)
  | Unreadable => (Raise (HistoryError "Failed to load history from CSV"), self, w)
  | EmptyData => (Return tt, clear_history self, w)
  | Frame rows =>
      match append_rows now rows (clear_history self) w with
      | (Raise e, self, w) =>
          (Raise (HistoryError "Failed to load history from CSV"), self, w)
      | (Return _, self, w) =>
          (Return tt, set_list self (trim (_max_size self) (_history self)), w)
      end
  end.

End CalculationHistory.

(** ** app/calculator_memento.py *)

Module CalculatorMemento.

Record t : Type := { _history : list Calculation.t }.

Definition __init__ (history : list Calculation.t) : t :=
  {| _history := history |}.

Definition get_history (self : t) : list Calculation.t := _history self.

End CalculatorMemento.

Module CalculatorCaretaker.

Record t : Type := {
  _undo_stack : list CalculatorMemento.t;
  _redo_stack : list CalculatorMemento.t
}.

Definition __init__ : t := {| _undo_stack := []; _redo_stack := [] |}.

Definition save_state (self : t) (memento : CalculatorMemento.t) : t :=
  {| _undo_stack := PyList.append (_undo_stack self) memento;
     _redo_stack := [] |}.

Definition undo (self : t) : outcome CalculatorMemento.t * t :=
  match PyList.pop (_undo_stack self) with
  | None => (Raise (IndexError "Nothing to undo"), self)
  | Some (memento, rest) =>
      let self' := {| _undo_stack := rest;
                      _redo_stack := PyList.append (_redo_stack self) memento |} in
      match PyList.pop rest with
      | Some (top, _) => (Return top, self')
      | None => (Return (CalculatorMemento.__init__ []), self')
      end
  end.

Definition redo (self : t) : outcome CalculatorMemento.t * t :=
  match PyList.pop (_redo_stack self) with
  | None => (Raise (IndexError "Nothing to redo"), self)
  | Some (memento, rest) =>
      (Return memento,
       {| _undo_stack := PyList.append (_undo_stack self) memento;
          _redo_stack := rest |})
  end.

Definition can_undo (self : t) : bool := 0 <? Z.of_nat (List.length (_undo_stack self)).
Definition can_redo (self : t) : bool := 0 <? Z.of_nat (List.length (_redo_stack self)).

Definition clear (self : t) : t := {| _undo_stack := []; _redo_stack := [] |}.

End CalculatorCaretaker.

(** ** app/calculator.py *)

Module CalculatorObserver.

(** The observers the module defines, and any other subclass a caller
    registers: such an observer is given by its name and by what its handler
    does with a calculation, returning or raising. The auto-save observer
    holds the calculator's own history object, so it is handed the store as
    it is when the notification arrives. *)
Inductive t : Type :=
| LoggingObserver
| AutoSaveObserver (file_path encoding : string)
| UserObserver (name : string) (handler : Calculation.t -> outcome unit).

Definition on_calculation_performed (self : t) (history : CalculationHistory.t)
    (calculation : Calculation.t) (w : World.t) : outcome unit * World.t :=
  match self with
  | LoggingObserver =>
      (Return tt, World.info w (World.CalculationPerformed calculation))
  | AutoSaveObserver file_path encoding =>
      match CalculationHistory.save_to_csv history file_path encoding w with
      | (Return _, w) => (Return tt, w)
      | (Raise _, w) => (Return tt, World.print w "Failed to auto-save history")
      end
  | UserObserver name handler =>
      (handler calculation, World.emit w (World.Handled name calculation))
  end.

End CalculatorObserver.

Module Calculator.

Record t : Type := {
  config : CalculatorConfig.t;
  history : CalculationHistory.t;
  caretaker : CalculatorCaretaker.t;
  observers : list CalculatorObserver.t
}.

Definition register_observer (self : t) (observer : CalculatorObserver.t) : t :=
  {| config := config self; history := history self;
     caretaker := caretaker self;
     observers := PyList.append (observers self) observer |}.

(** [os.path.join(self.config.history_dir, 'calculator_history.csv')]. *)
Definition history_file (cfg : CalculatorConfig.t) : string :=
  PosixPath.join (CalculatorConfig.history_dir cfg) "calculator_history.csv".

(** The constructor, on a configuration already loaded. Of the logger it
    keeps the line it writes; the log file it opens is left out. *)
Definition __init__ (cfg : CalculatorConfig.t) (w : World.t) : t * World.t :=
  let history := CalculationHistory.__init__ (CalculatorConfig.max_history_size cfg) in
  let caretaker :=
    CalculatorCaretaker.save_state CalculatorCaretaker.__init__
      (CalculatorMemento.__init__ (CalculationHistory.get_history history)) in
  let self := {| config := cfg; history := history; caretaker := caretaker;
                 observers := [] |} in
  let self := register_observer self CalculatorObserver.LoggingObserver in
  let self :=
    if CalculatorConfig.auto_save cfg
    then register_observer self
           (CalculatorObserver.AutoSaveObserver (history_file cfg)
              (CalculatorConfig.default_encoding cfg))
    else self in
  (self, World.info w (World.Text "Calculator initialized")).

(** The loop of [notify_observers]: handlers run in list order, and the
    first exception leaves the loop. *)
Fixpoint notify (observers : list CalculatorObserver.t)
    (history : CalculationHistory.t) (calculation : Calculation.t)
    (w : World.t) : outcome unit * World.t :=
  match observers with
  | [] => (Return tt, w)
  | observer :: rest =>
      match CalculatorObserver.on_calculation_performed observer history calculation w with
      | (Raise e, w) => (Raise e, w)
      | (Return _, w) => notify rest history calculation w
      end
  end.

Definition notify_observers (self : t) (calculation : Calculation.t)
    (w : World.t) : outcome unit * World.t :=
  notify (observers self) (history self) calculation w.

(** The first half of [perform_calculation], up to the rounding: validated
    operands and the rounded result, or the exception that ends the call. *)
Definition compute (P : Platform.t) (cfg : CalculatorConfig.t)
    (operation : string) (operand1 operand2 : PyValue)
    : outcome (float * float * float) :=
  (operand1 <- InputValidator.validate_number operand1
                 (Some (CalculatorConfig.max_input_value cfg)) ;;
   operand2 <- InputValidator.validate_number operand2
                 (Some (CalculatorConfig.max_input_value cfg)) ;;
   op <- OperationFactory.create_operation operation ;;
   result <- Operation.execute P op operand1 operand2 ;;
   Return (operand1, operand2,
           Platform.round P result (CalculatorConfig.precision cfg)))%py.

Definition perform_calculation (P : Platform.t) (self : t) (operation : string)
    (operand1 operand2 : PyValue) (now : Z) (w : World.t)
    : outcome float * t * World.t :=
  match compute P (config self) operation operand1 operand2 with
  | Raise e => (Raise e, self, w)
  | Return (operand1, operand2, result) =>
      let (oid, w) := World.alloc w in
      let calculation :=
        Calculation.__init__ oid now operation operand1 operand2 result in
      let history := CalculationHistory.add_calculation (history self) calculation in
      let caretaker :=
        CalculatorCaretaker.save_state (caretaker self)
          (CalculatorMemento.__init__ (CalculationHistory.get_history history)) in
      let self := {| config := config self; history := history;
                     caretaker := caretaker; observers := observers self |} in
      match notify_observers self calculation w with
      | (Raise e, w) => (Raise e, self, w)
      | (Return _, w) => (Return result, self, w)
      end
  end.

Definition is_IndexError (e : exn) : bool :=
  match e with IndexError _ => true | _ => false end.

Definition with_caretaker (self : t) (caretaker : CalculatorCaretaker.t) : t :=
  {| config := config self; history := history self; caretaker := caretaker;
     observers := observers self |}.

Definition undo (self : t) (w : World.t) : outcome unit * t * World.t :=
  if negb (CalculatorCaretaker.can_undo (caretaker self))
  then (Raise (HistoryError "Nothing to undo"), self, w)
  else
    match CalculatorCaretaker.undo (caretaker self) with
    | (Return memento, caretaker) =>
        let history :=
          CalculationHistory.set_history (history self)
            (CalculatorMemento.get_history memento) in
        let w := World.info w (World.Text "Undo performed") in
        let w := World.print w "Undo successful" in
        (Return tt,
         {| config := config self; history := history; caretaker := caretaker;
            observers := observers self |}, w)
    | (Raise e, caretaker) =>
        (Raise (if is_IndexError e then HistoryError "Nothing to undo" else e),
         with_caretaker self caretaker, w)
    end.

Definition redo (self : t) (w : World.t) : outcome unit * t * World.t :=
  if negb (CalculatorCaretaker.can_redo (caretaker self))
  then (Raise (HistoryError "Nothing to redo"), self, w)
  else
    match CalculatorCaretaker.redo (caretaker self) with
    | (Return memento, caretaker) =>
        let history :=
          CalculationHistory.set_history (history self)
            (CalculatorMemento.get_history memento) in
        let w := World.info w (World.Text "Redo performed") in
        let w := World.print w "Redo successful" in
        (Return tt,
         {| config := config self; history := history; caretaker := caretaker;
            observers := observers self |}, w)
    | (Raise e, caretaker) =>
        (Raise (if is_IndexError e then HistoryError "Nothing to redo" else e),
         with_caretaker self caretaker, w)
    end.

Definition clear_history (self : t) (w : World.t) : t * World.t :=
  let self := {| config := config self;
                 history := CalculationHistory.clear_history (history self);
                 caretaker := CalculatorCaretaker.clear (caretaker self);
                 observers := observers self |} in
  let w := World.info w (World.Text "History cleared") in
  (self, World.print w "History cleared").

Definition save_history (self : t) (file_path : option string) (w : World.t)
    : outcome unit * World.t :=
  let file_path :=
    match file_path with
    | None => history_file (config self)
    | Some p => p
    end in
  match CalculationHistory.save_to_csv (history self) file_path
          (CalculatorConfig.default_encoding (config self)) w with
  | (Raise e, w) => (Raise e, w)
  | (Return _, w) =>
      let w := World.info w (World.Text ("History saved to " ++ file_path)%string) in
      (Return tt, World.print w ("History saved to " ++ file_path)%string)
  end.

(** [load_history]: [file] is what the file system holds at the path. *)
Definition load_history (self : t) (file_path : option string)
    (file : CalculationHistory.CsvFile) (now : Z) (w : World.t)
    : outcome unit * t * World.t :=
  let file_path :=
    match file_path with
    | None => history_file (config self)
    | Some p => p
    end in
  match CalculationHistory.load_from_csv (history self) file now w with
  | (r, history, w) =>
      let self := {| config := config self; history := history;
                     caretaker := caretaker self; observers := observers self |} in
      match r with
      | Raise e => (Raise e, self, w)
      | Return _ =>
          let w := World.info w (World.Text ("History loaded from " ++ file_path)%string) in
          (Return tt, self, World.print w ("History loaded from " ++ file_path)%string)
      end
  end.

(** The calls the command loop makes on the engine. *)
Inductive Command : Type :=
| Perform (operation : string) (operand1 operand2 : PyValue) (now : Z)
| Undo
| Redo
| Clear
| Save (file_path : option string)
| Load (file_path : option string) (file : CalculationHistory.CsvFile) (now : Z)
| Register (observer : CalculatorObserver.t).

(** One call, whatever it returns or raises: the calculator and the world
    it leaves behind. *)
Definition step (P : Platform.t) (cmd : Command) (s : t * World.t) : t * World.t :=
  let (self, w) := s in
  match cmd with
  | Perform operation operand1 operand2 now =>
      let '(_, self, w) := perform_calculation P self operation operand1 operand2 now w in
      (self, w)
  | Undo => let '(_, self, w) := undo self w in (self, w)
  | Redo => let '(_, self, w) := redo self w in (self, w)
  | Clear => clear_history self w
  | Save file_path => let '(_, w) := save_history self file_path w in (self, w)
  | Load file_path file now =>
      let '(_, self, w) := load_history self file_path file now w in (self, w)
  | Register observer => (register_observer self observer, w)
  end.

Definition run (P : Platform.t) (cmds : list Command) (s : t * World.t) : t * World.t :=
  fold_left (fun s cmd => step P cmd s) cmds s.

End Calculator.

(** ** Worked examples *)

Module Examples.

(** A platform for the examples below: their results are whole numbers,
    which [round] returns unchanged, and they never reach the C library's
    [pow], for which a constant stands in. *)
Definition platform : Platform.t :=
  {| Platform.libm_pow := fun _ _ => 1%float;
     Platform.round := fun x _ => x |}.

(** A platform for the examples on powers and roots: its [pow] is right on
    the cube roots of 8 and of 27, and a constant stands in elsewhere. *)
Definition roots : Platform.t :=
  {| Platform.libm_pow := fun x y =>
       if (y =? 1 / 3)%float
       then (if (x =? 8)%float then 2%float
             else if (x =? 27)%float then 3%float else 1%float)
       else 1%float;
     Platform.round := fun x _ => x |}.

(** A platform for the examples whose power is beyond the doubles. *)
Definition overflowing : Platform.t :=
  {| Platform.libm_pow := fun _ _ => infinity;
     Platform.round := fun x _ => x |}.

(** A world at interpreter start, with a disk that takes every write. *)
Definition boot : World.t :=
  {| World.next_oid := 0; World.events := []; World.writable := fun _ => true |}.

Definition fresh : Calculator.t * World.t :=
  Calculator.__init__ CalculatorConfig.DEFAULTS boot.

(** Three records, as three constructor calls in a row make them. *)
Definition c1 : Calculation.t := Calculation.__init__ 0 10 "add" 5 3 8.
Definition c2 : Calculation.t := Calculation.__init__ 1 11 "multiply" 2 4 8.
Definition c3 : Calculation.t := Calculation.__init__ 2 12 "subtract" 9 4 5.

(** Rows of a history file: one well-formed, one whose first operand is
    text that is no number. *)
Definition good_row : Calculation.Row :=
  {| Calculation.row_operation := Some "add"%string;
     Calculation.row_operand1 := Some (PyNum 1);
     Calculation.row_operand2 := Some (PyNum 2);
     Calculation.row_result := Some (PyNum 3);
     Calculation.row_timestamp := Some (Calculation.Iso 7) |}.

Definition bad_row : Calculation.Row :=
  {| Calculation.row_operation := Some "add"%string;
     Calculation.row_operand1 := Some (PyStr "abc");
     Calculation.row_operand2 := Some (PyNum 2);
     Calculation.row_result := Some (PyNum 3);
     Calculation.row_timestamp := Some (Calculation.Iso 8) |}.

(** Two observers a caller may register: one whose handler raises, one
    whose handler returns. *)
Definition failing : CalculatorObserver.t :=
  CalculatorObserver.UserObserver "failing" (fun _ => Raise (UserException "boom")).

Definition second : CalculatorObserver.t :=
  CalculatorObserver.UserObserver "second" (fun _ => Return tt).

Definition handled_by (name : string) (e : World.Event) : bool :=
  match e with
  | World.Handled observer _ => String.eqb observer name
  | _ => false
  end.

(** One addition performed and undone. *)
Definition undone : Calculator.t * World.t :=
  Calculator.run platform
    [Calculator.Perform "add" (PyNum 5) (PyNum 3) 10; Calculator.Undo] fresh.

(** The default configuration with the empty string as history directory. *)
Definition in_working_directory : CalculatorConfig.t :=
  {| CalculatorConfig.log_dir := "logs"; CalculatorConfig.history_dir := "";
     CalculatorConfig.max_history_size := 100; CalculatorConfig.auto_save := true;
     CalculatorConfig.precision := 2; CalculatorConfig.max_input_value := 1e10;
     CalculatorConfig.default_encoding := "utf-8" |}.

(** One addition performed, with its snapshot on the undo stack. *)
Definition added : Calculator.t * World.t :=
  Calculator.run platform [Calculator.Perform "add" (PyNum 5) (PyNum 3) 10] fresh.

End Examples.

(** * Notions the statements use *)

Section HistoryNotions.

Import CalculationHistory.

(** The last [n] entries of a sequence, oldest first. *)
Definition most_recent {A} (n : nat) (l : list A) : list A :=
  skipn (List.length l - n) l.

(** [N] calls of [add_calculation], oldest input first. *)
Definition add_all (self : t) (inputs : list Calculation.t) : t :=
  fold_left add_calculation inputs self.

End HistoryNotions.

Section CalculatorNotions.

Import Calculator.

(** The calculator a successful call leaves: the new record appended and
    trimmed, and a snapshot of that history on the stack. *)
Definition performed (self : t) (calculation : Calculation.t) : t :=
  let history := CalculationHistory.add_calculation (history self) calculation in
  {| config := config self; history := history;
     caretaker :=
       CalculatorCaretaker.save_state (caretaker self)
         (CalculatorMemento.__init__ (CalculationHistory.get_history history));
     observers := observers self |}.

(** An observer that raises neither of the engine's two error classes,
    whatever it is handed. *)
Definition engine_errors_free (o : CalculatorObserver.t) : Prop :=
  forall history calculation w e,
    fst (CalculatorObserver.on_calculation_performed o history calculation w) = Raise e ->
    is_ValidationError e || is_OperationError e = false.

(** The list the top snapshot holds, the empty list under an empty stack:
    what [CalculatorCaretaker.undo] answers with once the stack is popped. *)
Definition top_history (stack : list CalculatorMemento.t) : list Calculation.t :=
  match PyList.pop stack with
  | Some (memento, _) => CalculatorMemento.get_history memento
  | None => []
  end.

Definition after_undo (w : World.t) : World.t :=
  World.print (World.info w (World.Text "Undo performed")) "Undo successful".

Definition after_redo (w : World.t) : World.t :=
  World.print (World.info w (World.Text "Redo performed")) "Redo successful".

Definition capacity (self : t) : Z := CalculationHistory._max_size (history self).

(** A snapshot that fits the capacity [k]. *)
Definition fits (k : Z) (m : CalculatorMemento.t) : Prop :=
  Z.of_nat (List.length (CalculatorMemento.get_history m)) <= k.

(** The history is the list of the top snapshot (empty under an empty
    stack), and every snapshot on either stack fits the capacity. *)
Record consistent (self : t) : Prop := {
  capacity_positive : 1 <= capacity self;
  synced :
    CalculationHistory.get_history (history self) =
    top_history (CalculatorCaretaker._undo_stack (caretaker self));
  undo_fits : Forall (fits (capacity self)) (CalculatorCaretaker._undo_stack (caretaker self));
  redo_fits : Forall (fits (capacity self)) (CalculatorCaretaker._redo_stack (caretaker self))
}.

(** The calls that go through the caretaker or leave the history alone:
    every call but [load_history]. *)
Definition keeps_snapshots (cmd : Command) : Prop :=
  match cmd with
  | Load _ _ _ => False
  | _ => True
  end.

(** [n] calls of [undo] in a row that all return; [None] as soon as one
    raises. *)
Fixpoint undo_times (n : nat) (s : t * World.t) : option (t * World.t) :=
  match n with
  | O => Some s
  | S n' =>
      match undo (fst s) (snd s) with
      | (Return _, self, w) => undo_times n' (self, w)
      | (Raise _, _, _) => None
      end
  end.

Fixpoint redo_times (n : nat) (s : t * World.t) : option (t * World.t) :=
  match n with
  | O => Some s
  | S n' =>
      match redo (fst s) (snd s) with
      | (Return _, self, w) => redo_times n' (self, w)
      | (Raise _, _, _) => None
      end
  end.

Definition is_perform (cmd : Command) : Prop :=
  match cmd with
  | Perform _ _ _ _ => True
  | _ => False
  end.

(** What calls of [perform_calculation] alone keep true of a fresh
    calculator: the first snapshot stays at the bottom of the undo stack and
    the redo stack stays empty. *)
Definition floor_kept (self : t) : Prop :=
  (exists rest,
     CalculatorCaretaker._undo_stack (caretaker self) =
     CalculatorMemento.__init__ [] :: rest) /\
  CalculatorCaretaker._redo_stack (caretaker self) = [].

(** What an observer's handler answers, and the world the handlers of a
    list of observers leave when each is run in turn. *)
Definition answer (o : CalculatorObserver.t) (history : CalculationHistory.t)
    (calculation : Calculation.t) (w : World.t) : outcome unit :=
  fst (CalculatorObserver.on_calculation_performed o history calculation w).

Definition run_handlers (obs : list CalculatorObserver.t)
    (history : CalculationHistory.t) (calculation : Calculation.t)
    (w : World.t) : World.t :=
  fold_left
    (fun w o => snd (CalculatorObserver.on_calculation_performed o history calculation w))
    obs w.

Definition returns (history : CalculationHistory.t) (calculation : Calculation.t)
    (o : CalculatorObserver.t) : Prop :=
  forall w, answer o history calculation w = Return tt.

Definition raises (history : CalculationHistory.t) (calculation : Calculation.t)
    (e : exn) (o : CalculatorObserver.t) : Prop :=
  forall w, answer o history calculation w = Raise e.

Definition builtin (o : CalculatorObserver.t) : Prop :=
  match o with
  | CalculatorObserver.UserObserver _ _ => False
  | _ => True
  end.

End CalculatorNotions.

Section EngineNotions.

Import Calculator.

(** What the C standard fixes of [pow] on a positive base: the result is a
    number and is not below zero. *)
Definition pow_is_nonnegative (P : Platform.t) : Prop :=
  forall x y : float,
    (0 <? x)%float = true -> (0 <=? Platform.libm_pow P x y)%float = true.

(** [x] is within [eps] of [c]. *)
Definition near (x c eps : float) : bool :=
  ((c - eps <=? x) && (x <=? c + eps))%float.

(** How many of the calls are calls of [perform_calculation] that return,
    when the calls are made one after the other from [s]. *)
Fixpoint calculations_recorded (P : Platform.t) (cmds : list Command)
    (s : t * World.t) : nat :=
  match cmds with
  | [] => 0
  | cmd :: rest =>
      (match cmd with
       | Perform operation operand1 operand2 now =>
           match fst (fst (perform_calculation P (fst s) operation operand1
                             operand2 now (snd s))) with
           | Return _ => 1
           | Raise _ => 0
           end
       | _ => 0
       end + calculations_recorded P rest (step P cmd s))%nat
  end.

(** The world after [k] more objects have been allocated. *)
Definition after_allocations (k : nat) (w : World.t) : World.t :=
  Nat.iter k (fun w => snd (World.alloc w)) w.

(** The operations whose [execute] tests its second operand against zero. *)
Definition divides (op : Operation.t) : bool :=
  match op with
  | Operation.Divide | Operation.Modulus | Operation.IntegerDivide
  | Operation.Percentage => true
  | _ => false
  end.

(** A row every cell of which [from_dict] can read. *)
Definition parses (row : Calculation.Row) : Prop :=
  exists c, Calculation.from_dict 0 0 row = Return c.

(** Every call but a load that meets a malformed row. *)
Definition loads_cleanly (cmd : Command) : Prop :=
  match cmd with
  | Load _ (CalculationHistory.Frame rows) _ => Forall parses rows
  | _ => True
  end.

(** The history and every snapshot within the configured capacity. *)
Record within_capacity (cfg : CalculatorConfig.t) (self : t) : Prop := {
  capacity_configured : capacity self = CalculatorConfig.max_history_size cfg;
  capacity_at_least_one : 1 <= capacity self;
  history_fits : CalculationHistory.__len__ (history self) <= capacity self;
  undo_stack_fits :
    Forall (fits (capacity self)) (CalculatorCaretaker._undo_stack (caretaker self));
  redo_stack_fits :
    Forall (fits (capacity self)) (CalculatorCaretaker._redo_stack (caretaker self))
}.

Definition is_undo_or_redo (cmd : Command) : Prop :=
  match cmd with
  | Undo | Redo => True
  | _ => False
  end.

(** Every call but [register_observer]. *)
Definition keeps_observers (cmd : Command) : Prop :=
  match cmd with
  | Register _ => False
  | _ => True
  end.

End EngineNotions.

(** * Supporting lemmas *)

(** ** Lists as Python uses them *)

Section PyListFacts.
Context {A : Type}.

Lemma pop_nil : PyList.pop (@nil A) = None.
Proof. reflexivity. Qed.

Lemma pop_append (l : list A) (x : A) : PyList.pop (PyList.append l x) = Some (x, l).
Proof.
  unfold PyList.pop, PyList.append. rewrite rev_unit, rev_involutive. reflexivity.
Qed.

Lemma pop_None (l : list A) : PyList.pop l = None -> l = [].
Proof.
  unfold PyList.pop. destruct (rev l) eqn:E; [|discriminate].
  intros _. apply (f_equal (@rev A)) in E. rewrite rev_involutive in E. exact E.
Qed.

Lemma pop_Some (l : list A) (x : A) (r : list A) :
  PyList.pop l = Some (x, r) -> l = r ++ [x].
Proof.
  unfold PyList.pop. destruct (rev l) eqn:E; [discriminate|].
  intros [= <- <-]. apply (f_equal (@rev A)) in E.
  rewrite rev_involutive in E. exact E.
Qed.

(** With a capacity of at least one, [h[-k:]] keeps the last [k] entries. *)
Lemma slice_from_last (k : Z) (l : list A) :
  1 <= k ->
  PyList.slice_from (- k) l = skipn (List.length l - Z.to_nat k) l.
Proof.
  intros Hk. unfold PyList.slice_from.
  replace (- k <? 0) with true by (symmetry; apply Z.ltb_lt; lia).
  f_equal. lia.
Qed.

End PyListFacts.

(** ** The bounded history *)

Section HistoryFacts.

Import CalculationHistory.

Lemma length_most_recent {A} (n : nat) (l : list A) :
  List.length (most_recent n l) = Nat.min (List.length l) n.
Proof. unfold most_recent. rewrite length_skipn. lia. Qed.

Lemma trim_fits (k : Z) (h : list Calculation.t) :
  Z.of_nat (List.length h) <= k -> trim k h = h.
Proof.
  intros H. unfold trim.
  replace (k <? Z.of_nat (List.length h)) with false; [reflexivity|].
  symmetry. apply Z.ltb_ge. exact H.
Qed.

Lemma trim_nil (k : Z) : trim k [] = [].
Proof.
  unfold trim, PyList.slice_from. destruct (k <? _); [|reflexivity].
  apply skipn_nil.
Qed.

Lemma trim_most_recent (k : Z) (h : list Calculation.t) :
  1 <= k -> trim k h = most_recent (Z.to_nat k) h.
Proof.
  intros Hk. unfold trim, most_recent.
  destruct (k <? Z.of_nat (List.length h)) eqn:E.
  - apply slice_from_last. exact Hk.
  - apply Z.ltb_ge in E.
    replace (List.length h - Z.to_nat k)%nat with 0%nat by lia. reflexivity.
Qed.

Lemma length_trim (k : Z) (h : list Calculation.t) :
  1 <= k -> Z.of_nat (List.length (trim k h)) <= k.
Proof.
  intros Hk. rewrite trim_most_recent, length_most_recent by exact Hk. lia.
Qed.

Lemma most_recent_snoc {A} (n : nat) (l : list A) (x : A) :
  (1 <= n)%nat ->
  most_recent n (most_recent n l ++ [x]) = most_recent n (l ++ [x]).
Proof.
  intros Hn. unfold most_recent.
  rewrite !length_app, length_skipn, !skipn_app, skipn_skipn, length_skipn.
  cbn [List.length].
  f_equal; f_equal; lia.
Qed.

Lemma max_size_add_all (self : t) (inputs : list Calculation.t) :
  _max_size (add_all self inputs) = _max_size self.
Proof.
  revert self. induction inputs as [|c inputs IH]; intros self; [reflexivity|].
  cbn. unfold add_all in IH. rewrite IH. reflexivity.
Qed.

Lemma history_add_all (k : Z) (inputs : list Calculation.t) :
  1 <= k ->
  _history (add_all (__init__ k) inputs) = most_recent (Z.to_nat k) inputs.
Proof.
  intros Hk. induction inputs as [|x l IH] using rev_ind.
  - reflexivity.
  - unfold add_all in *. rewrite fold_left_app. cbn [fold_left].
    unfold add_calculation at 1. cbn [_history set_list].
    fold (add_all (__init__ k) l). rewrite max_size_add_all. cbn [_max_size __init__].
    rewrite trim_most_recent by exact Hk. unfold PyList.append.
    unfold add_all. rewrite IH. apply most_recent_snoc. lia.
Qed.

Lemma max_size_append_rows (now : Z) (rows : list Calculation.Row) (self : t)
    (w : World.t) :
  _max_size (snd (fst (append_rows now rows self w))) = _max_size self.
Proof.
  revert self w. induction rows as [|row rows IH]; intros self w; [reflexivity|].
  cbn. destruct (Calculation.from_dict _ _ _); [|reflexivity].
  rewrite IH. reflexivity.
Qed.

Lemma max_size_load_from_csv (self : t) (file : CsvFile) (now : Z) (w : World.t) :
  _max_size (snd (fst (load_from_csv self file now w))) = _max_size self.
Proof.
  destruct file as [| | |rows]; try reflexivity. cbn.
  pose proof (max_size_append_rows now rows (clear_history self) w) as H.
  destruct (append_rows now rows (clear_history self) w) as [[[?|?] self'] w'];
    cbn in *; exact H.
Qed.

Lemma length_load_from_csv (self self' : t) (file : CsvFile) (now : Z)
    (w w' : World.t) :
  1 <= _max_size self ->
  load_from_csv self file now w = (Return tt, self', w') ->
  __len__ self' <= _max_size self'.
Proof.
  intros Hk H.
  pose proof (max_size_load_from_csv self file now w) as Hm.
  rewrite H in Hm. cbn in Hm. rewrite Hm. unfold __len__.
  destruct file as [| | |rows]; cbn in H; try discriminate.
  - injection H as <- <-. cbn. lia.
  - pose proof (max_size_append_rows now rows (clear_history self) w) as Hr.
    destruct (append_rows now rows (clear_history self) w) as [[[?|?] s1] w1];
      [|discriminate].
    injection H as <- <-. cbn in *. rewrite Hr. apply length_trim. exact Hk.
Qed.

Lemma append_rows_returns (now : Z) (rows : list Calculation.Row) :
  forall (self self' : CalculationHistory.t) (w w' : World.t),
    CalculationHistory.append_rows now rows self w = (Return tt, self', w') ->
    exists parsed,
      List.length parsed = List.length rows /\
      self' = CalculationHistory.set_list self
                (CalculationHistory._history self ++ parsed).
Proof.
  induction rows as [|row rows IH]; intros self self' w w' H; cbn in H.
  - injection H as <- <-. exists []. rewrite app_nil_r. destruct self; auto.
  - destruct (Calculation.from_dict _ _ _) as [calc|e]; [|discriminate].
    apply IH in H. destruct H as (parsed & Hlen & ->).
    exists (calc :: parsed). cbn. rewrite Hlen. split; [reflexivity|].
    unfold CalculationHistory.set_list, PyList.append. cbn.
    rewrite <- app_assoc. reflexivity.
Qed.

End HistoryFacts.

(** ** [perform_calculation] *)

Section PerformFacts.

Import Calculator.
Variable P : Platform.t.

Lemma perform_returns (self : t) (operation : string) (a b : PyValue) (now : Z)
    (w : World.t) (r : float) (self' : t) (w' : World.t) :
  perform_calculation P self operation a b now w = (Return r, self', w') ->
  exists x y,
    compute P (config self) operation a b = Return (x, y, r) /\
    let calculation := Calculation.__init__ (World.next_oid w) now operation x y r in
    self' = performed self calculation /\
    notify_observers self' calculation (snd (World.alloc w)) = (Return tt, w').
Proof.
  unfold perform_calculation.
  destruct (compute P (config self) operation a b) as [[[x y] r0]|e]; [|discriminate].
  cbn [World.alloc]. fold (performed self (Calculation.__init__ (World.next_oid w) now operation x y r0)).
  destruct (notify_observers _ _ _) as [[[]|e] w1] eqn:E; [|discriminate].
  intros [= <- <- <-]. exists x, y. cbn zeta. auto.
Qed.

(** Steps 1 and 2 come before every mutation: when validation or the
    operation raises, the call raises the same exception and neither the
    calculator nor the world has moved. *)
Lemma perform_aborts_before_mutation (self : t) (operation : string)
    (a b : PyValue) (now : Z) (w : World.t) (e : exn) :
  compute P (config self) operation a b = Raise e ->
  perform_calculation P self operation a b now w = (Raise e, self, w).
Proof. intros H. unfold perform_calculation. rewrite H. reflexivity. Qed.

Lemma notify_raises (obs : list CalculatorObserver.t)
    (history : CalculationHistory.t) (calculation : Calculation.t)
    (w w' : World.t) (e : exn) :
  notify obs history calculation w = (Raise e, w') ->
  exists o w0, In o obs /\
    fst (CalculatorObserver.on_calculation_performed o history calculation w0) = Raise e.
Proof.
  revert w. induction obs as [|o obs IH]; intros w; cbn; [discriminate|].
  destruct (CalculatorObserver.on_calculation_performed o history calculation w)
    as [[[]|e0] w1] eqn:E.
  - intros H. destruct (IH _ H) as (o' & w0 & Hin & Ho').
    exists o', w0. auto.
  - intros [= -> ->]. exists o, w. rewrite E. auto.
Qed.

Lemma builtin_observers_never_raise (o : CalculatorObserver.t)
    (history : CalculationHistory.t) (calculation : Calculation.t) (w : World.t) :
  match o with CalculatorObserver.UserObserver _ _ => False | _ => True end ->
  fst (CalculatorObserver.on_calculation_performed o history calculation w) = Return tt.
Proof.
  destruct o as [|file_path encoding|name handler]; cbn; [reflexivity| |tauto].
  intros _. destruct (CalculationHistory.save_to_csv _ _ _ _) as [[[]|e] w1]; reflexivity.
Qed.

End PerformFacts.

(** ** Undo and redo *)

Section UndoRedoFacts.

Import Calculator.

Lemma can_undo_append (rest : list CalculatorMemento.t) (m : CalculatorMemento.t)
    (redo_stack : list CalculatorMemento.t) :
  CalculatorCaretaker.can_undo
    {| CalculatorCaretaker._undo_stack := rest ++ [m];
       CalculatorCaretaker._redo_stack := redo_stack |} = true.
Proof.
  unfold CalculatorCaretaker.can_undo. cbn. rewrite length_app. cbn.
  apply Z.ltb_lt. lia.
Qed.

Lemma can_redo_append (undo_stack rest : list CalculatorMemento.t)
    (m : CalculatorMemento.t) :
  CalculatorCaretaker.can_redo
    {| CalculatorCaretaker._undo_stack := undo_stack;
       CalculatorCaretaker._redo_stack := rest ++ [m] |} = true.
Proof.
  unfold CalculatorCaretaker.can_redo. cbn. rewrite length_app. cbn.
  apply Z.ltb_lt. lia.
Qed.

(** [undo] on an empty stack raises and changes nothing. *)
Lemma undo_empty (self : t) (w : World.t) :
  CalculatorCaretaker._undo_stack (caretaker self) = [] ->
  undo self w = (Raise (HistoryError "Nothing to undo"), self, w).
Proof.
  intros H. unfold undo, CalculatorCaretaker.can_undo. rewrite H. reflexivity.
Qed.

(** [undo] on a stack [rest ++ [m]] moves [m] to the redo stack and sets the
    history to what is now on top. *)
Lemma undo_nonempty (self : t) (w : World.t) (rest : list CalculatorMemento.t)
    (m : CalculatorMemento.t) :
  CalculatorCaretaker._undo_stack (caretaker self) = rest ++ [m] ->
  undo self w =
    (Return tt,
     {| config := config self;
        history := CalculationHistory.set_history (history self) (top_history rest);
        caretaker :=
          {| CalculatorCaretaker._undo_stack := rest;
             CalculatorCaretaker._redo_stack :=
               CalculatorCaretaker._redo_stack (caretaker self) ++ [m] |};
        observers := observers self |},
     after_undo w).
Proof.
  intros H. unfold undo. destruct (caretaker self) as [U R] eqn:Ec. cbn in H. subst U.
  rewrite can_undo_append. cbn [negb].
  unfold CalculatorCaretaker.undo. cbn [CalculatorCaretaker._undo_stack].
  change (rest ++ [m]) with (PyList.append rest m). rewrite pop_append.
  unfold top_history.
  destruct (PyList.pop rest) as [[top ?]|]; reflexivity.
Qed.

Lemma redo_empty (self : t) (w : World.t) :
  CalculatorCaretaker._redo_stack (caretaker self) = [] ->
  redo self w = (Raise (HistoryError "Nothing to redo"), self, w).
Proof.
  intros H. unfold redo, CalculatorCaretaker.can_redo. rewrite H. reflexivity.
Qed.

(** [redo] on a redo stack [rest ++ [m]] moves [m] back and sets the history
    to the list [m] holds. *)
Lemma redo_nonempty (self : t) (w : World.t) (rest : list CalculatorMemento.t)
    (m : CalculatorMemento.t) :
  CalculatorCaretaker._redo_stack (caretaker self) = rest ++ [m] ->
  redo self w =
    (Return tt,
     {| config := config self;
        history :=
          CalculationHistory.set_history (history self)
            (CalculatorMemento.get_history m);
        caretaker :=
          {| CalculatorCaretaker._undo_stack :=
               CalculatorCaretaker._undo_stack (caretaker self) ++ [m];
             CalculatorCaretaker._redo_stack := rest |};
        observers := observers self |},
     after_redo w).
Proof.
  intros H. unfold redo. destruct (caretaker self) as [U R] eqn:Ec. cbn in H. subst R.
  rewrite can_redo_append. cbn [negb].
  unfold CalculatorCaretaker.redo. cbn [CalculatorCaretaker._redo_stack].
  change (rest ++ [m]) with (PyList.append rest m). rewrite pop_append.
  reflexivity.
Qed.

(** A stack is empty or ends in its top element. *)
Lemma stack_cases {A} (l : list A) : l = [] \/ exists rest x, l = rest ++ [x].
Proof.
  destruct l as [|a l] using rev_ind; [left; reflexivity|].
  right. eauto.
Qed.

Lemma top_history_append (rest : list CalculatorMemento.t) (m : CalculatorMemento.t) :
  top_history (rest ++ [m]) = CalculatorMemento.get_history m.
Proof.
  unfold top_history. change (rest ++ [m]) with (PyList.append rest m).
  rewrite pop_append. reflexivity.
Qed.

End UndoRedoFacts.

(** ** The invariant that ties the history to the snapshots *)

Section Invariant.

Import Calculator.

Lemma fits_top_history (k : Z) (stack : list CalculatorMemento.t) :
  0 <= k -> Forall (fits k) stack ->
  Z.of_nat (List.length (top_history stack)) <= k.
Proof.
  intros Hk H. destruct (stack_cases stack) as [->|(rest & m & ->)].
  - cbn. lia.
  - rewrite top_history_append. apply Forall_app in H. destruct H as [_ H].
    inversion H; subst. assumption.
Qed.

Lemma consistent_init (cfg : CalculatorConfig.t) (w : World.t) :
  1 <= CalculatorConfig.max_history_size cfg ->
  consistent (fst (__init__ cfg w)).
Proof.
  intros Hk. unfold __init__. cbn [fst].
  destruct (CalculatorConfig.auto_save cfg); constructor; cbn;
    try assumption; try reflexivity;
    repeat constructor; unfold fits; cbn; lia.
Qed.

Lemma consistent_performed (self : t) (calculation : Calculation.t) :
  consistent self -> consistent (performed self calculation).
Proof.
  intros [Hk Hs Hu Hr]. unfold capacity in *.
  constructor; unfold capacity; cbn.
  - assumption.
  - unfold PyList.append at 2. rewrite top_history_append. reflexivity.
  - apply Forall_app. split; [assumption|].
    constructor; [|constructor]. unfold fits. cbn.
    apply length_trim. assumption.
  - constructor.
Qed.

Lemma consistent_undo (self : t) (w : World.t) :
  consistent self -> consistent (snd (fst (undo self w))).
Proof.
  intros [Hk Hs Hu Hr].
  destruct (stack_cases (CalculatorCaretaker._undo_stack (caretaker self)))
    as [E|(rest & m & E)].
  - rewrite (undo_empty _ _ E). constructor; assumption.
  - rewrite (undo_nonempty _ _ _ _ E). cbn [fst snd].
    rewrite E in Hu. apply Forall_app in Hu. destruct Hu as [Hrest Hm].
    unfold capacity in *.
    constructor; unfold capacity; cbn; try assumption.
    + apply trim_fits. apply fits_top_history; [lia|assumption].
    + apply Forall_app. split; assumption.
Qed.

Lemma consistent_redo (self : t) (w : World.t) :
  consistent self -> consistent (snd (fst (redo self w))).
Proof.
  intros [Hk Hs Hu Hr].
  destruct (stack_cases (CalculatorCaretaker._redo_stack (caretaker self)))
    as [E|(rest & m & E)].
  - rewrite (redo_empty _ _ E). constructor; assumption.
  - rewrite (redo_nonempty _ _ _ _ E). cbn [fst snd].
    rewrite E in Hr. apply Forall_app in Hr. destruct Hr as [Hrest Hm].
    unfold capacity in *.
    constructor; unfold capacity; cbn; try assumption.
    + rewrite top_history_append. apply trim_fits.
      inversion Hm; subst. assumption.
    + apply Forall_app. split; assumption.
Qed.

Lemma consistent_clear (self : t) (w : World.t) :
  consistent self -> consistent (fst (clear_history self w)).
Proof.
  intros [Hk Hs Hu Hr]. unfold capacity in *.
  constructor; unfold capacity; cbn; try assumption; try reflexivity; constructor.
Qed.

(** Whatever [perform_calculation] answers, the calculator it leaves is the
    one it found or that one with a record performed. *)
Lemma perform_state (P : Platform.t) (self : t) (operation : string)
    (a b : PyValue) (now : Z) (w : World.t) :
  snd (fst (perform_calculation P self operation a b now w)) = self \/
  exists calculation,
    snd (fst (perform_calculation P self operation a b now w)) =
    performed self calculation.
Proof.
  unfold perform_calculation.
  destruct (compute P (config self) operation a b) as [[[x y] r]|e]; [|left; reflexivity].
  right. exists (Calculation.__init__ (World.next_oid w) now operation x y r).
  cbn [World.alloc].
  destruct (notify_observers _ _ _) as [[[]|e] w1]; reflexivity.
Qed.

Lemma consistent_perform (P : Platform.t) (self : t) (operation : string)
    (a b : PyValue) (now : Z) (w : World.t) :
  consistent self ->
  consistent (snd (fst (perform_calculation P self operation a b now w))).
Proof.
  intros H. destruct (perform_state P self operation a b now w) as [->|[c ->]].
  - assumption.
  - apply consistent_performed. assumption.
Qed.

Lemma consistent_step (P : Platform.t) (cmd : Command) (s : t * World.t) :
  keeps_snapshots cmd -> consistent (fst s) -> consistent (fst (step P cmd s)).
Proof.
  destruct s as [self w]. destruct cmd; cbn [step fst keeps_snapshots]; intros Hc H;
    try contradiction.
  - pose proof (consistent_perform P self operation operand1 operand2 now w H) as H'.
    destruct (perform_calculation _ _ _ _ _ _ _) as [[? ?] ?]. exact H'.
  - pose proof (consistent_undo self w H) as H'.
    destruct (undo self w) as [[? ?] ?]. exact H'.
  - pose proof (consistent_redo self w H) as H'.
    destruct (redo self w) as [[? ?] ?]. exact H'.
  - apply consistent_clear. assumption.
  - destruct (save_history self file_path w). assumption.
  - destruct H as [Hk Hs Hu Hr]. constructor; assumption.
Qed.

Lemma consistent_run (P : Platform.t) (cmds : list Command) (s : t * World.t) :
  Forall keeps_snapshots cmds -> consistent (fst s) ->
  consistent (fst (run P cmds s)).
Proof.
  revert s. induction cmds as [|cmd cmds IH]; intros s Hc H; [assumption|].
  inversion Hc; subst. cbn. apply IH; [assumption|].
  apply consistent_step; assumption.
Qed.

End Invariant.

(** ** Repeated undo and redo *)

Section Exhaustion.

Import Calculator.

(** As many [undo]s as the stack holds snapshots all return; they empty the
    stack, pile the snapshots up on the redo stack in the order they were
    popped, and leave the history empty. *)
Lemma undo_times_all (U : list CalculatorMemento.t) :
  forall (self : t) (w : World.t),
    CalculatorCaretaker._undo_stack (caretaker self) = U ->
    exists self' w',
      undo_times (List.length U) (self, w) = Some (self', w') /\
      CalculatorCaretaker._undo_stack (caretaker self') = [] /\
      CalculatorCaretaker._redo_stack (caretaker self') =
        CalculatorCaretaker._redo_stack (caretaker self) ++ rev U /\
      capacity self' = capacity self /\
      (U <> [] -> CalculationHistory.get_history (history self') = []).
Proof.
  induction U as [|m U IH] using rev_ind; intros self w HU.
  - exists self, w. cbn. rewrite app_nil_r. repeat split; try assumption.
    intros H; contradiction.
  - rewrite length_app, Nat.add_1_r. cbn [undo_times fst snd].
    rewrite (undo_nonempty self w U m HU).
    match goal with |- context [undo_times _ (?c, ?w1)] =>
      destruct (IH c w1 eq_refl) as (self' & w' & Ht & Hu & Hr & Hc & Hh) end.
    exists self', w'. cbn in Hr, Hc.
    repeat split; try assumption.
    + rewrite Hr, rev_unit, <- app_assoc. reflexivity.
    + intros _. destruct U as [|m' U'].
      * cbn in Ht. injection Ht as <- <-. cbn. apply trim_nil.
      * apply Hh. discriminate.
Qed.

(** As many [redo]s as the redo stack holds snapshots all return; the last
    one brings back the snapshot at the bottom of that stack, the first one
    that was undone. *)
Lemma redo_times_all (R : list CalculatorMemento.t) :
  forall (self : t) (w : World.t),
    CalculatorCaretaker._redo_stack (caretaker self) = R ->
    exists self' w',
      redo_times (List.length R) (self, w) = Some (self', w') /\
      capacity self' = capacity self /\
      (forall m R', R = m :: R' ->
         CalculationHistory.get_history (history self') =
         CalculationHistory.trim (capacity self) (CalculatorMemento.get_history m)).
Proof.
  induction R as [|m R IH] using rev_ind; intros self w HR.
  - exists self, w. cbn. repeat split. intros; discriminate.
  - rewrite length_app, Nat.add_1_r. cbn [redo_times fst snd].
    rewrite (redo_nonempty self w R m HR).
    match goal with |- context [redo_times _ (?c, ?w1)] =>
      destruct (IH c w1 eq_refl) as (self' & w' & Ht & Hc & Hh) end.
    exists self', w'. cbn in Hc.
    repeat split; try assumption.
    intros m0 R0 E. destruct R as [|m' R'].
    + cbn in E. injection E as <- <-. cbn in Ht. injection Ht as <- <-.
      reflexivity.
    + cbn in E. injection E as <- <-. apply (Hh m' R'). reflexivity.
Qed.

Lemma floor_kept_run (P : Platform.t) (cmds : list Command) (s : t * World.t) :
  Forall is_perform cmds -> floor_kept (fst s) -> floor_kept (fst (run P cmds s)).
Proof.
  revert s. induction cmds as [|cmd cmds IH]; intros s Hc H; [assumption|].
  inversion Hc as [|? ? Hcmd Hrest]; subst. cbn. apply IH; [assumption|].
  destruct s as [self w]. destruct cmd; try contradiction. cbn [step].
  cbn [fst] in H.
  destruct (perform_state P self operation operand1 operand2 now w) as [E|[c E]];
    destruct (perform_calculation _ _ _ _ _ _ _) as [[? self'] ?];
    cbn in E; subst self'; cbn [fst]; [assumption|].
  destruct H as [[rest Hu] Hr]. split; [|reflexivity].
  exists (rest ++ [CalculatorMemento.__init__
                     (CalculationHistory.get_history
                        (CalculationHistory.add_calculation (history self) c))]).
  cbn. rewrite Hu. reflexivity.
Qed.

Lemma is_perform_keeps_snapshots (cmds : list Command) :
  Forall is_perform cmds -> Forall keeps_snapshots cmds.
Proof.
  intros H. eapply Forall_impl; [|exact H]. intros [] Hc; try contradiction; exact I.
Qed.

End Exhaustion.

(** ** Notification *)

Section NotifyFacts.

Import Calculator.

Lemma notify_all_return (history : CalculationHistory.t) (calculation : Calculation.t)
    (obs : list CalculatorObserver.t) (w : World.t) :
  Forall (returns history calculation) obs ->
  notify obs history calculation w = (Return tt, run_handlers obs history calculation w).
Proof.
  revert w. induction obs as [|o obs IH]; intros w H; [reflexivity|].
  inversion H as [|? ? Ho Hobs]; subst. cbn.
  specialize (Ho w). unfold answer in Ho.
  destruct (CalculatorObserver.on_calculation_performed o history calculation w)
    as [r w1]. cbn in Ho. subst r. cbn. apply IH. assumption.
Qed.

Lemma notify_first_failure (history : CalculationHistory.t) (calculation : Calculation.t)
    (pre : list CalculatorObserver.t) (o : CalculatorObserver.t)
    (post : list CalculatorObserver.t) (e : exn) (w : World.t) :
  Forall (returns history calculation) pre ->
  raises history calculation e o ->
  notify (pre ++ o :: post) history calculation w =
    (Raise e, run_handlers (pre ++ [o]) history calculation w).
Proof.
  revert w. induction pre as [|p pre IH]; intros w H Ho.
  - cbn. specialize (Ho w). unfold answer in Ho.
    destruct (CalculatorObserver.on_calculation_performed o history calculation w)
      as [r w1]. cbn in Ho. subst r. reflexivity.
  - inversion H as [|? ? Hp Hpre]; subst. cbn.
    specialize (Hp w). unfold answer in Hp.
    destruct (CalculatorObserver.on_calculation_performed p history calculation w)
      as [r w1]. cbn in Hp. subst r. cbn. apply IH; assumption.
Qed.

End NotifyFacts.

(** ** The root operation *)

Section RootFacts.

Local Open Scope float_scope.

Lemma rem_two (b : float) : exists m, PyFloat.rem b 2 = Return m.
Proof.
  unfold PyFloat.rem. change (2 =? 0) with false. cbv iota.
  destruct (PyFloat.ne _ _); [destruct (negb _)|]; eauto.
Qed.

Lemma even_degree_returns (b : float) :
  exists even, RootOperation.even_degree b = Return even.
Proof.
  unfold RootOperation.even_degree. destruct (rem_two b) as [m ->]. cbn. eauto.
Qed.

Lemma pow_raises (libm_pow : float -> float -> float) (x y : float) (e : exn) :
  PyFloat.pow libm_pow x y = Raise e -> RootOperation.handled e = true.
Proof.
  unfold PyFloat.pow.
  repeat match goal with
         | |- context [if ?c then _ else _] => destruct c
         end; intros H; try discriminate; injection H as <-; reflexivity.
Qed.

(** The body of the [try] block of [RootOperation.execute]. *)
Lemma root_body_raises (P : Platform.t) (a b : float) (body : outcome float)
    (e : exn) :
  body =
    (q <- PyFloat.truediv 1 b ;;
     result <- (if a <? 0
                then (p <- PyFloat.pow (Platform.libm_pow P) (abs a) q ;;
                      Return (RootOperation.neg p))
                else PyFloat.pow (Platform.libm_pow P) a q) ;;
     match result with
     | PyFloat.Float r =>
         if PyFloat.ne r r
         then Raise (OperationError "Invalid result from root operation")
         else Return r
     | PyFloat.Complex =>
         Raise (OperationError "Invalid result from root operation")
     end)%py ->
  try_except body RootOperation.handled
    (fun _ => Raise (OperationError "Root operation failed")) = Raise e ->
  is_OperationError e = true.
Proof.
  intros -> H. unfold PyFloat.truediv in H.
  destruct (b =? 0); cbn in H; [injection H as <-; reflexivity|].
  destruct (a <? 0); cbn in H;
    destruct (PyFloat.pow _ _ _) as [[p|]|e0] eqn:Ep; cbn in H.
  all: try (rewrite (pow_raises _ _ _ _ Ep) in H).
  all: try (destruct (PyFloat.ne _ _); cbn in H; [|discriminate]).
  all: injection H as <-; reflexivity.
Qed.

Lemma eqb_opp_refl (p : float) : (p =? p) = true -> (- p =? - p) = true.
Proof.
  rewrite !eqb_spec, opp_spec. unfold SFeqb.
  destruct (Prim2SF p) as [s|s| |s m e]; cbn;
    try (intros; reflexivity); try discriminate.
  - destruct s; reflexivity.
  - intros _. destruct s; cbn; rewrite Z.compare_refl, Pos.compare_cont_refl;
      reflexivity.
Qed.

End RootFacts.

(** ** Comparisons of floats with zero *)

Section FloatFacts.

Local Open Scope float_scope.

Lemma Prim2SF_zero : Prim2SF 0 = S754_zero false.
Proof. reflexivity. Qed.

Lemma Prim2SF_infinity : Prim2SF infinity = S754_infinity false.
Proof. reflexivity. Qed.

(** A float that compares equal to zero is one of the two zeros. *)
Lemma eqb_zero_inv (x : float) :
  (x =? 0) = true -> exists s, Prim2SF x = S754_zero s.
Proof.
  rewrite eqb_spec, Prim2SF_zero. unfold SFeqb.
  destruct (Prim2SF x) as [s|s| |s m e]; cbn; try discriminate; eauto.
  - destruct s; discriminate.
  - destruct s; discriminate.
Qed.

(** A float below zero is negative infinity or a negative finite number. *)
Lemma ltb_zero_inv (x : float) :
  (x <? 0) = true ->
  Prim2SF x = S754_infinity true \/ exists m e, Prim2SF x = S754_finite true m e.
Proof.
  rewrite ltb_spec, Prim2SF_zero. unfold SFltb.
  destruct (Prim2SF x) as [s|s| |s m e]; cbn; try discriminate.
  - destruct s; [auto|discriminate].
  - destruct s; [eauto|discriminate].
Qed.

Lemma zero_facts (x : float) :
  (x =? 0) = true ->
  is_nan x = false /\ is_infinity x = false /\ (x <? 0) = false /\ (x <=? 0) = true.
Proof.
  intros H. destruct (eqb_zero_inv x H) as [s E].
  unfold is_nan, is_infinity.
  rewrite !eqb_spec, ltb_spec, leb_spec, abs_spec, Prim2SF_zero, Prim2SF_infinity, E.
  repeat split.
Qed.

Lemma negative_facts (x : float) :
  (x <? 0) = true ->
  is_nan x = false /\ (x =? 0) = false /\ (x <=? 0) = true.
Proof.
  intros H. unfold is_nan. rewrite !eqb_spec, leb_spec, Prim2SF_zero.
  destruct (ltb_zero_inv x H) as [E|(m & e & E)]; rewrite E; unfold SFeqb, SFleb; cbn.
  - repeat split.
  - rewrite Z.compare_refl, Pos.compare_cont_refl. repeat split.
Qed.

(** A number that is not below or at zero is above it. *)
Lemma positive_facts (x : float) :
  (x =? x) = true -> (x <=? 0) = false ->
  (0 <? x) = true /\ (x =? 0) = false.
Proof.
  rewrite !eqb_spec, leb_spec, ltb_spec, Prim2SF_zero. unfold SFeqb, SFleb, SFltb.
  destruct (Prim2SF x) as [s|s| |s m e]; cbn; try discriminate;
    destruct s; cbn; try discriminate; auto.
Qed.

(** [abs] never gives a number below zero. *)
Lemma abs_not_negative (x : float) : (abs x <? 0) = false.
Proof.
  rewrite ltb_spec, abs_spec, Prim2SF_zero. unfold SFltb.
  destruct (Prim2SF x) as [s|s| |s m e]; reflexivity.
Qed.

(** A float above zero is a number, and not below or at zero. *)
Lemma above_zero_facts (x : float) :
  (0 <? x) = true -> (x =? x) = true /\ (x <=? 0) = false.
Proof.
  rewrite !eqb_spec, leb_spec, ltb_spec, Prim2SF_zero. unfold SFeqb, SFleb, SFltb.
  destruct (Prim2SF x) as [s|s| |s m e]; cbn; try discriminate;
    destruct s; cbn; try discriminate; auto.
  rewrite Z.compare_refl, Pos.compare_cont_refl. auto.
Qed.

End FloatFacts.


(** ** What the operations raise *)

Section OperationFacts.

Local Open Scope float_scope.

Lemma pow_zero_division (libm_pow : float -> float -> float) (a b : float) :
  PyFloat.pow libm_pow a b = Raise ZeroDivisionError <->
  (a =? 0) = true /\ (b <? 0) = true /\ is_infinity b = false.
Proof.
  split.
  - unfold PyFloat.pow.
    destruct (b =? 0) eqn:Eb0; [discriminate|].
    destruct (is_nan a); [discriminate|].
    destruct (is_nan b); [discriminate|].
    destruct (is_infinity b).
    { destruct (abs a =? 1); [discriminate|].
      destruct (Bool.eqb _ _); discriminate. }
    destruct (is_infinity a).
    { destruct (0 <? b); discriminate. }
    destruct (a =? 0).
    { destruct (b <? 0); [auto|discriminate]. }
    destruct ((a <? 0) && PyFloat.ne b (PyFloat.floor b));
      [destruct (is_infinity _); discriminate|].
    destruct (_ =? 1); [discriminate|].
    destruct (is_infinity _); discriminate.
  - intros (Ha & Hb & Hinf). unfold PyFloat.pow.
    destruct (zero_facts a Ha) as (Hna & Hia & _).
    destruct (negative_facts b Hb) as (Hnb & Hb0 & _).
    rewrite Hb0, Hna, Hnb, Hinf, Hia, Ha, Hb. reflexivity.
Qed.

Lemma root_raises_operation_error (P : Platform.t) (a b : float) (e : exn) :
  RootOperation.execute P a b = Raise e -> is_OperationError e = true.
Proof.
  unfold RootOperation.execute.
  destruct (b =? 0); [intros [= <-]; reflexivity|].
  destruct (a <? 0) eqn:Ha.
  - destruct (even_degree_returns b) as [[|] ->]; cbn.
    + intros [= <-]. reflexivity.
    + apply (root_body_raises P a b). rewrite Ha. reflexivity.
  - cbn. apply (root_body_raises P a b). rewrite Ha. reflexivity.
Qed.

Lemma power_raises (P : Platform.t) (a b : float) (e : exn) :
  PowerOperation.execute P a b = Raise e ->
  is_OperationError e = true \/ e = ZeroDivisionError.
Proof.
  unfold PowerOperation.execute.
  destruct (PyFloat.pow _ a b) as [[r|]|e0] eqn:Ep; cbn.
  - destruct (PyFloat.ne r r); [intros [= <-]; auto|discriminate].
  - intros [= <-]. auto.
  - pose proof (pow_raises _ _ _ _ Ep) as H.
    destruct e0; cbn in *; try discriminate; intros [= <-]; auto.
Qed.

Lemma execute_raises (P : Platform.t) (op : Operation.t) (a b : float) (e : exn) :
  Operation.execute P op a b = Raise e ->
  is_OperationError e = true \/ (op = Operation.Power /\ e = ZeroDivisionError).
Proof.
  destruct op; cbn [Operation.execute];
    unfold AddOperation.execute, SubtractOperation.execute,
      MultiplyOperation.execute, DivideOperation.execute,
      ModulusOperation.execute, IntegerDivideOperation.execute,
      PercentageOperation.execute, AbsoluteDifferenceOperation.execute,
      PyFloat.truediv, PyFloat.rem, PyFloat.floordiv;
    try discriminate.
  - destruct (b =? 0); [intros [= <-]; auto|discriminate].
  - intros H. destruct (power_raises P a b e H) as [H1|H1]; auto.
  - intros H. left. apply (root_raises_operation_error P a b e H).
  - destruct (b =? 0); [intros [= <-]; auto|].
    destruct (PyFloat.ne _ _); [destruct (negb _)|]; discriminate.
  - destruct (b =? 0); [intros [= <-]; auto|].
    destruct (PyFloat.ne _ _); discriminate.
  - destruct (b =? 0); [intros [= <-]; auto|]. cbn. discriminate.
Qed.

End OperationFacts.

(** ** The registry *)

Section RegistryFacts.

Context {V : Type}.

Lemma get_Some (d : list (string * V)) (key : string) (v : V) :
  OperationFactory.get d key = Some v -> In (key, v) d.
Proof.
  induction d as [|[k x] d IH]; cbn; [discriminate|].
  destruct (String.eqb k key) eqn:E.
  - intros [= <-]. apply String.eqb_eq in E. subst. auto.
  - auto.
Qed.

Lemma get_None (d : list (string * V)) (key : string) :
  OperationFactory.get d key = None <-> ~ In key (map fst d).
Proof.
  induction d as [|[k x] d IH]; cbn; [tauto|].
  destruct (String.eqb k key) eqn:E.
  - apply String.eqb_eq in E. subst. split; [discriminate|]. intros H. exfalso. auto.
  - apply String.eqb_neq in E. rewrite IH. tauto.
Qed.

End RegistryFacts.

Lemma registry_names :
  Forall (fun entry => Operation.get_name (snd entry) = fst entry)
    OperationFactory._operations.
Proof. repeat constructor. Qed.

Lemma create_operation_returns (name : string) (op : Operation.t) :
  OperationFactory.create_operation name = Return op ->
  In name OperationFactory.get_available_operations /\ Operation.get_name op = name.
Proof.
  unfold OperationFactory.create_operation.
  destruct (OperationFactory.get _ _) as [v|] eqn:E; [|discriminate].
  intros [= ->]. apply get_Some in E. split.
  - unfold OperationFactory.get_available_operations.
    apply (in_map fst) in E. exact E.
  - pose proof registry_names as H. rewrite Forall_forall in H.
    apply (H _ E).
Qed.

(** ** Validation *)

Section ValidationFacts.
Local Open Scope float_scope.

Lemma int_to_float_raises (n : Z) (e : exn) :
  int_to_float n = Raise e -> e = OverflowError.
Proof.
  unfold int_to_float.
  destruct (binary_normalize prec emax n 0 false); intros [= <-]; reflexivity.
Qed.

(** What [float()] raises, and on what. *)
Lemma py_float_raises (value : PyValue) (e : exn) :
  py_float value = Raise e ->
  InputValidator.coercion_failure e = true \/
  (e = OverflowError /\ exists n, value = PyInt n).
Proof.
  destruct value as [y|n|s|]; cbn; try discriminate.
  - intros H. right. split; [apply (int_to_float_raises n e H)|eauto].
  - intros [= <-]. auto.
  - intros [= <-]. auto.
Qed.

Lemma validate_number_spec (value : PyValue) (max_value : option float) (x : float) :
  InputValidator.validate_number value max_value = Return x <->
  py_float value = Return x /\ (x =? x) = true /\
  match max_value with
  | Some m => (m <? abs x) = false
  | None => True
  end.
Proof.
  unfold InputValidator.validate_number, PyFloat.ne.
  destruct (py_float value) as [y|e]; cbn.
  - destruct (y =? y) eqn:Ey; cbn.
    + destruct max_value as [m|].
      * destruct (m <? abs y) eqn:Em.
        -- split; [discriminate|]. intros ([= <-] & _ & H). congruence.
        -- split; [intros [= <-]; auto|]. intros ([= <-] & _). reflexivity.
      * split; [intros [= <-]; auto|]. intros ([= <-] & _). reflexivity.
    + split; [discriminate|]. intros ([= <-] & H & _). congruence.
  - destruct (InputValidator.coercion_failure e); cbn;
      (split; [discriminate|]); intros (H & _); discriminate.
Qed.

(** [validate_number] turns the [ValueError] and the [TypeError] of the
    conversion into [ValidationError]; the [OverflowError] of an int beyond
    the doubles passes through. *)
Lemma validate_number_raises (value : PyValue) (max_value : option float) (e : exn) :
  InputValidator.validate_number value max_value = Raise e ->
  is_ValidationError e = true \/
  (e = OverflowError /\ py_float value = Raise OverflowError).
Proof.
  unfold InputValidator.validate_number, PyFloat.ne.
  destruct (py_float value) as [y|e0] eqn:E; cbn.
  - destruct (y =? y); cbn; [|intros [= <-]; auto].
    destruct max_value as [m|]; [|discriminate].
    destruct (m <? abs y); [intros [= <-]; auto|discriminate].
  - destruct (py_float_raises value e0 E) as [H|[-> _]].
    + rewrite H. intros [= <-]. auto.
    + cbn. intros [= <-]. auto.
Qed.

End ValidationFacts.

(** ** Records read from dictionaries *)

Section RecordFacts.

Lemma py_float_errors (value : PyValue) (e : exn) :
  py_float value = Raise e ->
  e = ValueError \/ e = TypeError \/
  (e = OverflowError /\ exists n, value = PyInt n /\ int_to_float n = Raise OverflowError).
Proof.
  intros H. destruct (py_float_raises value e H) as [Hc|[-> [n ->]]].
  - destruct e; try discriminate; auto.
  - right. right. split; [reflexivity|]. exists n. split; [reflexivity|exact H].
Qed.

(** [from_dict] returns the object it was given the identity of. *)
Lemma from_dict_oid (oid : nat) (now : Z) (row : Calculation.Row) (c : Calculation.t) :
  Calculation.from_dict oid now row = Return c -> Calculation.oid c = oid.
Proof.
  destruct row as [op v1 v2 v3 ts]. unfold Calculation.from_dict. cbn.
  destruct op; cbn; [|discriminate].
  destruct v1 as [v1|]; cbn; [|discriminate].
  destruct (py_float v1); cbn; [|discriminate].
  destruct v2 as [v2|]; cbn; [|discriminate].
  destruct (py_float v2); cbn; [|discriminate].
  destruct v3 as [v3|]; cbn; [|discriminate].
  destruct (py_float v3); cbn; [|discriminate].
  destruct ts as [[| |]|]; cbn; try discriminate; intros [= <-]; reflexivity.
Qed.

Lemma next_oid_after_allocations (k : nat) (w : World.t) :
  World.next_oid (after_allocations k w) = (k + World.next_oid w)%nat.
Proof.
  induction k as [|k IH]; [reflexivity|].
  change (after_allocations (S k) w)
    with (snd (World.alloc (after_allocations k w))).
  cbn [World.alloc snd World.next_oid]. rewrite IH. reflexivity.
Qed.

(** The loop of [load_from_csv], when it ends without an exception: one
    record per row, each what [from_dict] makes of its row, at identities
    allocated one after the other. *)
Lemma append_rows_records (now : Z) (rows : list Calculation.Row) :
  forall (self self' : CalculationHistory.t) (w w' : World.t),
    CalculationHistory.append_rows now rows self w = (Return tt, self', w') ->
    exists parsed,
      Forall2 (fun row c => Calculation.from_dict (Calculation.oid c) now row = Return c)
        rows parsed /\
      map Calculation.oid parsed = seq (World.next_oid w) (List.length rows) /\
      self' = CalculationHistory.set_list self
                (CalculationHistory._history self ++ parsed) /\
      World.next_oid w' = (World.next_oid w + List.length rows)%nat /\
      World.events w' = World.events w.
Proof.
  induction rows as [|row rows IH]; intros self self' w w' H; cbn in H.
  - injection H as <- <-. exists []. rewrite app_nil_r.
    split; [constructor|]. split; [reflexivity|]. split; [destruct self; reflexivity|].
    split; [cbn; lia|reflexivity].
  - destruct (Calculation.from_dict _ _ _) as [calc|e] eqn:E; [|discriminate].
    apply IH in H. destruct H as (parsed & Hp & Ho & -> & Hn & He).
    pose proof (from_dict_oid _ _ _ _ E) as Hoid.
    exists (calc :: parsed). cbn in *.
    split; [constructor; [rewrite Hoid; exact E|exact Hp]|].
    split; [rewrite Hoid, Ho; reflexivity|].
    split; [unfold CalculationHistory.set_list, PyList.append; cbn;
            rewrite <- app_assoc; reflexivity|].
    split; [rewrite Hn; lia|exact He].
Qed.

End RecordFacts.

(** ** The newest entry *)

Section LastFacts.

Import CalculationHistory.

Lemma slice_from_zero {A} (l : list A) : PyList.slice_from 0 l = l.
Proof.
  unfold PyList.slice_from. cbn.
  replace (Z.to_nat (Z.min 0 (Z.of_nat (List.length l)))) with 0%nat by lia.
  reflexivity.
Qed.

Lemma trim_snoc (k : Z) (h : list Calculation.t) (c : Calculation.t) :
  0 <= k ->
  exists h',
    trim k (h ++ [c]) = h' ++ [c] /\
    (k = 0 -> h' = h) /\
    (1 <= k -> h' = most_recent (Z.to_nat k - 1) h).
Proof.
  intros Hk. destruct (Z.eq_dec k 0) as [->|Hne].
  - exists h. split; [|split; [reflexivity|lia]].
    unfold trim. destruct (0 <? _); [apply slice_from_zero|reflexivity].
  - exists (most_recent (Z.to_nat k - 1) h). split; [|split; [lia|reflexivity]].
    rewrite trim_most_recent by lia. unfold most_recent.
    rewrite length_app, skipn_app. cbn [List.length].
    f_equal; [f_equal; lia|].
    replace (List.length h + 1 - Z.to_nat k - List.length h)%nat with 0%nat by lia.
    reflexivity.
Qed.

End LastFacts.

Lemma get_last_after_add (self : CalculationHistory.t) (c : Calculation.t) :
  0 <= CalculationHistory._max_size self ->
  CalculationHistory.get_last_calculation
    (CalculationHistory.add_calculation self c) = Return c.
Proof.
  destruct self as [h k]. cbn. intros Hk.
  unfold CalculationHistory.get_last_calculation,
    CalculationHistory.add_calculation, PyList.append. cbn.
  destruct (trim_snoc k h c Hk) as (h' & -> & _).
  change (h' ++ [c]) with (PyList.append h' c). rewrite pop_append. reflexivity.
Qed.

(** ** Undo and redo as inverses *)

Section EngineFacts.

Import Calculator.

Lemma compute_raises (P : Platform.t) (cfg : CalculatorConfig.t)
    (operation : string) (a b : PyValue) (e : exn) :
  compute P cfg operation a b = Raise e ->
  is_ValidationError e = true \/ is_OperationError e = true \/
  (operation = "power"%string /\ e = ZeroDivisionError) \/
  (e = OverflowError /\
   (py_float a = Raise OverflowError \/ py_float b = Raise OverflowError)).
Proof.
  unfold compute.
  destruct (InputValidator.validate_number a _) as [x|e1] eqn:Ea; cbn.
  2:{ intros [= <-].
      destruct (validate_number_raises _ _ _ Ea) as [H|[-> H]]; [auto|].
      right. right. right. auto. }
  destruct (InputValidator.validate_number b _) as [y|e2] eqn:Eb; cbn.
  2:{ intros [= <-].
      destruct (validate_number_raises _ _ _ Eb) as [H|[-> H]]; [auto|].
      right. right. right. auto. }
  destruct (OperationFactory.create_operation operation) as [op|e3] eqn:Eo; cbn.
  - destruct (Operation.execute P op x y) as [raw|e4] eqn:Ee; cbn; [discriminate|].
    intros [= <-]. right.
    destruct (execute_raises P op x y e4 Ee) as [H|[-> ->]]; [auto|].
    right. left. split; [|reflexivity].
    apply create_operation_returns in Eo. destruct Eo as [_ <-]. reflexivity.
  - intros [= <-]. right. left. unfold OperationFactory.create_operation in Eo.
    destruct (OperationFactory.get _ _); [discriminate|].
    injection Eo as <-. reflexivity.
Qed.

Lemma notify_builtin (obs : list CalculatorObserver.t)
    (history : CalculationHistory.t) (calculation : Calculation.t) (w : World.t) :
  Forall builtin obs ->
  fst (notify obs history calculation w) = Return tt.
Proof.
  intros H. rewrite (notify_all_return history calculation obs w); [reflexivity|].
  eapply Forall_impl; [|exact H]. intros o Ho w0.
  apply builtin_observers_never_raise. exact Ho.
Qed.

Lemma undo_then_redo (self : t) (w : World.t) (c1 : t) (w1 : World.t) :
  consistent self ->
  undo self w = (Return tt, c1, w1) ->
  redo c1 w1 = (Return tt, self, after_redo w1).
Proof.
  intros [Hk Hs Hu Hr] H.
  destruct (stack_cases (CalculatorCaretaker._undo_stack (caretaker self)))
    as [E|(rest & m & E)].
  - rewrite (undo_empty _ _ E) in H. discriminate.
  - rewrite (undo_nonempty _ _ _ _ E) in H. injection H as <- <-.
    erewrite redo_nonempty by reflexivity.
    f_equal. f_equal.
    destruct self as [cfg [h k] [U R] obs]. cbn in *. subst U.
    rewrite top_history_append in Hs. unfold capacity in *. cbn in *.
    assert (Ht : CalculationHistory.trim k (CalculatorMemento.get_history m) = h).
    { rewrite <- Hs. apply trim_fits. rewrite Hs.
      apply Forall_app in Hu. destruct Hu as [_ Hu]. inversion Hu; subst.
      assumption. }
    unfold CalculationHistory.set_history, CalculationHistory.set_list. cbn.
    rewrite Ht. reflexivity.
Qed.

Lemma redo_then_undo (self : t) (w : World.t) (c1 : t) (w1 : World.t) :
  consistent self ->
  redo self w = (Return tt, c1, w1) ->
  undo c1 w1 = (Return tt, self, after_undo w1).
Proof.
  intros [Hk Hs Hu Hr] H.
  destruct (stack_cases (CalculatorCaretaker._redo_stack (caretaker self)))
    as [E|(rest & m & E)].
  - rewrite (redo_empty _ _ E) in H. discriminate.
  - rewrite (redo_nonempty _ _ _ _ E) in H. injection H as <- <-.
    erewrite undo_nonempty by reflexivity.
    f_equal. f_equal.
    destruct self as [cfg [h k] [U R] obs]. cbn in *. subst R.
    unfold capacity in *. cbn in *.
    assert (Ht : CalculationHistory.trim k (top_history U) = h).
    { rewrite <- Hs. apply trim_fits. rewrite Hs.
      apply fits_top_history; [lia|assumption]. }
    unfold CalculationHistory.set_history, CalculationHistory.set_list. cbn.
    rewrite Ht. reflexivity.
Qed.

End EngineFacts.

(** ** Capacity across the engine's calls *)

Section CapacityFacts.

Import Calculator.

Lemma from_dict_any_identity (oid : nat) (now : Z) (row : Calculation.Row) :
  parses row -> exists c, Calculation.from_dict oid now row = Return c.
Proof.
  intros [c H]. destruct row as [op v1 v2 v3 ts].
  unfold Calculation.from_dict in *. cbn in *.
  destruct op; cbn in *; [|discriminate].
  destruct v1 as [v1|]; cbn in *; [|discriminate].
  destruct (py_float v1); cbn in *; [|discriminate].
  destruct v2 as [v2|]; cbn in *; [|discriminate].
  destruct (py_float v2); cbn in *; [|discriminate].
  destruct v3 as [v3|]; cbn in *; [|discriminate].
  destruct (py_float v3); cbn in *; [|discriminate].
  destruct ts as [[| |]|]; cbn in *; try discriminate; eauto.
Qed.

Lemma append_rows_clean (now : Z) (rows : list Calculation.Row) :
  Forall parses rows ->
  forall (self : CalculationHistory.t) (w : World.t),
    fst (fst (CalculationHistory.append_rows now rows self w)) = Return tt.
Proof.
  induction 1 as [|row rows Hrow Hrows IH]; intros self w; [reflexivity|].
  cbn. destruct (from_dict_any_identity (World.next_oid w) now row Hrow) as [c ->].
  apply IH.
Qed.

Lemma within_capacity_load (cfg : CalculatorConfig.t) (self : t)
    (file_path : option string) (file : CalculationHistory.CsvFile) (now : Z)
    (w : World.t) :
  loads_cleanly (Load file_path file now) ->
  within_capacity cfg self ->
  within_capacity cfg (snd (fst (load_history self file_path file now w))).
Proof.
  intros Hc [Hcfg Hk Hh Hu Hr]. unfold load_history.
  pose proof (max_size_load_from_csv (history self) file now w) as Hm.
  destruct (CalculationHistory.load_from_csv (history self) file now w)
    as [[r h'] w'] eqn:E.
  cbn in Hm.
  assert (Hlen : CalculationHistory.__len__ h' <= capacity self).
  { destruct r as [[]|e].
    - unfold capacity. rewrite <- Hm.
      apply (length_load_from_csv _ _ _ _ _ _ Hk E).
    - destruct file as [| | |rows]; cbn in E; try discriminate.
      + injection E as _ <- _. exact Hh.
      + injection E as _ <- _. exact Hh.
      + exfalso. cbn in Hc.
        pose proof (append_rows_clean now rows Hc
                      (CalculationHistory.clear_history (history self)) w) as Ha.
        destruct (CalculationHistory.append_rows _ _ _ _) as [[[[]|?] ?] ?];
          cbn in Ha; discriminate. }
  unfold capacity in *.
  destruct r as [[]|e]; cbn; constructor; unfold capacity; cbn;
    rewrite ?Hm; assumption.
Qed.

Lemma within_capacity_step (P : Platform.t) (cfg : CalculatorConfig.t)
    (cmd : Command) (s : t * World.t) :
  loads_cleanly cmd -> within_capacity cfg (fst s) ->
  within_capacity cfg (fst (step P cmd s)).
Proof.
  destruct s as [self w]. cbn [fst]. intros Hc H.
  destruct cmd; cbn [step].
  - destruct (perform_state P self operation operand1 operand2 now w) as [E|[c E]];
      destruct (perform_calculation _ _ _ _ _ _ _) as [[? self'] ?];
      cbn in E; subst self'; cbn [fst]; [assumption|].
    destruct H as [Hcfg Hk Hh Hu Hr]. unfold capacity in *.
    constructor; unfold capacity; cbn; try assumption.
    + apply length_trim. assumption.
    + apply Forall_app. split; [assumption|].
      constructor; [|constructor]. unfold fits. cbn. apply length_trim. assumption.
    + constructor.
  - destruct H as [Hcfg Hk Hh Hu Hr].
    destruct (stack_cases (CalculatorCaretaker._undo_stack (caretaker self)))
      as [E|(rest & m & E)].
    + rewrite (undo_empty _ _ E). constructor; assumption.
    + rewrite (undo_nonempty _ _ _ _ E). cbn [fst].
      rewrite E in Hu. apply Forall_app in Hu. destruct Hu as [Hrest Hm].
      unfold capacity in *.
      constructor; unfold capacity; cbn; try assumption.
      * apply length_trim. assumption.
      * apply Forall_app. split; assumption.
  - destruct H as [Hcfg Hk Hh Hu Hr].
    destruct (stack_cases (CalculatorCaretaker._redo_stack (caretaker self)))
      as [E|(rest & m & E)].
    + rewrite (redo_empty _ _ E). constructor; assumption.
    + rewrite (redo_nonempty _ _ _ _ E). cbn [fst].
      rewrite E in Hr. apply Forall_app in Hr. destruct Hr as [Hrest Hm].
      unfold capacity in *.
      constructor; unfold capacity; cbn; try assumption.
      * apply length_trim. assumption.
      * apply Forall_app. split; assumption.
  - destruct H as [Hcfg Hk Hh Hu Hr]. unfold capacity in *.
    constructor; unfold capacity; cbn; try assumption; try constructor. lia.
  - destruct (save_history self file_path w). assumption.
  - pose proof (within_capacity_load cfg self file_path file now w Hc H) as H'.
    destruct (load_history self file_path file now w) as [[? ?] ?]. exact H'.
  - destruct H as [Hcfg Hk Hh Hu Hr]. constructor; assumption.
Qed.

Lemma within_capacity_run (P : Platform.t) (cfg : CalculatorConfig.t)
    (cmds : list Command) (s : t * World.t) :
  Forall loads_cleanly cmds -> within_capacity cfg (fst s) ->
  within_capacity cfg (fst (run P cmds s)).
Proof.
  revert s. induction cmds as [|cmd cmds IH]; intros s Hc H; [assumption|].
  inversion Hc; subst. cbn. apply IH; [assumption|].
  apply within_capacity_step; assumption.
Qed.

Lemma undo_redo_after_clear (P : Platform.t) (cmds : list Command)
    (self : t) (w : World.t) :
  Forall is_undo_or_redo cmds ->
  run P cmds (clear_history self w) = clear_history self w.
Proof.
  induction cmds as [|cmd cmds IH]; intros H; [reflexivity|].
  inversion H as [|? ? Hcmd Hrest]; subst. cbn [run fold_left].
  destruct cmd; try contradiction; cbn; apply IH; assumption.
Qed.

End CapacityFacts.

(** ** The observers a calculator holds *)

Section ObserverFacts.

Import Calculator.

Lemma observers_step (P : Platform.t) (cmd : Command) (s : t * World.t) :
  keeps_observers cmd -> observers (fst (step P cmd s)) = observers (fst s).
Proof.
  destruct s as [self w]. destruct cmd; cbn [step fst keeps_observers]; intros Hc;
    try contradiction.
  - destruct (perform_state P self operation operand1 operand2 now w) as [E|[c E]];
      destruct (perform_calculation _ _ _ _ _ _ _) as [[? self'] ?];
      cbn in E; subst self'; reflexivity.
  - destruct (stack_cases (CalculatorCaretaker._undo_stack (caretaker self)))
      as [E|(rest & m & E)].
    + rewrite (undo_empty _ _ E). reflexivity.
    + rewrite (undo_nonempty _ _ _ _ E). reflexivity.
  - destruct (stack_cases (CalculatorCaretaker._redo_stack (caretaker self)))
      as [E|(rest & m & E)].
    + rewrite (redo_empty _ _ E). reflexivity.
    + rewrite (redo_nonempty _ _ _ _ E). reflexivity.
  - reflexivity.
  - destruct (save_history self file_path w). reflexivity.
  - unfold load_history.
    destruct (CalculationHistory.load_from_csv _ _ _ _) as [[[[]|e] h'] w']; reflexivity.
Qed.

Lemma observers_run (P : Platform.t) (cmds : list Command) (s : t * World.t) :
  Forall keeps_observers cmds -> observers (fst (run P cmds s)) = observers (fst s).
Proof.
  revert s. induction cmds as [|cmd cmds IH]; intros s Hc; [reflexivity|].
  inversion Hc; subst.
  change (run P (cmd :: cmds) s) with (run P cmds (step P cmd s)).
  rewrite IH by assumption. apply observers_step. assumption.
Qed.

Lemma observers_init (cfg : CalculatorConfig.t) (w : World.t) :
  observers (fst (__init__ cfg w)) =
  CalculatorObserver.LoggingObserver ::
  (if CalculatorConfig.auto_save cfg
   then [CalculatorObserver.AutoSaveObserver (history_file cfg)
           (CalculatorConfig.default_encoding cfg)]
   else []).
Proof. unfold __init__. destruct (CalculatorConfig.auto_save cfg); reflexivity. Qed.

End ObserverFacts.

(** ** One snapshot per recorded calculation *)

Section SnapshotFacts.

Import Calculator.

Lemma snapshots_count (P : Platform.t) (cmds : list Command) :
  forall s : t * World.t,
    Forall is_perform cmds ->
    Forall builtin (observers (fst s)) ->
    List.length (CalculatorCaretaker._undo_stack (caretaker (fst (run P cmds s)))) =
    (List.length (CalculatorCaretaker._undo_stack (caretaker (fst s))) +
     calculations_recorded P cmds s)%nat.
Proof.
  induction cmds as [|cmd cmds IH]; intros [self w] Hc Hb; [cbn; lia|].
  inversion Hc as [|? ? Hcmd Hrest]; subst.
  change (run P (cmd :: cmds) (self, w)) with (run P cmds (step P cmd (self, w))).
  destruct cmd as [operation a b now| | | | | |]; try contradiction.
  cbn [calculations_recorded fst snd step].
  unfold perform_calculation.
  destruct (compute P (config self) operation a b) as [[[x y] r]|e].
  - cbn [World.alloc].
    set (c := Calculation.__init__ (World.next_oid w) now operation x y r).
    fold (performed self c). unfold notify_observers.
    pose proof (notify_builtin (observers (performed self c))
                  (history (performed self c)) c
                  {| World.next_oid := S (World.next_oid w);
                     World.events := World.events w;
                     World.writable := World.writable w |} Hb) as Hn.
    destruct (notify _ _ _ _) as [[[]|e] w1]; cbn in Hn; [|discriminate].
    rewrite IH; [|assumption|exact Hb].
    cbn [fst snd performed caretaker CalculatorCaretaker.save_state
         CalculatorCaretaker._undo_stack].
    unfold PyList.append. rewrite length_app. cbn [List.length]. lia.
  - rewrite IH; [|assumption|exact Hb]. cbn [fst snd]. lia.
Qed.

End SnapshotFacts.

(** ** The sign of powers and roots *)

Section SignFacts.

Local Open Scope float_scope.

Lemma leb_opp (x y : float) : (- y <=? - x) = (x <=? y).
Proof.
  rewrite !leb_spec, !opp_spec. unfold SFleb, SFcompare, SFopp.
  destruct (Prim2SF x) as [sx|sx| |sx mx ex], (Prim2SF y) as [sy|sy| |sy my ey];
    try reflexivity;
    try (destruct sx; reflexivity); try (destruct sy; reflexivity);
    try (destruct sx, sy; reflexivity).
  destruct sx, sy; try reflexivity; cbn [negb];
    rewrite (Z.compare_antisym ex ey);
    destruct (ex ?= ey)%Z eqn:E; cbn; try reflexivity;
    rewrite (Pos.compare_cont_antisym); cbn;
    destruct (Pos.compare_cont Eq mx my); reflexivity.
Qed.

Lemma opp_zero_leb (p : float) : (0 <=? p) = true -> (- p <=? 0) = true.
Proof.
  intros H. change 0 with (- (-0)) at 1. rewrite leb_opp.
  revert H. rewrite !leb_spec. change (Prim2SF (-0)) with (S754_zero true).
  rewrite Prim2SF_zero. unfold SFleb, SFcompare.
  destruct (Prim2SF p) as [s|s| |s m e]; auto.
Qed.

(** A float between two finite floats is a finite number. *)
Lemma between_finite (lo hi p : float) :
  is_infinity lo = false -> is_infinity hi = false ->
  (lo <=? p) = true -> (p <=? hi) = true ->
  is_infinity p = false /\ is_nan p = false.
Proof.
  unfold is_infinity, is_nan.
  rewrite !eqb_spec, !leb_spec, !abs_spec, Prim2SF_infinity.
  unfold SFeqb, SFleb, SFcompare, SFabs.
  destruct (Prim2SF p) as [s|s| |s m e].
  - intros _ _ _ _. destruct s; auto.
  - destruct s.
    + intros Hlo _. destruct (Prim2SF lo) as [sl|sl| |sl ml el]; cbn in *;
        try discriminate; destruct sl; discriminate.
    + intros _ Hhi _. destruct (Prim2SF hi) as [sh|sh| |sh mh eh]; cbn in *;
        try discriminate; destruct sh; discriminate.
  - intros _ _ H. destruct (Prim2SF lo); discriminate.
  - intros _ _ _ _. split; [reflexivity|].
    destruct s; cbn; rewrite Z.compare_refl, Pos.compare_cont_refl; reflexivity.
Qed.

Lemma positive_base_facts (x : float) :
  (0 <? x) = true ->
  is_nan x = false /\ (x =? 0) = false /\ (x <? 0) = false /\ (0 <=? x) = true.
Proof.
  unfold is_nan. rewrite !eqb_spec, !leb_spec, !ltb_spec, Prim2SF_zero.
  unfold SFeqb, SFleb, SFltb, SFcompare.
  destruct (Prim2SF x) as [s|s| |s m e]; cbn; try discriminate;
    destruct s; cbn; try discriminate; auto.
  rewrite Z.compare_refl, Pos.compare_cont_refl. auto.
Qed.

Lemma abs_of_negative (a : float) : (a <? 0) = true -> (0 <? abs a) = true.
Proof.
  rewrite !ltb_spec, abs_spec, Prim2SF_zero. unfold SFltb, SFcompare, SFabs.
  destruct (Prim2SF a) as [s|s| |s m e]; cbn; try discriminate;
    destruct s; cbn; try discriminate; auto.
Qed.

Lemma infinity_is_nonnegative (v : float) :
  is_infinity v = true -> (0 <=? abs v) = true.
Proof.
  unfold is_infinity. rewrite eqb_spec, leb_spec, abs_spec, Prim2SF_infinity, Prim2SF_zero.
  unfold SFeqb, SFleb, SFcompare, SFabs.
  destruct (Prim2SF v) as [s|s| |s m e]; cbn; try discriminate; auto.
Qed.

(** On a positive base [**] gives nothing below zero, if the C library's
    [pow] does not. *)
Lemma pow_nonnegative (P : Platform.t) (x y p : float) :
  pow_is_nonnegative P -> (0 <? x) = true ->
  PyFloat.pow (Platform.libm_pow P) x y = Return (PyFloat.Float p) ->
  (p =? p) = true -> (0 <=? p) = true.
Proof.
  intros HP Hx. destruct (positive_base_facts x Hx) as (Hn & H0 & Hneg & Hle).
  unfold PyFloat.pow. rewrite Hn, H0, Hneg. cbn [andb].
  destruct (y =? 0); [intros [= <-]; reflexivity|].
  destruct (is_nan y) eqn:Hny.
  { destruct (x =? 1); intros [= <-]; [reflexivity|].
    unfold is_nan in Hny. intros E. rewrite E in Hny. discriminate. }
  destruct (is_infinity y) eqn:Hiy.
  { destruct (abs x =? 1); [intros [= <-]; reflexivity|].
    destruct (Bool.eqb _ _); intros [= <-] _;
      [apply infinity_is_nonnegative; exact Hiy|reflexivity]. }
  destruct (is_infinity x) eqn:Hix.
  { destruct (0 <? y); destruct (PyFloat.is_odd_integer y); intros [= <-] _;
      try exact Hle; try reflexivity.
    - rewrite leb_spec, abs_spec, Prim2SF_zero. revert Hle.
      rewrite leb_spec, Prim2SF_zero. unfold SFleb, SFcompare, SFabs.
      destruct (Prim2SF x) as [s|s| |s m e]; cbn; auto.
    - unfold PyFloat.copysign. destruct (get_sign x); reflexivity. }
  destruct (x =? 1); [intros [= <-]; reflexivity|].
  destruct (is_infinity (Platform.libm_pow P x y)); [discriminate|].
  intros [= <-] _. apply HP. exact Hx.
Qed.

End SignFacts.

Section NegativeRadicand.

Local Open Scope float_scope.

(** [root(-8, 3)] is minus what the C library's [pow] gives for 8 and the
    double nearest to a third, when that is a finite number. *)
Lemma root_of_minus_eight (P : Platform.t) :
  let p := Platform.libm_pow P 8 (1 / 3) in
  is_infinity p = false -> is_nan p = false ->
  RootOperation.execute P (-8) 3 = Return (- p).
Proof.
  intros p Hinf Hnan. subst p.
  unfold is_nan in Hnan. apply negb_false_iff, eqb_opp_refl in Hnan.
  unfold RootOperation.execute, RootOperation.even_degree, PyFloat.truediv.
  change (3 =? 0)%float with false. change (-8 <? 0)%float with true.
  change (PyFloat.rem 3 2) with (Return 1%float). cbn.
  unfold PyFloat.pow.
  change (abs (-8))%float with 8%float.
  repeat match goal with
    | |- context [(?x =? ?y)%float] =>
        lazymatch x with context [Platform.libm_pow] => fail | _ =>
          let v := eval vm_compute in (x =? y)%float in
          change (x =? y)%float with v end
    | |- context [(?x <? ?y)%float] =>
        lazymatch x with context [Platform.libm_pow] => fail | _ =>
          let v := eval vm_compute in (x <? y)%float in
          change (x <? y)%float with v end
    | |- context [is_nan ?x] =>
        lazymatch x with context [Platform.libm_pow] => fail | _ =>
          let v := eval vm_compute in (is_nan x) in
          change (is_nan x) with v end
    | |- context [is_infinity ?x] =>
        lazymatch x with context [Platform.libm_pow] => fail | _ =>
          let v := eval vm_compute in (is_infinity x) in
          change (is_infinity x) with v end
    end.
  cbn. unfold is_infinity in Hinf.
  set (q := 1 / 3) in *. vm_compute in q. subst q.
  rewrite Hinf. cbn. unfold PyFloat.ne. rewrite Hnan. reflexivity.
Qed.

Lemma eqb_opp_inv (p : float) : (- p =? - p) = true -> (p =? p) = true.
Proof.
  rewrite !eqb_spec, opp_spec. unfold SFeqb, SFcompare, SFopp.
  destruct (Prim2SF p) as [s|s| |s m e]; cbn;
    try (intros; reflexivity); try discriminate.
  - destruct s; reflexivity.
  - intros _. destruct s; cbn; rewrite Z.compare_refl, Pos.compare_cont_refl;
      reflexivity.
Qed.

(** When the radicand is negative, what [RootOperation.execute] returns. *)
Lemma root_of_negative (P : Platform.t) (a b r : float) :
  (a <? 0) = true ->
  (RootOperation.execute P a b = Return r <->
   (b =? 0) = false /\ RootOperation.even_degree b = Return false /\
   exists p,
     PyFloat.pow (Platform.libm_pow P) (abs a) (1 / b) = Return (PyFloat.Float p) /\
     (p =? p) = true /\ r = - p).
Proof.
  intros Ha. unfold RootOperation.execute. rewrite Ha. split.
  - destruct (b =? 0) eqn:Hb; [discriminate|].
    destruct (even_degree_returns b) as [[|] ->]; cbn; [discriminate|].
    unfold PyFloat.truediv. rewrite Hb. cbn.
    destruct (PyFloat.pow _ _ _) as [[p|]|e0]; cbn.
    + unfold PyFloat.ne. destruct (- p =? - p) eqn:E; cbn; [|discriminate].
      intros [= <-]. split; [reflexivity|]. split; [reflexivity|].
      exists p. split; [reflexivity|]. split; [|reflexivity].
      apply eqb_opp_inv. exact E.
    + discriminate.
    + destruct (RootOperation.handled e0); discriminate.
  - intros (Hb & -> & p & Hp & Hnn & ->). rewrite Hb. cbn.
    unfold PyFloat.truediv. rewrite Hb. cbn. rewrite Hp. cbn.
    unfold PyFloat.ne. rewrite (eqb_opp_refl p Hnn). reflexivity.
Qed.

End NegativeRadicand.

(** * The properties of the specification *)

(** ** Undo right after a calculation *)

(** C1 after a load. [load_history] replaces the history and leaves the
    snapshots as they were, so the snapshot under the next calculation's is
    the one from before the load: on a fresh calculator that loads one row
    and performs an addition, [undo] empties the history instead of bringing
    the loaded row back. *)
Theorem undo_after_load_and_perform :
  let row := {| Calculation.row_operation := Some "add"%string;
                Calculation.row_operand1 := Some (PyNum 1);
                Calculation.row_operand2 := Some (PyNum 2);
                Calculation.row_result := Some (PyNum 3);
                Calculation.row_timestamp := Some (Calculation.Iso 7) |} in
  let loaded :=
    Calculator.load_history (fst Examples.fresh) None
      (CalculationHistory.Frame [row]) 9 (snd Examples.fresh) in
  let before := snd (fst loaded) in
  let performed :=
    Calculator.perform_calculation Examples.platform before "add"
      (PyNum 5) (PyNum 3) 10 (snd loaded) in
  let undone := Calculator.undo (snd (fst performed)) (snd performed) in
  fst (fst loaded) = Return tt /\
  CalculationHistory.get_history (Calculator.history before) =
    [ {| Calculation.oid := 0; Calculation.operation := "add";
         Calculation.operand1 := 1; Calculation.operand2 := 2;
         Calculation.result := 3; Calculation.timestamp := 7 |} ] /\
  fst (fst performed) = Return 8%float /\
  fst (fst undone) = Return tt /\
  CalculationHistory.get_history (Calculator.history (snd (fst undone))) = [].
Proof. cbv zeta. repeat split; vm_compute; reflexivity. Qed.

(** C1 without a load in between. Start from a fresh calculator with a
    capacity of at least one and make any calls of [perform_calculation],
    [undo], [redo], [clear_history], [save_history] and [register_observer],
    whatever they return or raise; if the next [perform_calculation]
    returns, the [undo] right after it returns too and the history is again
    the list it was before that calculation. *)
Theorem undo_after_perform_restores :
  forall (P : Platform.t) (cfg : CalculatorConfig.t) (w0 : World.t)
         (cmds : list Calculator.Command)
         (operation : string) (a b : PyValue) (now : Z)
         (r : float) (self' : Calculator.t) (w' : World.t),
    1 <= CalculatorConfig.max_history_size cfg ->
    Forall keeps_snapshots cmds ->
    let s := Calculator.run P cmds (Calculator.__init__ cfg w0) in
    Calculator.perform_calculation P (fst s) operation a b now (snd s)
      = (Return r, self', w') ->
    exists c w'',
      Calculator.undo self' w' = (Return tt, c, w'') /\
      CalculationHistory.get_history (Calculator.history c) =
      CalculationHistory.get_history (Calculator.history (fst s)).
Proof.
  intros P cfg w0 cmds operation a b now r self' w' Hk Hc s H.
  assert (Hs : consistent (fst s)).
  { apply consistent_run; [assumption|]. apply consistent_init. assumption. }
  apply perform_returns in H. destruct H as (x & y & _ & -> & _).
  destruct Hs as [Hcap Hsync Hu Hr].
  eexists. eexists. split.
  - apply undo_nonempty. reflexivity.
  - cbn. rewrite <- Hsync. apply trim_fits. rewrite Hsync.
    apply fits_top_history; [unfold capacity in Hcap; lia|assumption].
Qed.

Lemma undo_after_perform_restores_witness :
  1 <= CalculatorConfig.max_history_size CalculatorConfig.DEFAULTS /\
  exists r self' w',
    Calculator.perform_calculation Examples.platform (fst Examples.undone)
      "multiply" (PyNum 2) (PyNum 4) 11 (snd Examples.undone)
      = (Return r, self', w') /\
    exists c w'',
      Calculator.undo self' w' = (Return tt, c, w'') /\
      CalculationHistory.get_history (Calculator.history c) =
      CalculationHistory.get_history (Calculator.history (fst Examples.undone)).
Proof.
  split; [cbn; lia|].
  do 3 eexists. split; [vm_compute; reflexivity|].
  eapply (undo_after_perform_restores Examples.platform CalculatorConfig.DEFAULTS
            Examples.boot
            [Calculator.Perform "add" (PyNum 5) (PyNum 3) 10; Calculator.Undo]
            "multiply" (PyNum 2) (PyNum 4) 11).
  - cbn. lia.
  - repeat constructor.
  - vm_compute. reflexivity.
Defined.

(** ** The capacity of the history *)

(** C2 on a load that raises. A store of capacity 1 loads a file of two
    well-formed rows followed by a malformed one: the call raises
    [HistoryError] before the trimming is reached, and the store is left
    holding two entries. *)
Theorem failed_load_exceeds_capacity :
  let out :=
    CalculationHistory.load_from_csv (CalculationHistory.__init__ 1)
      (CalculationHistory.Frame
         [Examples.good_row; Examples.good_row; Examples.bad_row])
      9 Examples.boot in
  fst (fst out) = Raise (HistoryError "Failed to load history from CSV") /\
  CalculationHistory._max_size (snd (fst out)) = 1 /\
  CalculationHistory.__len__ (snd (fst out)) = 2.
Proof. cbv zeta. repeat split. Qed.

(** C2 on the calls that return. With a capacity [k >= 1]: after [N] calls
    of [add_calculation] on a new store, the store holds the [min(N, k)]
    most recent inputs, oldest first; and the store holds at most [k]
    entries after every [add_calculation], after every [set_history] and
    after every [load_from_csv] that returns. *)
Theorem history_keeps_most_recent :
  forall k : Z,
    1 <= k ->
    (forall inputs : list Calculation.t,
       let store := add_all (CalculationHistory.__init__ k) inputs in
       let n := Nat.min (List.length inputs) (Z.to_nat k) in
       CalculationHistory.get_history store = most_recent n inputs /\
       List.length (CalculationHistory.get_history store) = n) /\
    (forall self calculation,
       CalculationHistory._max_size self = k ->
       CalculationHistory.__len__
         (CalculationHistory.add_calculation self calculation) <= k) /\
    (forall self history,
       CalculationHistory._max_size self = k ->
       CalculationHistory.__len__
         (CalculationHistory.set_history self history) <= k) /\
    (forall self file now w self' w',
       CalculationHistory._max_size self = k ->
       CalculationHistory.load_from_csv self file now w = (Return tt, self', w') ->
       CalculationHistory.__len__ self' <= k).
Proof.
  intros k Hk. split; [|split; [|split]].
  - intros inputs store n. subst store n.
    unfold CalculationHistory.get_history. rewrite history_add_all by exact Hk.
    split.
    + unfold most_recent. f_equal. lia.
    + rewrite length_most_recent. reflexivity.
  - intros self calculation <-. unfold CalculationHistory.__len__. cbn.
    apply length_trim. exact Hk.
  - intros self history <-. unfold CalculationHistory.__len__. cbn.
    apply length_trim. exact Hk.
  - intros self file now w self' w' <- H.
    pose proof (max_size_load_from_csv self file now w) as Hm.
    rewrite H in Hm. cbn in Hm. rewrite <- Hm.
    apply (length_load_from_csv self self' file now w w'); [|exact H].
    exact Hk.
Qed.

Lemma history_keeps_most_recent_witness :
  1 <= 2 /\
  CalculationHistory.get_history
    (add_all (CalculationHistory.__init__ 2)
       [Examples.c1; Examples.c2; Examples.c3]) =
  [Examples.c2; Examples.c3].
Proof.
  split; [lia|].
  exact (proj1 (proj1 (history_keeps_most_recent 2 ltac:(lia))
                  [Examples.c1; Examples.c2; Examples.c3])).
Defined.

(** ** Undo to exhaustion, then redo *)

(** C3, as the code has it. On a calculator with a capacity of at least
    one, after any calls of [perform_calculation]: there are as many
    snapshots as calls that returned, and one more, the one the constructor
    saved. That many [undo]s return, the next [undo] raises [HistoryError]
    and changes nothing; one [redo] after that failure returns and leaves
    the history empty, since it brings back the first snapshot; the same
    number of [redo]s as [undo]s that returned brings the history back to
    what it was before the undo sequence. *)
Theorem undo_exhaustion_then_redo :
  forall (P : Platform.t) (cfg : CalculatorConfig.t) (w0 : World.t)
         (cmds : list Calculator.Command),
    1 <= CalculatorConfig.max_history_size cfg ->
    Forall is_perform cmds ->
    let s := Calculator.run P cmds (Calculator.__init__ cfg w0) in
    let n := S (calculations_recorded P cmds (Calculator.__init__ cfg w0)) in
    List.length (CalculatorCaretaker._undo_stack (Calculator.caretaker (fst s))) = n /\
    exists c1 w1,
      undo_times n s = Some (c1, w1) /\
      Calculator.undo c1 w1 = (Raise (HistoryError "Nothing to undo"), c1, w1) /\
      (exists c2 w2,
         Calculator.redo c1 w1 = (Return tt, c2, w2) /\
         CalculationHistory.get_history (Calculator.history c2) = []) /\
      (exists c3 w3,
         redo_times n (c1, w1) = Some (c3, w3) /\
         CalculationHistory.get_history (Calculator.history c3) =
         CalculationHistory.get_history (Calculator.history (fst s))).
Proof.
  intros P cfg w0 cmds Hk Hc s n.
  assert (Hn : List.length
                 (CalculatorCaretaker._undo_stack (Calculator.caretaker (fst s))) = n).
  { unfold s, n. rewrite snapshots_count; [|assumption|].
    - unfold Calculator.__init__. cbn [fst].
      destruct (CalculatorConfig.auto_save cfg); reflexivity.
    - rewrite observers_init.
      destruct (CalculatorConfig.auto_save cfg); repeat constructor. }
  split; [exact Hn|]. rewrite <- Hn. clear Hn. clear n.
  set (n := List.length
              (CalculatorCaretaker._undo_stack (Calculator.caretaker (fst s)))).
  assert (Hs : consistent (fst s)).
  { apply consistent_run; [apply is_perform_keeps_snapshots; assumption|].
    apply consistent_init. assumption. }
  assert (Hf : floor_kept (fst s)).
  { apply floor_kept_run; [assumption|].
    unfold Calculator.__init__. cbn [fst].
    destruct (CalculatorConfig.auto_save cfg); (split; [exists []|]); reflexivity. }
  destruct Hf as [[rest HU] HR]. destruct Hs as [Hcap Hsync Hfu Hfr].
  destruct s as [self w]. cbn [fst] in *.
  destruct (undo_times_all _ self w eq_refl) as (c1 & w1 & Ht & Hu1 & Hr1 & Hc1 & _).
  fold n in Ht. rewrite HR in Hr1. cbn [app] in Hr1.
  exists c1, w1. split; [exact Ht|]. split; [apply undo_empty; exact Hu1|].
  split.
  - rewrite HU in Hr1. cbn [rev] in Hr1.
    do 2 eexists. split; [apply (redo_nonempty c1 w1 _ _ Hr1)|].
    cbn. apply trim_nil.
  - destruct (redo_times_all _ c1 w1 Hr1) as (c3 & w3 & Ht3 & Hc3 & Hh3).
    rewrite length_rev in Ht3. fold n in Ht3.
    exists c3, w3. split; [exact Ht3|].
    destruct (stack_cases (CalculatorCaretaker._undo_stack (Calculator.caretaker self)))
      as [E|(U' & top & E)]; [rewrite E in HU; discriminate|].
    rewrite E, rev_unit in Hh3. rewrite (Hh3 _ _ eq_refl), Hc1.
    rewrite E, top_history_append in Hsync. rewrite <- Hsync.
    apply trim_fits. unfold CalculationHistory.get_history in *.
    rewrite Hsync. rewrite E in Hfu. apply Forall_app in Hfu.
    destruct Hfu as [_ Hfu]. inversion Hfu; subst. assumption.
Qed.

Lemma undo_exhaustion_then_redo_witness :
  1 <= CalculatorConfig.max_history_size CalculatorConfig.DEFAULTS /\
  let cmds := [Calculator.Perform "add" (PyNum 5) (PyNum 3) 10;
               Calculator.Perform "divide" (PyNum 1) (PyNum 0) 11;
               Calculator.Perform "multiply" (PyNum 2) (PyNum 4) 12] in
  let s := Calculator.run Examples.platform cmds
             (Calculator.__init__ CalculatorConfig.DEFAULTS Examples.boot) in
  let n := S (calculations_recorded Examples.platform cmds
                (Calculator.__init__ CalculatorConfig.DEFAULTS Examples.boot)) in
  n = 3%nat /\
  List.length (CalculatorCaretaker._undo_stack (Calculator.caretaker (fst s))) = n /\
  exists c1 w1,
    undo_times n s = Some (c1, w1) /\
    Calculator.undo c1 w1 = (Raise (HistoryError "Nothing to undo"), c1, w1) /\
    (exists c2 w2,
       Calculator.redo c1 w1 = (Return tt, c2, w2) /\
       CalculationHistory.get_history (Calculator.history c2) = []) /\
    (exists c3 w3,
       redo_times n (c1, w1) = Some (c3, w3) /\
       CalculationHistory.get_history (Calculator.history c3) =
       CalculationHistory.get_history (Calculator.history (fst s))).
Proof.
  split; [cbn; lia|]. cbv zeta. split; [vm_compute; reflexivity|].
  apply (undo_exhaustion_then_redo Examples.platform CalculatorConfig.DEFAULTS
           Examples.boot).
  - cbn. lia.
  - repeat constructor.
Defined.

(** C3 as stated fails. One addition on a fresh calculator, then [undo]
    until it raises: two calls return, the third raises and changes nothing.
    The [redo] right after returns and leaves the history empty, not the
    one-entry history from before the undo sequence. *)
Lemma one_redo_after_exhaustion :
  let s := Calculator.run Examples.platform
             [Calculator.Perform "add" (PyNum 5) (PyNum 3) 10] Examples.fresh in
  match undo_times 2 s with
  | Some (c1, w1) =>
      Calculator.undo c1 w1 = (Raise (HistoryError "Nothing to undo"), c1, w1) /\
      fst (fst (Calculator.redo c1 w1)) = Return tt /\
      CalculationHistory.get_history
        (Calculator.history (snd (fst (Calculator.redo c1 w1)))) = [] /\
      CalculationHistory.get_history
        (Calculator.history (snd (fst (Calculator.redo c1 w1)))) <>
      CalculationHistory.get_history (Calculator.history (fst s))
  | None => False
  end.
Proof. vm_compute. repeat split. discriminate. Qed.

(** ** A new calculation ends redo *)

(** C4. Whatever was undone before, a [perform_calculation] that returns
    has saved a new snapshot and thereby emptied the redo stack:
    [can_redo()] is false and [redo()] raises [HistoryError], changing
    nothing. *)
Theorem perform_clears_redo :
  forall (P : Platform.t) (self : Calculator.t) (operation : string)
         (a b : PyValue) (now : Z) (w : World.t)
         (r : float) (self' : Calculator.t) (w' : World.t),
    Calculator.perform_calculation P self operation a b now w = (Return r, self', w') ->
    CalculatorCaretaker.can_redo (Calculator.caretaker self') = false /\
    Calculator.redo self' w' = (Raise (HistoryError "Nothing to redo"), self', w').
Proof.
  intros P self operation a b now w r self' w' H.
  apply perform_returns in H. destruct H as (x & y & _ & -> & _).
  split; reflexivity.
Qed.

Lemma perform_clears_redo_witness :
  CalculatorCaretaker.can_redo (Calculator.caretaker (fst Examples.undone)) = true /\
  exists r self' w',
    Calculator.perform_calculation Examples.platform (fst Examples.undone)
      "multiply" (PyNum 2) (PyNum 4) 11 (snd Examples.undone)
      = (Return r, self', w') /\
    (CalculatorCaretaker.can_redo (Calculator.caretaker self') = false /\
     Calculator.redo self' w' = (Raise (HistoryError "Nothing to redo"), self', w')).
Proof.
  split; [reflexivity|].
  do 3 eexists. split; [vm_compute; reflexivity|].
  eapply (perform_clears_redo Examples.platform (fst Examples.undone)
            "multiply" (PyNum 2) (PyNum 4) 11 (snd Examples.undone)).
  vm_compute. reflexivity.
Defined.

(** ** Failures before any mutation *)

(** C5. A failure of validation or of the operation ends
    [perform_calculation] before anything is touched: the call raises that
    exception and the calculator (history, undo and redo stacks, observers)
    and the world (log, output, files, notifications received) are as before
    the call. And where no registered observer raises errors of these two
    classes itself, every [ValidationError] or [OperationError] that
    [perform_calculation] raises is such a failure, so the state is
    unchanged after it. *)
Theorem perform_failure_leaves_state :
  forall (P : Platform.t) (self : Calculator.t) (operation : string)
         (a b : PyValue) (now : Z) (w : World.t) (e : exn),
    (Calculator.compute P (Calculator.config self) operation a b = Raise e ->
     Calculator.perform_calculation P self operation a b now w = (Raise e, self, w)) /\
    (forall (self' : Calculator.t) (w' : World.t),
       Forall engine_errors_free (Calculator.observers self) ->
       Calculator.perform_calculation P self operation a b now w = (Raise e, self', w') ->
       is_ValidationError e || is_OperationError e = true ->
       Calculator.compute P (Calculator.config self) operation a b = Raise e /\
       self' = self /\ w' = w).
Proof.
  intros P self operation a b now w e. split.
  - apply perform_aborts_before_mutation.
  - intros self' w' Hobs H He.
    unfold Calculator.perform_calculation in H.
    destruct (Calculator.compute P (Calculator.config self) operation a b)
      as [[[x y] r]|e0].
    + exfalso. cbn [World.alloc] in H.
      destruct (Calculator.notify_observers _ _ _) as [[[]|e1] w1] eqn:E; [discriminate|].
      injection H as -> _ _.
      apply notify_raises in E. destruct E as (o & w0 & Hin & Ho).
      cbn in Hin. rewrite Forall_forall in Hobs.
      specialize (Hobs o Hin _ _ _ _ Ho). congruence.
    + injection H as -> <- <-. auto.
Qed.

Lemma perform_failure_leaves_state_witness :
  let self := fst Examples.fresh in
  let w := snd Examples.fresh in
  exists e self' w',
    Calculator.perform_calculation Examples.platform self "divide"
      (PyNum 10) (PyNum 0) 10 w = (Raise e, self', w') /\
    is_ValidationError e || is_OperationError e = true /\
    (Calculator.compute Examples.platform (Calculator.config self) "divide"
       (PyNum 10) (PyNum 0) = Raise e /\
     self' = self /\ w' = w).
Proof.
  cbv zeta. do 3 eexists. split; [vm_compute; reflexivity|].
  split; [reflexivity|].
  apply (proj2 (perform_failure_leaves_state Examples.platform (fst Examples.fresh)
                  "divide" (PyNum 10) (PyNum 0) 10 (snd Examples.fresh) _)).
  - repeat constructor; intros history calculation w e H;
      rewrite builtin_observers_never_raise in H by exact I; discriminate.
  - vm_compute. reflexivity.
  - reflexivity.
Defined.

(** ** Loading a history file *)

(** C6 on a malformed row. A store holding one record loads a file whose
    first row is well formed and whose second is not: the call raises
    [HistoryError], and the store no longer holds its record but the one
    made from the first row. *)
Theorem failed_load_replaces_history :
  let store :=
    CalculationHistory.add_calculation (CalculationHistory.__init__ 100)
      Examples.c1 in
  let out :=
    CalculationHistory.load_from_csv store
      (CalculationHistory.Frame [Examples.good_row; Examples.bad_row])
      9 Examples.boot in
  CalculationHistory.get_history store = [Examples.c1] /\
  fst (fst out) = Raise (HistoryError "Failed to load history from CSV") /\
  CalculationHistory.get_history (snd (fst out)) =
    [ {| Calculation.oid := 0; Calculation.operation := "add";
         Calculation.operand1 := 1; Calculation.operand2 := 2;
         Calculation.result := 3; Calculation.timestamp := 7 |} ] /\
  CalculationHistory.get_history (snd (fst out)) <>
  CalculationHistory.get_history store.
Proof. cbv zeta. repeat split. vm_compute. discriminate. Qed.

(** C6 on the other outcomes of [load_from_csv]. A missing or unreadable
    file raises [HistoryError] and leaves the store as it was; an empty file
    returns and leaves the store empty. A load of rows returns exactly when
    [from_dict] reads every row; it has then made one record per row, in
    row order, each record the one [from_dict] makes of its row, each a new
    object, and the store holds these records trimmed to the capacity,
    whatever it held before. *)
Theorem load_outcomes :
  forall (self : CalculationHistory.t) (now : Z) (w : World.t),
    CalculationHistory.load_from_csv self CalculationHistory.Missing now w =
      (Raise (HistoryError "Failed to load history from CSV"), self, w) /\
    CalculationHistory.load_from_csv self CalculationHistory.Unreadable now w =
      (Raise (HistoryError "Failed to load history from CSV"), self, w) /\
    CalculationHistory.load_from_csv self CalculationHistory.EmptyData now w =
      (Return tt, CalculationHistory.clear_history self, w) /\
    (forall rows self' w',
       CalculationHistory.load_from_csv self (CalculationHistory.Frame rows) now w =
         (Return tt, self', w') ->
       exists parsed,
         Forall2
           (fun row c => Calculation.from_dict (Calculation.oid c) now row = Return c)
           rows parsed /\
         map Calculation.oid parsed = seq (World.next_oid w) (List.length rows) /\
         self' = CalculationHistory.set_list self
                   (CalculationHistory.trim (CalculationHistory._max_size self) parsed) /\
         World.next_oid w' = (World.next_oid w + List.length rows)%nat /\
         World.events w' = World.events w) /\
    (forall rows,
       Forall parses rows <->
       fst (fst (CalculationHistory.load_from_csv self
                   (CalculationHistory.Frame rows) now w)) = Return tt).
Proof.
  intros self now w. split; [|split; [|split; [|split]]]; try reflexivity.
  - intros rows self' w'. cbn.
    destruct (CalculationHistory.append_rows now rows
                (CalculationHistory.clear_history self) w) as [[[[]|e] s1] w1] eqn:E;
      [|discriminate].
    intros [= <- <-]. apply append_rows_records in E.
    destruct E as (parsed & Hp & Ho & -> & Hn & He). exists parsed.
    split; [exact Hp|]. split; [exact Ho|]. split; [reflexivity|].
    split; [exact Hn|exact He].
  - intros rows. cbn. split.
    + intros H.
      pose proof (append_rows_clean now rows H
                    (CalculationHistory.clear_history self) w) as Ha.
      destruct (CalculationHistory.append_rows _ _ _ _) as [[[[]|e] s1] w1];
        cbn in Ha; [reflexivity|discriminate].
    + destruct (CalculationHistory.append_rows now rows
                  (CalculationHistory.clear_history self) w)
        as [[[[]|e] s1] w1] eqn:E; [|discriminate].
      intros _. apply append_rows_records in E.
      destruct E as (parsed & Hp & _).
      clear -Hp. induction Hp as [|row c rows parsed Hrow _ IH]; constructor.
      * destruct row as [op v1 v2 v3 ts].
        unfold parses, Calculation.from_dict in *. cbn in *.
        destruct op; cbn in *; [|discriminate].
        destruct v1 as [v1|]; cbn in *; [|discriminate].
        destruct (py_float v1); cbn in *; [|discriminate].
        destruct v2 as [v2|]; cbn in *; [|discriminate].
        destruct (py_float v2); cbn in *; [|discriminate].
        destruct v3 as [v3|]; cbn in *; [|discriminate].
        destruct (py_float v3); cbn in *; [|discriminate].
        destruct ts as [[| |]|]; cbn in *; try discriminate; eauto.
      * exact IH.
Qed.

Lemma load_outcomes_witness :
  exists self' w',
    CalculationHistory.load_from_csv (CalculationHistory.__init__ 1)
      (CalculationHistory.Frame [Examples.good_row; Examples.good_row])
      9 Examples.boot = (Return tt, self', w') /\
    exists parsed,
      Forall2
        (fun row c => Calculation.from_dict (Calculation.oid c) 9 row = Return c)
        [Examples.good_row; Examples.good_row] parsed /\
      map Calculation.oid parsed = seq (World.next_oid Examples.boot) 2 /\
      self' = CalculationHistory.set_list (CalculationHistory.__init__ 1)
                (CalculationHistory.trim 1 parsed) /\
      World.next_oid w' = (World.next_oid Examples.boot + 2)%nat /\
      World.events w' = World.events Examples.boot.
Proof.
  do 2 eexists. split; [vm_compute; reflexivity|].
  eapply (proj1 (proj2 (proj2 (proj2 (load_outcomes (CalculationHistory.__init__ 1) 9
                                        Examples.boot))))
            [Examples.good_row; Examples.good_row]).
  vm_compute. reflexivity.
Defined.

(** ** Notification of observers *)

(** C7, as the code has it. [notify_observers] calls the handlers in
    registration order and has no guard of its own. When every registered
    handler returns, all of them have run, in order, and the call returns.
    When some handler raises, the handlers before it and that one have run,
    those after it have not, and the exception leaves [notify_observers] and
    then [perform_calculation], which by then has recorded the calculation
    and saved the snapshot. The two observers the module defines always
    return: the auto-save observer catches a failed save and prints it. *)
Theorem notify_delivers_until_failure :
  forall (history : CalculationHistory.t) (calculation : Calculation.t),
    (forall obs w,
       Forall (returns history calculation) obs ->
       Calculator.notify obs history calculation w =
         (Return tt, run_handlers obs history calculation w)) /\
    (forall pre o post e w,
       Forall (returns history calculation) pre ->
       raises history calculation e o ->
       Calculator.notify (pre ++ o :: post) history calculation w =
         (Raise e, run_handlers (pre ++ [o]) history calculation w)) /\
    (forall o, builtin o -> returns history calculation o) /\
    (forall P self operation a b now w x y r e w',
       Calculator.compute P (Calculator.config self) operation a b = Return (x, y, r) ->
       let c := Calculation.__init__ (World.next_oid w) now operation x y r in
       Calculator.notify_observers (performed self c) c (snd (World.alloc w))
         = (Raise e, w') ->
       Calculator.perform_calculation P self operation a b now w
         = (Raise e, performed self c, w')).
Proof.
  intros history calculation. split; [|split; [|split]].
  - intros obs w. apply notify_all_return.
  - intros pre o post e w. apply notify_first_failure.
  - intros o Ho w. apply builtin_observers_never_raise. exact Ho.
  - intros P self operation a b now w x y r e w' Hc c Hn.
    unfold Calculator.perform_calculation. rewrite Hc. cbn [World.alloc].
    fold c. fold (performed self c). cbn [World.alloc snd] in Hn.
    rewrite Hn. reflexivity.
Qed.

Lemma notify_delivers_until_failure_witness :
  let history := Calculator.history (fst Examples.fresh) in
  let calculation := Calculation.__init__ 0 10 "add" 5 3 8 in
  Calculator.notify
    ([CalculatorObserver.LoggingObserver] ++ Examples.failing :: [Examples.second])
    history calculation Examples.boot =
  (Raise (UserException "boom"),
   run_handlers ([CalculatorObserver.LoggingObserver] ++ [Examples.failing])
     history calculation Examples.boot).
Proof.
  cbv zeta.
  apply (proj1 (proj2 (notify_delivers_until_failure
                         (Calculator.history (fst Examples.fresh))
                         (Calculation.__init__ 0 10 "add" 5 3 8)))).
  - constructor; [intros w; reflexivity|constructor].
  - intros w. reflexivity.
Defined.

(** C7 as stated fails. With an observer whose handler raises registered
    before another one, a calculation reaches the first and never the
    second, and the exception comes out of [perform_calculation]. *)
Lemma failing_observer_stops_delivery :
  let self :=
    Calculator.register_observer
      (Calculator.register_observer (fst Examples.fresh) Examples.failing)
      Examples.second in
  let out :=
    Calculator.perform_calculation Examples.platform self "add"
      (PyNum 5) (PyNum 3) 10 (snd Examples.fresh) in
  fst (fst out) = Raise (UserException "boom") /\
  existsb (Examples.handled_by "failing") (World.events (snd out)) = true /\
  existsb (Examples.handled_by "second") (World.events (snd out)) = false.
Proof. cbv zeta. repeat split; vm_compute; reflexivity. Qed.

(** ** Equality of calculations *)

(** C8, as the code has it. [==] on two [Calculation] objects is identity:
    it holds exactly when both are the same object, and two objects the
    constructor made one after the other are never equal, whatever their
    attributes. *)
Theorem calculation_eq_is_identity :
  (forall c1 c2 : Calculation.t,
     Calculation.eq c1 c2 = true <-> Calculation.oid c1 = Calculation.oid c2) /\
  (forall (w : World.t) (now now' : Z) (operation operation' : string)
          (a b r a' b' r' : float),
     let c1 := Calculation.__init__ (fst (World.alloc w)) now operation a b r in
     let c2 := Calculation.__init__ (fst (World.alloc (snd (World.alloc w))))
                 now' operation' a' b' r' in
     Calculation.eq c1 c2 = false).
Proof.
  split.
  - intros c1 c2. unfold Calculation.eq. apply Nat.eqb_eq.
  - intros. cbn. unfold Calculation.eq. cbn.
    apply Nat.eqb_neq. lia.
Qed.

(** C8 as stated fails: two objects built from the same arguments at the
    same instant agree on all five attributes and still compare unequal. *)
Lemma same_fields_not_equal :
  let c1 := Calculation.__init__ (fst (World.alloc Examples.boot)) 0 "add" 5 3 8 in
  let c2 := Calculation.__init__
              (fst (World.alloc (snd (World.alloc Examples.boot)))) 0 "add" 5 3 8 in
  Calculation.same_fields c1 c2 /\ Calculation.eq c1 c2 = false.
Proof. cbv zeta. split; [repeat split|reflexivity]. Qed.

(** ** The root operation *)

Section RootStatements.

Local Open Scope float_scope.

(** C9, as the code has it. [RootOperation.execute] raises
    [OperationError] whenever [b == 0] or [a < 0 and b % 2 == 0], as for
    [root(9, 0)] and [root(-9, 2)]; it raises nothing but [OperationError];
    and it raises it in other cases too, as for [root(0, -1)], where the
    power raises [ZeroDivisionError] and the handler turns it into
    [OperationError]. On a negative [a] the call returns exactly when the
    degree is neither zero nor even and [abs(a) ** (1 / b)] is a number, and
    the result is then minus that power. The sign is preserved: the result
    is never above zero, given that the C library's [pow] gives nothing
    below zero on a positive base. [root(-8, 3)] is minus what [pow] gives
    for the cube root of 8, whenever that is a number, and so within
    [2 ** -20] of [-2] wherever [pow] is within [2 ** -20] of [2]. *)
Theorem root_operation_errors :
  forall (P : Platform.t) (a b : float),
    (((b =? 0) = true \/
      ((a <? 0) = true /\ RootOperation.even_degree b = Return true)) ->
     exists msg, RootOperation.execute P a b = Raise (OperationError msg)) /\
    (forall e, RootOperation.execute P a b = Raise e -> is_OperationError e = true) /\
    ((a <? 0) = true ->
     forall r,
       RootOperation.execute P a b = Return r <->
       (b =? 0) = false /\ RootOperation.even_degree b = Return false /\
       exists p,
         PyFloat.pow (Platform.libm_pow P) (abs a) (1 / b) = Return (PyFloat.Float p) /\
         (p =? p) = true /\ r = - p) /\
    (pow_is_nonnegative P -> (a <? 0) = true ->
     forall r,
       RootOperation.execute P a b = Return r ->
       (r <=? 0) = true /\ (0 <? r) = false) /\
    RootOperation.execute P 9 0 =
      Raise (OperationError "Root degree cannot be zero") /\
    RootOperation.execute P (-9) 2 =
      Raise (OperationError "Cannot calculate even root of negative number") /\
    RootOperation.execute P 0 (-1) =
      Raise (OperationError "Root operation failed") /\
    (let p := Platform.libm_pow P 8 (1 / 3) in
     is_infinity p = false -> is_nan p = false ->
     RootOperation.execute P (-8) 3 = Return (- p)) /\
    (near (Platform.libm_pow P 8 (1 / 3)) 2 0x1p-20 = true ->
     exists r,
       RootOperation.execute P (-8) 3 = Return r /\ near r (-2) 0x1p-20 = true).
Proof.
  intros P a b.
  split; [|split; [|split; [|split; [|split; [|split; [|split; [|split]]]]]]].
  - intros [Hb|[Ha Heven]]; unfold RootOperation.execute.
    + rewrite Hb. eauto.
    + destruct (b =? 0)%float; [eauto|]. rewrite Ha, Heven. cbn. eauto.
  - intros e. unfold RootOperation.execute.
    destruct (b =? 0)%float; [intros [= <-]; reflexivity|].
    destruct (a <? 0)%float eqn:Ha.
    + destruct (even_degree_returns b) as [[|] ->]; cbn.
      * intros [= <-]. reflexivity.
      * apply (root_body_raises P a b). rewrite Ha. reflexivity.
    + cbn. apply (root_body_raises P a b). rewrite Ha. reflexivity.
  - intros Ha r. apply root_of_negative. exact Ha.
  - intros HP Ha r H. apply (root_of_negative P a b r Ha) in H.
    destruct H as (_ & _ & p & Hp & Hnn & ->).
    pose proof (pow_nonnegative P _ _ _ HP (abs_of_negative a Ha) Hp Hnn) as H0.
    pose proof (opp_zero_leb p H0) as Hle. split; [exact Hle|].
    revert Hle. rewrite leb_spec, ltb_spec. unfold SFleb, SFltb.
    rewrite Prim2SF_zero.
    destruct (Prim2SF (- p)) as [s|s| |s m e]; cbn; try discriminate; auto;
      destruct s; cbn; try discriminate; auto.
  - reflexivity.
  - reflexivity.
  - reflexivity.
  - apply root_of_minus_eight.
  - unfold near. intros H. apply andb_prop in H. destruct H as [Hlo Hhi].
    destruct (between_finite (2 - 0x1p-20) (2 + 0x1p-20) _ eq_refl eq_refl Hlo Hhi)
      as [Hinf Hnan].
    exists (- Platform.libm_pow P 8 (1 / 3)).
    split; [apply root_of_minus_eight; assumption|].
    change (-2 - 0x1p-20) with (- (2 + 0x1p-20)).
    change (-2 + 0x1p-20) with (- (2 - 0x1p-20)).
    rewrite !leb_opp, Hlo, Hhi. reflexivity.
Qed.

Lemma root_operation_errors_witness :
  (exists msg,
     RootOperation.execute Examples.roots (-9) 2 = Raise (OperationError msg)) /\
  (forall r,
     RootOperation.execute Examples.roots (-27) 3 = Return r ->
     (r <=? 0) = true /\ (0 <? r) = false) /\
  RootOperation.execute Examples.roots (-27) 3 = Return (-3) /\
  (exists r,
     RootOperation.execute Examples.roots (-8) 3 = Return r /\
     near r (-2) 0x1p-20 = true).
Proof.
  split; [|split; [|split]].
  - apply (proj1 (root_operation_errors Examples.roots (-9) 2)).
    right. split; reflexivity.
  - apply (proj1 (proj2 (proj2 (proj2 (root_operation_errors Examples.roots (-27) 3))))).
    + intros x y _. unfold Examples.roots. cbn.
      repeat match goal with
             | |- context [if ?c then _ else _] => destruct c
             end; reflexivity.
    + reflexivity.
  - apply (proj2 (proj1 (proj2 (proj2 (root_operation_errors Examples.roots (-27) 3)))
                   eq_refl (-3))).
    split; [reflexivity|]. split; [reflexivity|].
    exists 3. split; [reflexivity|]. split; reflexivity.
  - apply (proj2 (proj2 (proj2 (proj2 (proj2 (proj2 (proj2 (proj2
             (root_operation_errors Examples.roots (-8) 3))))))))).
    reflexivity.
Defined.

(** C9 as stated fails. [root(0, -1)] raises [OperationError] although the
    degree is not zero and the radicand is not negative: [0.0 ** -1.0]
    raises [ZeroDivisionError], which the operation catches and reports as
    its own error. *)
Lemma root_of_zero_with_negative_degree :
  RootOperation.execute Examples.platform 0 (-1) =
    Raise (OperationError "Root operation failed") /\
  (-1 =? 0)%float = false /\
  (0 <? 0)%float = false.
Proof. repeat split. Qed.

End RootStatements.

(** ** A fresh calculator *)

(** C10. A calculator straight from its constructor can already undo: the
    constructor saved the empty history as a first snapshot. That first
    [undo] returns and leaves the history empty; the stack is then empty and
    the second [undo] raises [HistoryError], changing nothing. *)
Theorem fresh_calculator_undo :
  forall (cfg : CalculatorConfig.t) (w : World.t),
    let c := fst (Calculator.__init__ cfg w) in
    let w0 := snd (Calculator.__init__ cfg w) in
    CalculatorCaretaker.can_undo (Calculator.caretaker c) = true /\
    exists c1 w1,
      Calculator.undo c w0 = (Return tt, c1, w1) /\
      CalculationHistory.get_history (Calculator.history c1) = [] /\
      Calculator.undo c1 w1 = (Raise (HistoryError "Nothing to undo"), c1, w1).
Proof.
  intros cfg w. cbv zeta.
  destruct cfg as [ld hd k [|] p m enc]; cbn;
    (split; [reflexivity|]);
    do 2 eexists; (split; [reflexivity|]);
    cbn; rewrite trim_nil; split; reflexivity.
Qed.

(** * Further properties of the code *)

(** ** The arithmetic operations *)

Section OperationStatements.

Local Open Scope float_scope.

(** Of the ten operations, the eight other than [power] and [root] fail in one
    case only. [divide], [modulus], [int_divide] and [percent] raise
    [OperationError] exactly when the second operand compares equal to zero
    (either zero, [0.0] or [-0.0]); [add], [subtract], [multiply] and
    [abs_diff] never raise. On every other pair of floats, infinities and
    NaN included, [execute] returns. *)
Theorem zero_divisor_is_the_only_failure :
  forall (P : Platform.t) (op : Operation.t) (a b : float),
    op <> Operation.Power -> op <> Operation.Root ->
    (divides op && (b =? 0) = true ->
       exists msg, Operation.execute P op a b = Raise (OperationError msg)) /\
    (divides op && (b =? 0) = false ->
       exists r, Operation.execute P op a b = Return r).
Proof.
  intros P op a b Hp Hr.
  destruct op; try contradiction; cbn [divides andb Operation.execute];
    unfold AddOperation.execute, SubtractOperation.execute,
      MultiplyOperation.execute, DivideOperation.execute,
      ModulusOperation.execute, IntegerDivideOperation.execute,
      PercentageOperation.execute, AbsoluteDifferenceOperation.execute,
      PyFloat.truediv, PyFloat.rem, PyFloat.floordiv;
    (split; intros H; try discriminate H; try rewrite H; cbn).
  all: repeat match goal with
         | |- context [if ?c then _ else _] => destruct c
         end; eauto.
Qed.

Lemma zero_divisor_is_the_only_failure_witness :
  (exists msg,
     Operation.execute Examples.platform Operation.Modulus 10 (-0)
       = Raise (OperationError msg)) /\
  (exists r,
     Operation.execute Examples.platform Operation.IntegerDivide 7.5 2 = Return r).
Proof.
  split.
  - apply (proj1 (zero_divisor_is_the_only_failure Examples.platform
                    Operation.Modulus 10 (-0) ltac:(discriminate) ltac:(discriminate))).
    reflexivity.
  - apply (proj2 (zero_divisor_is_the_only_failure Examples.platform
                    Operation.IntegerDivide 7.5 2 ltac:(discriminate) ltac:(discriminate))).
    reflexivity.
Defined.

(** [PowerOperation.execute] catches [OverflowError] and [ValueError] only, so
    the [ZeroDivisionError] of Python's [**] leaves it unwrapped: that
    happens exactly when the base is a zero and the exponent is negative and
    finite. Every other failure is an [OperationError]. An exponent that
    compares equal to zero gives [1.0] for every base, NaN included. A
    negative finite base with a finite exponent that is not an integer goes
    to the complex power and always ends in an [OperationError]: the failed
    power operation when the modulus [pow(abs(a), b)] overflows, since the
    complex power then raises [OverflowError], and the invalid result
    otherwise, since the complex number is no float. *)
Theorem power_lets_zero_division_escape :
  forall (P : Platform.t) (a b : float),
    (PowerOperation.execute P a b = Raise ZeroDivisionError <->
     (a =? 0) = true /\ (b <? 0) = true /\ is_infinity b = false) /\
    (forall e, PowerOperation.execute P a b = Raise e ->
               is_OperationError e = true \/ e = ZeroDivisionError) /\
    ((b =? 0) = true -> PowerOperation.execute P a b = Return 1) /\
    ((a <? 0) = true -> is_infinity a = false ->
     is_nan b = false -> is_infinity b = false ->
     (b =? PyFloat.floor b) = false ->
     PowerOperation.execute P a b =
       Raise (OperationError
                (if is_infinity (Platform.libm_pow P (abs a) b)
                 then "Power operation failed"
                 else "Invalid result from power operation"))).
Proof.
  intros P a b. split; [|split; [intros e; apply power_raises|split]].
  - rewrite <- (pow_zero_division (Platform.libm_pow P)).
    unfold PowerOperation.execute.
    destruct (PyFloat.pow _ a b) as [[r|]|e0] eqn:Ep; cbn.
    + destruct (PyFloat.ne r r); split; discriminate.
    + split; discriminate.
    + destruct e0; cbn; split; intros H; try discriminate; try reflexivity;
        try (apply pow_raises in Ep; discriminate).
  - intros Hb. unfold PowerOperation.execute, PyFloat.pow. rewrite Hb. reflexivity.
  - intros Ha Hia Hnb Hib Hfl.
    destruct (negative_facts a Ha) as (Hna & Ha0 & _).
    unfold PowerOperation.execute, PyFloat.pow, PyFloat.ne.
    destruct (b =? 0) eqn:Hb0.
    { exfalso. destruct (eqb_zero_inv b Hb0) as [s E].
      rewrite eqb_spec in Hfl. unfold PyFloat.floor, PyFloat.decode in Hfl.
      rewrite E in Hfl. rewrite E in Hfl. destruct s; discriminate. }
    rewrite Hna, Hnb, Hib, Hia, Ha0, Ha, Hfl.
    destruct (is_infinity (Platform.libm_pow P (abs a) b)); reflexivity.
Qed.

Lemma power_lets_zero_division_escape_witness :
  PowerOperation.execute Examples.roots 0 (-1) = Raise ZeroDivisionError /\
  PowerOperation.execute Examples.roots (-8) 0.5 =
    Raise (OperationError "Invalid result from power operation") /\
  PowerOperation.execute Examples.overflowing (-1e10) 31.5 =
    Raise (OperationError "Power operation failed").
Proof.
  split; [|split].
  - apply (proj2 (proj1 (power_lets_zero_division_escape Examples.roots 0 (-1)))).
    repeat split.
  - apply (proj2 (proj2 (proj2 (power_lets_zero_division_escape
                                  Examples.roots (-8) 0.5))));
      reflexivity.
  - apply (proj2 (proj2 (proj2 (power_lets_zero_division_escape
                                  Examples.overflowing (-1e10) 31.5))));
      reflexivity.
Defined.

End OperationStatements.

(** ** The factory *)

(** [create_operation] returns for exactly the ten names that
    [get_available_operations] lists, and the operation it returns answers
    [get_name] with the name it was asked for. Any other name raises
    [OperationError] with a message that lists the ten names in registry
    order. [validate_operation] against that list accepts the same names,
    and the list has no duplicates. *)
Theorem create_operation_by_name :
  forall name : string,
    (In name OperationFactory.get_available_operations <->
     exists op, OperationFactory.create_operation name = Return op) /\
    (forall op, OperationFactory.create_operation name = Return op ->
                Operation.get_name op = name) /\
    (~ In name OperationFactory.get_available_operations ->
     OperationFactory.create_operation name =
       Raise (OperationError
                ("Unknown operation: " ++ name ++
                 ". Available operations: add, subtract, multiply, divide, power, root, modulus, int_divide, percent, abs_diff"))) /\
    (InputValidator.validate_operation name OperationFactory.get_available_operations
       = Return name <->
     exists op, OperationFactory.create_operation name = Return op) /\
    NoDup OperationFactory.get_available_operations.
Proof.
  intros name.
  assert (Hin : In name OperationFactory.get_available_operations <->
                exists op, OperationFactory.create_operation name = Return op).
  { split.
    - intros H. unfold OperationFactory.create_operation.
      destruct (OperationFactory.get _ _) as [v|] eqn:E; [eauto|].
      apply get_None in E. contradiction.
    - intros [op H]. apply (create_operation_returns name op H). }
  split; [exact Hin|]. split; [|split; [|split]].
  - intros op H. apply (create_operation_returns name op H).
  - intros H. unfold OperationFactory.create_operation.
    destruct (OperationFactory.get _ _) as [v|] eqn:E.
    + apply get_Some in E. apply (in_map fst) in E. contradiction.
    + reflexivity.
  - rewrite <- Hin. unfold InputValidator.validate_operation.
    destruct (existsb _ _) eqn:E.
    + apply existsb_exists in E. destruct E as (x & Hx & Heq).
      apply String.eqb_eq in Heq. subst x. tauto.
    + split; [discriminate|]. intros H. exfalso.
      assert (existsb (String.eqb name) OperationFactory.get_available_operations = true).
      { apply existsb_exists. exists name. split; [exact H|apply String.eqb_refl]. }
      congruence.
  - unfold OperationFactory.get_available_operations. cbn.
    repeat (constructor; [cbn; intros H; repeat (destruct H as [H|H]; [discriminate|]); exact H|]).
    constructor.
Qed.

Lemma create_operation_by_name_witness :
  OperationFactory.create_operation "sqrt" =
    Raise (OperationError
             ("Unknown operation: " ++ "sqrt" ++
              ". Available operations: add, subtract, multiply, divide, power, root, modulus, int_divide, percent, abs_diff")).
Proof.
  apply (proj1 (proj2 (proj2 (create_operation_by_name "sqrt")))).
  cbn. intros H. repeat (destruct H as [H|H]; [discriminate|]). exact H.
Defined.

(** ** Validation of inputs *)

Section ValidationStatements.

Local Open Scope float_scope.

(** [validate_number] returns [x] exactly when [float(value)] is [x], [x] is
    not NaN and, if a maximum is given, [abs(x) > max_value] is false. So
    with no maximum both infinities are accepted, and a NaN maximum rejects
    nothing. It turns the [ValueError] and the [TypeError] of the conversion
    into [ValidationError], but not its [OverflowError]: that one escapes,
    exactly when the value is an int too large for a float, whatever the
    maximum. Nothing else is raised. *)
Theorem validate_number_accepts :
  forall (value : PyValue) (max_value : option float),
    (forall x,
       InputValidator.validate_number value max_value = Return x <->
       py_float value = Return x /\ (x =? x) = true /\
       match max_value with
       | Some m => (m <? abs x) = false
       | None => True
       end) /\
    (forall e,
       InputValidator.validate_number value max_value = Raise e ->
       is_ValidationError e = true \/ e = OverflowError) /\
    (InputValidator.validate_number value max_value = Raise OverflowError <->
     exists n, value = PyInt n /\ int_to_float n = Raise OverflowError).
Proof.
  intros value max_value. split; [|split].
  - intros x. apply validate_number_spec.
  - intros e H. destruct (validate_number_raises _ _ _ H) as [He|[He _]]; auto.
  - split.
    + intros H. destruct (validate_number_raises _ _ _ H) as [He|[_ He]];
        [discriminate|].
      destruct (py_float_raises _ _ He) as [Hc|[_ [n ->]]]; [discriminate|].
      exists n. split; [reflexivity|exact He].
    + intros (n & -> & H). unfold InputValidator.validate_number. cbn.
      rewrite H. reflexivity.
Qed.

Lemma validate_number_accepts_witness :
  InputValidator.validate_number (PyNum 10000000000) (Some 1e10) = Return 10000000000 /\
  InputValidator.validate_number (PyInt (10 ^ 400)) (Some 1e10) = Raise OverflowError /\
  (is_ValidationError (ValidationError "Invalid number") = true \/
   ValidationError "Invalid number" = OverflowError).
Proof.
  split; [|split].
  - apply (proj1 (validate_number_accepts (PyNum 10000000000) (Some 1e10))).
    repeat split.
  - apply (proj2 (proj2 (validate_number_accepts (PyInt (10 ^ 400)) (Some 1e10)))).
    exists (10 ^ 400)%Z. split; [reflexivity|vm_compute; reflexivity].
  - apply (proj1 (proj2 (validate_number_accepts (PyNum nan) None))). reflexivity.
Defined.

(** [validate_positive_number] accepts exactly the values [validate_number]
    accepts without a maximum that are above zero, and [validate_non_zero]
    those that do not compare equal to zero; [-0.0] is rejected by both and
    positive infinity is accepted by both. Both raise [ValidationError], and
    besides it only the [OverflowError] that [validate_number] lets through
    for an int too large for a float. *)
Theorem validate_sign :
  forall (value : PyValue),
    (forall x,
       InputValidator.validate_positive_number value = Return x <->
       InputValidator.validate_number value None = Return x /\ (0 <? x) = true) /\
    (forall x,
       InputValidator.validate_non_zero value = Return x <->
       InputValidator.validate_number value None = Return x /\ (x =? 0) = false) /\
    (forall e,
       InputValidator.validate_positive_number value = Raise e \/
       InputValidator.validate_non_zero value = Raise e ->
       is_ValidationError e = true \/
       (e = OverflowError /\ py_float value = Raise OverflowError)) /\
    (py_float value = Raise OverflowError ->
     InputValidator.validate_positive_number value = Raise OverflowError /\
     InputValidator.validate_non_zero value = Raise OverflowError).
Proof.
  intros value.
  unfold InputValidator.validate_positive_number, InputValidator.validate_non_zero.
  destruct (InputValidator.validate_number value None) as [y|e0] eqn:E; cbn.
  - apply validate_number_spec in E. destruct E as (Hf & Hy & _).
    split; [|split; [|split]].
    + intros x. destruct (y <=? 0) eqn:Ey.
      * split; [discriminate|]. intros ([= <-] & H).
        apply above_zero_facts in H. destruct H as [_ H]. congruence.
      * split; [intros [= <-]|intros ([= <-] & _); reflexivity].
        split; [reflexivity|]. apply positive_facts; assumption.
    + intros x. destruct (y =? 0) eqn:Ey.
      * split; [discriminate|]. intros ([= <-] & H). congruence.
      * split; [intros [= <-]; auto|intros ([= <-] & _); reflexivity].
    + intros e [H|H].
      * destruct (y <=? 0); [injection H as <-; auto|discriminate].
      * destruct (y =? 0); [injection H as <-; auto|discriminate].
    + intros H. rewrite H in Hf. discriminate.
  - pose proof (validate_number_raises _ _ _ E) as He.
    split; [|split; [|split]].
    + intros x. split; [discriminate|]. intros [H _]. discriminate.
    + intros x. split; [discriminate|]. intros [H _]. discriminate.
    + intros e [[= <-]|[= <-]]; exact He.
    + intros H. unfold InputValidator.validate_number in E. rewrite H in E.
      cbn in E. injection E as <-. split; reflexivity.
Qed.

Lemma validate_sign_witness :
  InputValidator.validate_positive_number (PyNum infinity) = Return infinity /\
  (is_ValidationError (ValidationError "Value cannot be zero") = true \/
   (ValidationError "Value cannot be zero" = OverflowError /\
    py_float (PyNum (-0)) = Raise OverflowError)) /\
  InputValidator.validate_non_zero (PyInt (- 10 ^ 400)) = Raise OverflowError.
Proof.
  split; [|split].
  - apply (proj1 (validate_sign (PyNum infinity))). split; reflexivity.
  - apply (proj1 (proj2 (proj2 (validate_sign (PyNum (-0)))))). right. reflexivity.
  - apply (proj2 (proj2 (proj2 (validate_sign (PyInt (- 10 ^ 400)))))).
    vm_compute. reflexivity.
Defined.

End ValidationStatements.

(** ** Records and their dictionaries *)

(** [from_dict] reads the dictionary of [to_dict] back. Take a record made
    by the constructor and, after any number of further allocations, hand
    its dictionary to [from_dict]: the call returns a new object with the
    same operation, operands, result and timestamp, bit for bit (the
    timestamp of the original, not the time of the call), and since the
    class compares by identity, [==] between the original and the copy is
    false. *)
Theorem from_dict_to_dict :
  forall (w0 : World.t) (now0 : Z) (operation : string) (x y r : float)
         (k : nat) (now : Z),
    let c := Calculation.__init__ (fst (World.alloc w0)) now0 operation x y r in
    let w := after_allocations k (snd (World.alloc w0)) in
    exists c',
      Calculation.from_dict (fst (World.alloc w)) now (Calculation.to_dict c)
        = Return c' /\
      Calculation.same_fields c c' /\
      Calculation.timestamp c' = now0 /\
      Calculation.eq c c' = false /\
      Calculation.eq c' c = false.
Proof.
  intros w0 now0 operation x y r k now c w. eexists. split; [reflexivity|].
  split; [repeat split|]. split; [reflexivity|].
  unfold Calculation.eq, w. cbn. rewrite next_oid_after_allocations. cbn.
  split; apply Nat.eqb_neq; lia.
Qed.

(** [from_dict] on a dictionary without the key [operation] raises [KeyError]
    for that key, whatever the other cells hold. A dictionary without a
    timestamp gives a record stamped with the time of the call. The only
    exceptions that leave [from_dict] are [ValueError], [TypeError],
    [OverflowError] and a [KeyError] for one of the four keys [operation],
    [operand1], [operand2] and [result]; [OverflowError] only when an
    operand or the result is an int too large for a float, and a timestamp
    that is no string gives [TypeError] once the numbers have been read. *)
Theorem from_dict_failures :
  forall (oid : nat) (now : Z) (row : Calculation.Row),
    (Calculation.row_operation row = None ->
     Calculation.from_dict oid now row = Raise (KeyError "operation")) /\
    (Calculation.row_timestamp row = None ->
     forall c, Calculation.from_dict oid now row = Return c ->
               Calculation.timestamp c = now) /\
    (forall e, Calculation.from_dict oid now row = Raise e ->
               e = ValueError \/ e = TypeError \/ e = OverflowError \/
               exists key,
                 e = KeyError key /\
                 In key ["operation"; "operand1"; "operand2"; "result"]%string) /\
    (Calculation.from_dict oid now row = Raise OverflowError ->
     exists n,
       In (Some (PyInt n))
          [Calculation.row_operand1 row; Calculation.row_operand2 row;
           Calculation.row_result row] /\
       int_to_float n = Raise OverflowError) /\
    (Calculation.row_timestamp row = Some Calculation.NotStr ->
     forall c, Calculation.from_dict oid now row <> Return c).
Proof.
  intros oid now [op v1 v2 v3 ts]. cbn. split; [|split; [|split; [|split]]].
  - intros ->. reflexivity.
  - intros -> c. unfold Calculation.from_dict. cbn.
    destruct op; cbn; [|discriminate].
    destruct v1 as [v1|]; cbn; [|discriminate].
    destruct (py_float v1); cbn; [|discriminate].
    destruct v2 as [v2|]; cbn; [|discriminate].
    destruct (py_float v2); cbn; [|discriminate].
    destruct v3 as [v3|]; cbn; [|discriminate].
    destruct (py_float v3); cbn; [|discriminate].
    intros [= <-]. reflexivity.
  - intros e. unfold Calculation.from_dict. cbn.
    destruct op; cbn; [|intros [= <-]; eauto 8].
    destruct v1 as [v1|]; cbn;
      [|intros [= <-]; do 3 right; eexists; split; [reflexivity|cbn; tauto]].
    destruct (py_float v1) as [x1|e1] eqn:E1; cbn;
      [|intros [= <-]; destruct (py_float_errors _ _ E1) as [H|[H|[H _]]]; auto].
    destruct v2 as [v2|]; cbn;
      [|intros [= <-]; do 3 right; eexists; split; [reflexivity|cbn; tauto]].
    destruct (py_float v2) as [x2|e2] eqn:E2; cbn;
      [|intros [= <-]; destruct (py_float_errors _ _ E2) as [H|[H|[H _]]]; auto].
    destruct v3 as [v3|]; cbn;
      [|intros [= <-]; do 3 right; eexists; split; [reflexivity|cbn; tauto]].
    destruct (py_float v3) as [x3|e3] eqn:E3; cbn;
      [|intros [= <-]; destruct (py_float_errors _ _ E3) as [H|[H|[H _]]]; auto].
    destruct ts as [[| |]|]; cbn; try discriminate; intros [= <-]; auto.
  - unfold Calculation.from_dict. cbn.
    destruct op; cbn; [|discriminate].
    destruct v1 as [v1|]; cbn; [|discriminate].
    destruct (py_float v1) as [x1|e1] eqn:E1; cbn.
    2:{ intros [= ->].
        destruct (py_float_errors _ _ E1) as [H|[H|[_ (n & -> & H)]]];
          try discriminate. exists n. cbn. auto. }
    destruct v2 as [v2|]; cbn; [|discriminate].
    destruct (py_float v2) as [x2|e2] eqn:E2; cbn.
    2:{ intros [= ->].
        destruct (py_float_errors _ _ E2) as [H|[H|[_ (n & -> & H)]]];
          try discriminate. exists n. cbn. auto. }
    destruct v3 as [v3|]; cbn; [|discriminate].
    destruct (py_float v3) as [x3|e3] eqn:E3; cbn.
    2:{ intros [= ->].
        destruct (py_float_errors _ _ E3) as [H|[H|[_ (n & -> & H)]]];
          try discriminate. exists n. cbn. auto. }
    destruct ts as [[| |]|]; cbn; discriminate.
  - intros -> c. unfold Calculation.from_dict. cbn.
    destruct op; cbn; [|discriminate].
    destruct v1 as [v1|]; cbn; [|discriminate].
    destruct (py_float v1); cbn; [|discriminate].
    destruct v2 as [v2|]; cbn; [|discriminate].
    destruct (py_float v2); cbn; [|discriminate].
    destruct v3 as [v3|]; cbn; [|discriminate].
    destruct (py_float v3); cbn; discriminate.
Qed.

Lemma from_dict_failures_witness :
  Calculation.from_dict 0 9
    {| Calculation.row_operation := None;
       Calculation.row_operand1 := Some (PyNum 1);
       Calculation.row_operand2 := Some (PyNum 2);
       Calculation.row_result := Some (PyNum 3);
       Calculation.row_timestamp := None |} = Raise (KeyError "operation") /\
  exists n,
    In (Some (PyInt n)) [Some (PyInt (10 ^ 400)); Some (PyNum 2); Some (PyNum 3)] /\
    int_to_float n = Raise OverflowError.
Proof.
  split.
  - apply (proj1 (from_dict_failures 0 9 _)). reflexivity.
  - apply (proj1 (proj2 (proj2 (proj2 (from_dict_failures 0 9
             {| Calculation.row_operation := Some "add"%string;
                Calculation.row_operand1 := Some (PyInt (10 ^ 400));
                Calculation.row_operand2 := Some (PyNum 2);
                Calculation.row_result := Some (PyNum 3);
                Calculation.row_timestamp := None |}))))).
    vm_compute. reflexivity.
Defined.

(** ** The newest entry of the history *)

(** On an empty history [get_last_calculation] and [remove_last_calculation]
    raise [HistoryError] and change nothing. With a capacity of at least
    zero, [get_last_calculation] right after [add_calculation] returns the
    record just added. With a capacity of at least one,
    [remove_last_calculation] right after [add_calculation] returns and
    leaves the [max_size - 1] most recent of the earlier entries; when the
    history was not full, that is the history as it was before the
    addition, and when it was full, the oldest entry is gone for good. *)
Theorem newest_entry :
  forall (self : CalculationHistory.t),
    (CalculationHistory.get_history self = [] ->
     CalculationHistory.get_last_calculation self = Raise (HistoryError "History is empty") /\
     CalculationHistory.remove_last_calculation self =
       (Raise (HistoryError "History is empty"), self)) /\
    (forall c,
       0 <= CalculationHistory._max_size self ->
       CalculationHistory.get_last_calculation
         (CalculationHistory.add_calculation self c) = Return c) /\
    (forall c,
       1 <= CalculationHistory._max_size self ->
       CalculationHistory.remove_last_calculation
         (CalculationHistory.add_calculation self c) =
       (Return tt,
        CalculationHistory.set_list self
          (most_recent (Z.to_nat (CalculationHistory._max_size self) - 1)
             (CalculationHistory._history self)))) /\
    (forall c,
       Z.of_nat (List.length (CalculationHistory.get_history self))
         < CalculationHistory._max_size self ->
       CalculationHistory.remove_last_calculation
         (CalculationHistory.add_calculation self c) = (Return tt, self)).
Proof.
  intros [h k]. cbn. split; [|split; [|split]].
  - intros ->. split; reflexivity.
  - intros c Hk. apply (get_last_after_add {| CalculationHistory._history := h;
                                               CalculationHistory._max_size := k |}).
    exact Hk.
  - intros c Hk. unfold CalculationHistory.remove_last_calculation,
      CalculationHistory.add_calculation, PyList.append. cbn.
    destruct (trim_snoc k h c ltac:(lia)) as (h' & -> & _ & Hh').
    change (h' ++ [c]) with (PyList.append h' c). rewrite pop_append.
    rewrite (Hh' Hk). reflexivity.
  - intros c Hk. unfold CalculationHistory.remove_last_calculation,
      CalculationHistory.add_calculation, PyList.append. cbn.
    destruct (trim_snoc k h c ltac:(lia)) as (h' & -> & _ & Hh').
    change (h' ++ [c]) with (PyList.append h' c). rewrite pop_append.
    rewrite (Hh' ltac:(lia)). unfold CalculationHistory.set_list, most_recent. cbn.
    replace (List.length h - (Z.to_nat k - 1))%nat with 0%nat by lia. reflexivity.
Qed.

Lemma newest_entry_witness :
  CalculationHistory.remove_last_calculation
    (CalculationHistory.add_calculation
       (add_all (CalculationHistory.__init__ 2) [Examples.c1; Examples.c2])
       Examples.c3) =
  (Return tt,
   CalculationHistory.set_list
     (add_all (CalculationHistory.__init__ 2) [Examples.c1; Examples.c2])
     (most_recent
        (Z.to_nat
           (CalculationHistory._max_size
              (add_all (CalculationHistory.__init__ 2) [Examples.c1; Examples.c2])) - 1)
        (CalculationHistory._history
           (add_all (CalculationHistory.__init__ 2) [Examples.c1; Examples.c2])))).
Proof.
  apply (proj1 (proj2 (proj2 (newest_entry
           (add_all (CalculationHistory.__init__ 2) [Examples.c1; Examples.c2]))))).
  cbn. lia.
Defined.

(** [CalculationHistory] itself does not check its capacity. With [max_size = 0]
    the slice [self._history[-0:]] is the whole list, so the store keeps
    every calculation ever added; with a negative [max_size] the slice drops
    every new entry, so the store stays empty. *)
Theorem capacity_below_one :
  forall (k : Z) (inputs : list Calculation.t),
    (k = 0 ->
     CalculationHistory.get_history (add_all (CalculationHistory.__init__ k) inputs)
       = inputs) /\
    (k < 0 ->
     CalculationHistory.get_history (add_all (CalculationHistory.__init__ k) inputs)
       = []).
Proof.
  intros k inputs. split.
  - intros ->. induction inputs as [|x l IH] using rev_ind; [reflexivity|].
    unfold add_all in *. rewrite fold_left_app. cbn [fold_left].
    unfold CalculationHistory.add_calculation at 1. cbn.
    fold (add_all (CalculationHistory.__init__ 0) l). rewrite max_size_add_all. cbn.
    unfold CalculationHistory.get_history in IH. unfold add_all. rewrite IH.
    unfold PyList.append.
    destruct (trim_snoc 0 l x ltac:(lia)) as (h' & -> & -> & _); reflexivity.
  - intros Hk. induction inputs as [|x l IH] using rev_ind; [reflexivity|].
    unfold add_all in *. rewrite fold_left_app. cbn [fold_left].
    unfold CalculationHistory.add_calculation at 1. cbn.
    fold (add_all (CalculationHistory.__init__ k) l). rewrite max_size_add_all. cbn.
    unfold CalculationHistory.get_history in IH. unfold add_all. rewrite IH.
    unfold CalculationHistory.trim, PyList.append, PyList.slice_from. cbn.
    replace (k <? 1) with true by (symmetry; apply Z.ltb_lt; lia).
    replace (- k <? 0) with false by (symmetry; apply Z.ltb_ge; lia).
    replace (Z.to_nat (Z.min (- k) 1)) with 1%nat by lia. reflexivity.
Qed.

Lemma capacity_below_one_witness :
  CalculationHistory.get_history
    (add_all (CalculationHistory.__init__ 0) [Examples.c1; Examples.c2; Examples.c3])
  = [Examples.c1; Examples.c2; Examples.c3].
Proof.
  apply (proj1 (capacity_below_one 0 [Examples.c1; Examples.c2; Examples.c3])).
  reflexivity.
Defined.

(** ** The two stacks of the caretaker *)

(** On the caretaker, [redo] undoes [undo] and [undo] undoes [redo]. When
    [undo] returns, the memento it returns holds the history of the new top
    of the undo stack (or the empty history when nothing is left), and a
    [redo] right after it puts both stacks back as they were and returns the
    snapshot that had been popped. The same holds with the two swapped. *)
Theorem caretaker_undo_redo_inverse :
  forall (self self' : CalculatorCaretaker.t) (memento : CalculatorMemento.t),
    (CalculatorCaretaker.undo self = (Return memento, self') ->
     CalculatorMemento.get_history memento =
       top_history (CalculatorCaretaker._undo_stack self') /\
     exists popped,
       CalculatorCaretaker.redo self' = (Return popped, self) /\
       CalculatorMemento.get_history popped =
         top_history (CalculatorCaretaker._undo_stack self)) /\
    (CalculatorCaretaker.redo self = (Return memento, self') ->
     CalculatorMemento.get_history memento =
       top_history (CalculatorCaretaker._undo_stack self') /\
     exists previous,
       CalculatorCaretaker.undo self' = (Return previous, self) /\
       CalculatorMemento.get_history previous =
         top_history (CalculatorCaretaker._undo_stack self)).
Proof.
  intros [U R] self' memento. split.
  - unfold CalculatorCaretaker.undo. cbn [CalculatorCaretaker._undo_stack
      CalculatorCaretaker._redo_stack].
    destruct (PyList.pop U) as [[m rest]|] eqn:E; [|discriminate].
    apply pop_Some in E. subst U.
    intros H.
    assert (Hs : self' = {| CalculatorCaretaker._undo_stack := rest;
                            CalculatorCaretaker._redo_stack := PyList.append R m |}).
    { destruct (PyList.pop rest) as [[top ?]|]; injection H as _ <-; reflexivity. }
    assert (Hm : CalculatorMemento.get_history memento = top_history rest).
    { unfold top_history.
      destruct (PyList.pop rest) as [[top ?]|]; injection H as <- _; reflexivity. }
    subst self'. cbn [CalculatorCaretaker._undo_stack]. split; [exact Hm|].
    exists m. unfold CalculatorCaretaker.redo.
    cbn [CalculatorCaretaker._undo_stack CalculatorCaretaker._redo_stack].
    rewrite pop_append. split; [reflexivity|].
    rewrite top_history_append. reflexivity.
  - unfold CalculatorCaretaker.redo. cbn [CalculatorCaretaker._undo_stack
      CalculatorCaretaker._redo_stack].
    destruct (PyList.pop R) as [[m rest]|] eqn:E; [|discriminate].
    apply pop_Some in E. subst R. intros [= <- <-].
    cbn [CalculatorCaretaker._undo_stack]. unfold PyList.append at 1.
    rewrite top_history_append. split; [reflexivity|].
    unfold CalculatorCaretaker.undo.
    cbn [CalculatorCaretaker._undo_stack CalculatorCaretaker._redo_stack].
    rewrite pop_append. unfold top_history.
    destruct (PyList.pop U) as [[top ?]|]; eexists; split; reflexivity.
Qed.

Lemma caretaker_undo_redo_inverse_witness :
  exists memento self',
    CalculatorCaretaker.undo (Calculator.caretaker (fst Examples.added))
      = (Return memento, self') /\
    (CalculatorMemento.get_history memento =
       top_history (CalculatorCaretaker._undo_stack self') /\
     exists popped,
       CalculatorCaretaker.redo self'
         = (Return popped, Calculator.caretaker (fst Examples.added)) /\
       CalculatorMemento.get_history popped =
         top_history
           (CalculatorCaretaker._undo_stack (Calculator.caretaker (fst Examples.added)))).
Proof.
  do 2 eexists. split; [vm_compute; reflexivity|].
  apply (proj1 (caretaker_undo_redo_inverse
                  (Calculator.caretaker (fst Examples.added)) _ _)).
  vm_compute. reflexivity.
Defined.

(** ** Undo and redo on the calculator *)

(** On a calculator built from a valid configuration and driven by any calls
    of [perform_calculation], [undo], [redo], [clear_history],
    [save_history] and [register_observer], whatever they return or raise:
    when [undo] returns, a [redo] right after it returns and gives back the
    calculator exactly as it was, history and both stacks; and when [redo]
    returns, an [undo] right after it does the same. *)
Theorem undo_redo_round_trip :
  forall (P : Platform.t) (cfg : CalculatorConfig.t) (w0 : World.t)
         (cmds : list Calculator.Command),
    CalculatorConfig._validate_config cfg = Return tt ->
    Forall keeps_snapshots cmds ->
    let s := Calculator.run P cmds (Calculator.__init__ cfg w0) in
    (forall c1 w1,
       Calculator.undo (fst s) (snd s) = (Return tt, c1, w1) ->
       Calculator.redo c1 w1 = (Return tt, fst s, after_redo w1)) /\
    (forall c1 w1,
       Calculator.redo (fst s) (snd s) = (Return tt, c1, w1) ->
       Calculator.undo c1 w1 = (Return tt, fst s, after_undo w1)).
Proof.
  intros P cfg w0 cmds Hv Hc s.
  assert (Hk : 1 <= CalculatorConfig.max_history_size cfg).
  { unfold CalculatorConfig._validate_config in Hv.
    destruct (CalculatorConfig.max_history_size cfg <? 1) eqn:E; [discriminate|].
    apply Z.ltb_ge in E. exact E. }
  assert (Hs : consistent (fst s)).
  { apply consistent_run; [assumption|]. apply consistent_init. assumption. }
  split; intros c1 w1 H.
  - apply (undo_then_redo _ _ _ _ Hs H).
  - apply (redo_then_undo _ _ _ _ Hs H).
Qed.

Lemma undo_redo_round_trip_witness :
  CalculatorConfig._validate_config CalculatorConfig.DEFAULTS = Return tt /\
  exists c1 w1,
    Calculator.undo (fst Examples.added) (snd Examples.added) = (Return tt, c1, w1) /\
    Calculator.redo c1 w1 = (Return tt, fst Examples.added, after_redo w1).
Proof.
  split; [reflexivity|].
  do 2 eexists. split; [vm_compute; reflexivity|].
  apply (proj1 (undo_redo_round_trip Examples.platform CalculatorConfig.DEFAULTS
                  Examples.boot
                  [Calculator.Perform "add" (PyNum 5) (PyNum 3) 10]
                  eq_refl ltac:(repeat constructor))).
  vm_compute. reflexivity.
Defined.

(** On a calculator built from a valid configuration, after any calls of the
    engine, whatever they return or raise, as long as no [load_history]
    meets a row that [from_dict] rejects: the history holds at most
    [max_history_size] entries, and so does every snapshot on the undo and
    redo stacks. *)
Theorem history_never_exceeds_capacity :
  forall (P : Platform.t) (cfg : CalculatorConfig.t) (w0 : World.t)
         (cmds : list Calculator.Command),
    CalculatorConfig._validate_config cfg = Return tt ->
    Forall loads_cleanly cmds ->
    let self := fst (Calculator.run P cmds (Calculator.__init__ cfg w0)) in
    CalculationHistory.__len__ (Calculator.history self)
      <= CalculatorConfig.max_history_size cfg /\
    Forall (fits (CalculatorConfig.max_history_size cfg))
      (CalculatorCaretaker._undo_stack (Calculator.caretaker self) ++
       CalculatorCaretaker._redo_stack (Calculator.caretaker self)).
Proof.
  intros P cfg w0 cmds Hv Hc self.
  assert (Hk : 1 <= CalculatorConfig.max_history_size cfg).
  { unfold CalculatorConfig._validate_config in Hv.
    destruct (CalculatorConfig.max_history_size cfg <? 1) eqn:E; [discriminate|].
    apply Z.ltb_ge in E. exact E. }
  assert (H : within_capacity cfg self).
  { apply within_capacity_run; [assumption|].
    unfold Calculator.__init__. cbn [fst].
    destruct (CalculatorConfig.auto_save cfg); constructor; unfold capacity; cbn;
      try assumption; try reflexivity; try lia;
      repeat constructor; unfold fits; cbn; lia. }
  destruct H as [Hcfg _ Hh Hu Hr]. rewrite <- Hcfg.
  split; [exact Hh|]. apply Forall_app. split; assumption.
Qed.

Lemma history_never_exceeds_capacity_witness :
  let cmds :=
    [Calculator.Perform "add" (PyNum 5) (PyNum 3) 10;
     Calculator.Load None
       (CalculationHistory.Frame [Examples.good_row; Examples.good_row]) 11;
     Calculator.Undo] in
  let self :=
    fst (Calculator.run Examples.platform cmds
           (Calculator.__init__ CalculatorConfig.DEFAULTS Examples.boot)) in
  CalculatorConfig._validate_config CalculatorConfig.DEFAULTS = Return tt /\
  CalculationHistory.__len__ (Calculator.history self)
    <= CalculatorConfig.max_history_size CalculatorConfig.DEFAULTS.
Proof.
  cbv zeta. split; [reflexivity|].
  apply (history_never_exceeds_capacity Examples.platform CalculatorConfig.DEFAULTS
           Examples.boot).
  - reflexivity.
  - repeat constructor; eexists; reflexivity.
Defined.

(** [clear_history] empties the history and both stacks without saving a
    snapshot. Right after it [undo] and [redo] raise [HistoryError], and no
    sequence of [undo] and [redo] calls changes anything: the cleared
    entries cannot be brought back. *)
Theorem clear_cannot_be_undone :
  forall (P : Platform.t) (self : Calculator.t) (w : World.t)
         (cmds : list Calculator.Command),
    Forall is_undo_or_redo cmds ->
    let cleared := Calculator.clear_history self w in
    CalculationHistory.get_history (Calculator.history (fst cleared)) = [] /\
    Calculator.undo (fst cleared) (snd cleared)
      = (Raise (HistoryError "Nothing to undo"), fst cleared, snd cleared) /\
    Calculator.redo (fst cleared) (snd cleared)
      = (Raise (HistoryError "Nothing to redo"), fst cleared, snd cleared) /\
    Calculator.run P cmds cleared = cleared.
Proof.
  intros P self w cmds H cleared. subst cleared.
  repeat split. apply undo_redo_after_clear. exact H.
Qed.

Lemma clear_cannot_be_undone_witness :
  Calculator.run Examples.platform
    [Calculator.Undo; Calculator.Redo; Calculator.Undo]
    (Calculator.clear_history (fst Examples.added) (snd Examples.added))
  = Calculator.clear_history (fst Examples.added) (snd Examples.added).
Proof.
  apply (clear_cannot_be_undone Examples.platform (fst Examples.added) (snd Examples.added)
           [Calculator.Undo; Calculator.Redo; Calculator.Undo]).
  repeat constructor.
Defined.

(** ** What a calculation leaves behind *)

Section PerformStatements.

Local Open Scope float_scope.

(** When [perform_calculation] returns [r]: both operands converted to floats
    that are not NaN and not above [max_input_value] in absolute value, the
    name is a registered operation, [r] is its result rounded to the
    configured precision, the history is the old one with one new record
    added by [add_calculation] (the name as given, the validated operands,
    the rounded result, the time of the call), that record is what
    [get_last_calculation] now returns, the undo stack has grown by one
    snapshot of the new history, and one object has been allocated. *)
Theorem perform_records_the_call :
  forall (P : Platform.t) (self : Calculator.t) (operation : string)
         (a b : PyValue) (now : Z) (w : World.t)
         (r : float) (self' : Calculator.t) (w' : World.t),
    Calculator.perform_calculation P self operation a b now w = (Return r, self', w') ->
    exists x y op raw,
      py_float a = Return x /\ py_float b = Return y /\
      (x =? x) = true /\ (y =? y) = true /\
      (CalculatorConfig.max_input_value (Calculator.config self) <? abs x) = false /\
      (CalculatorConfig.max_input_value (Calculator.config self) <? abs y) = false /\
      OperationFactory.create_operation operation = Return op /\
      Operation.execute P op x y = Return raw /\
      r = Platform.round P raw (CalculatorConfig.precision (Calculator.config self)) /\
      let calculation :=
        {| Calculation.oid := World.next_oid w; Calculation.operation := operation;
           Calculation.operand1 := x; Calculation.operand2 := y;
           Calculation.result := r; Calculation.timestamp := now |} in
      Calculator.history self' =
        CalculationHistory.add_calculation (Calculator.history self) calculation /\
      (0 <= capacity self ->
       CalculationHistory.get_last_calculation (Calculator.history self')
         = Return calculation) /\
      CalculatorCaretaker._undo_stack (Calculator.caretaker self') =
        CalculatorCaretaker._undo_stack (Calculator.caretaker self) ++
        [CalculatorMemento.__init__
           (CalculationHistory.get_history (Calculator.history self'))] /\
      World.next_oid w' = S (World.next_oid w).
Proof.
  intros P self operation a b now w r self' w' H.
  apply perform_returns in H. destruct H as (x & y & Hc & -> & Hn).
  unfold Calculator.compute in Hc.
  destruct (InputValidator.validate_number a _) as [x'|] eqn:Ea; [|discriminate].
  destruct (InputValidator.validate_number b _) as [y'|] eqn:Eb; [|discriminate].
  cbn in Hc.
  destruct (OperationFactory.create_operation operation) as [op|] eqn:Eo; [|discriminate].
  cbn in Hc.
  destruct (Operation.execute P op x' y') as [raw|] eqn:Ee; [|discriminate].
  cbn in Hc. injection Hc as -> -> <-.
  apply validate_number_spec in Ea, Eb.
  destruct Ea as (Ha1 & Ha2 & Ha3). destruct Eb as (Hb1 & Hb2 & Hb3).
  exists x, y, op, raw.
  split; [exact Ha1|]. split; [exact Hb1|]. split; [exact Ha2|].
  split; [exact Hb2|]. split; [exact Ha3|]. split; [exact Hb3|].
  split; [reflexivity|]. split; [exact Ee|]. split; [reflexivity|].
  cbn zeta. split; [reflexivity|]. split; [|split].
  - intros Hk. unfold performed. cbn [Calculator.history].
    apply get_last_after_add. exact Hk.
  - reflexivity.
  - cbn in Hn. unfold Calculator.notify_observers in Hn.
    assert (Hw : forall obs h c w0 w1,
               Calculator.notify obs h c w0 = (Return tt, w1) ->
               World.next_oid w1 = World.next_oid w0).
    { clear. induction obs as [|o obs IH]; intros h c w0 w1; cbn.
      - intros [= <-]. reflexivity.
      - destruct o as [|fp enc|name handler]; cbn.
        + intros H. apply IH in H. exact H.
        + unfold CalculationHistory.save_to_csv.
          destruct (World.writable w0 fp); cbn; intros H; apply IH in H; exact H.
        + destruct (handler c) as [[]|e]; [|discriminate].
          intros H. apply IH in H. exact H. }
    apply Hw in Hn. exact Hn.
Qed.

Lemma perform_records_the_call_witness :
  exists r self' w',
    Calculator.perform_calculation Examples.platform (fst Examples.fresh) "add"
      (PyNum 5) (PyNum 3) 10 (snd Examples.fresh) = (Return r, self', w') /\
    exists x y op raw,
      py_float (PyNum 5) = Return x /\ py_float (PyNum 3) = Return y /\
      (x =? x)%float = true /\ (y =? y)%float = true /\
      (CalculatorConfig.max_input_value (Calculator.config (fst Examples.fresh))
         <? abs x)%float = false /\
      (CalculatorConfig.max_input_value (Calculator.config (fst Examples.fresh))
         <? abs y)%float = false /\
      OperationFactory.create_operation "add" = Return op /\
      Operation.execute Examples.platform op x y = Return raw /\
      r = Platform.round Examples.platform raw
            (CalculatorConfig.precision (Calculator.config (fst Examples.fresh))) /\
      let calculation :=
        {| Calculation.oid := World.next_oid (snd Examples.fresh);
           Calculation.operation := "add";
           Calculation.operand1 := x; Calculation.operand2 := y;
           Calculation.result := r; Calculation.timestamp := 10 |} in
      Calculator.history self' =
        CalculationHistory.add_calculation
          (Calculator.history (fst Examples.fresh)) calculation /\
      (0 <= capacity (fst Examples.fresh) ->
       CalculationHistory.get_last_calculation (Calculator.history self')
         = Return calculation) /\
      CalculatorCaretaker._undo_stack (Calculator.caretaker self') =
        CalculatorCaretaker._undo_stack (Calculator.caretaker (fst Examples.fresh)) ++
        [CalculatorMemento.__init__
           (CalculationHistory.get_history (Calculator.history self'))] /\
      World.next_oid w' = S (World.next_oid (snd Examples.fresh)).
Proof.
  do 3 eexists. split; [vm_compute; reflexivity|].
  apply (perform_records_the_call Examples.platform (fst Examples.fresh) "add"
           (PyNum 5) (PyNum 3) 10 (snd Examples.fresh)).
  vm_compute. reflexivity.
Defined.

End PerformStatements.

(** On a calculator that holds only the observers of its constructor (no
    [register_observer] call so far), whatever other calls came before:
    when [perform_calculation] raises, the calculator and the world around
    it are exactly as before the call, nothing logged and nothing written,
    and the exception is a [ValidationError], an [OperationError], for
    [power] only the [ZeroDivisionError] that [PowerOperation] lets
    through, or the [OverflowError] that [validate_number] lets through
    when an operand is an int too large for a float. *)
Theorem perform_fails_without_trace :
  forall (P : Platform.t) (cfg : CalculatorConfig.t) (w0 : World.t)
         (cmds : list Calculator.Command)
         (operation : string) (a b : PyValue) (now : Z)
         (e : exn) (self' : Calculator.t) (w' : World.t),
    Forall keeps_observers cmds ->
    let s := Calculator.run P cmds (Calculator.__init__ cfg w0) in
    Calculator.perform_calculation P (fst s) operation a b now (snd s)
      = (Raise e, self', w') ->
    self' = fst s /\ w' = snd s /\
    (is_ValidationError e = true \/ is_OperationError e = true \/
     (operation = "power"%string /\ e = ZeroDivisionError) \/
     (e = OverflowError /\
      (py_float a = Raise OverflowError \/ py_float b = Raise OverflowError))).
Proof.
  intros P cfg w0 cmds operation a b now e self' w' Hc s H.
  assert (Hb : Forall builtin (Calculator.observers (fst s))).
  { unfold s. rewrite observers_run by assumption. rewrite observers_init.
    destruct (CalculatorConfig.auto_save cfg); repeat constructor. }
  unfold Calculator.perform_calculation in H.
  destruct (Calculator.compute P (Calculator.config (fst s)) operation a b)
    as [[[x y] r]|e0] eqn:E.
  - exfalso. cbn [World.alloc] in H.
    match type of H with
    | context [Calculator.notify_observers ?c ?k ?w1] =>
        pose proof (notify_builtin (Calculator.observers c) (Calculator.history c) k w1 Hb) as Hn;
        unfold Calculator.notify_observers in H;
        destruct (Calculator.notify (Calculator.observers c) (Calculator.history c) k w1)
          as [[[]|e1] w2]
    end; cbn in Hn; discriminate.
  - injection H as -> <- <-. split; [reflexivity|]. split; [reflexivity|].
    apply (compute_raises _ _ _ _ _ _ E).
Qed.

Lemma perform_fails_without_trace_witness :
  exists e self' w',
    Calculator.perform_calculation Examples.platform (fst Examples.added) "power"
      (PyNum 0) (PyNum (-1)) 11 (snd Examples.added) = (Raise e, self', w') /\
    (self' = fst Examples.added /\ w' = snd Examples.added /\
     (is_ValidationError e = true \/ is_OperationError e = true \/
      ("power"%string = "power"%string /\ e = ZeroDivisionError) \/
      (e = OverflowError /\
       (py_float (PyNum 0) = Raise OverflowError \/
        py_float (PyNum (-1)) = Raise OverflowError)))).
Proof.
  do 3 eexists. split; [vm_compute; reflexivity|].
  apply (perform_fails_without_trace Examples.platform CalculatorConfig.DEFAULTS
           Examples.boot [Calculator.Perform "add" (PyNum 5) (PyNum 3) 10]
           "power" (PyNum 0) (PyNum (-1)) 11).
  - repeat constructor.
  - vm_compute. reflexivity.
Defined.

(** On a calculator that holds only the observers of its constructor: a
    [perform_calculation] that returns logs the new calculation at level
    INFO and then, when [auto_save] is on, writes the whole new history to
    the history file in the configured encoding; when that file cannot be
    written, a message is printed instead and the call still returns. With
    [auto_save] off nothing but the log line is emitted. The history file is
    [os.path.join(history_dir, 'calculator_history.csv')]: the file name
    alone when the directory is the empty string. *)
Theorem auto_save_follows_each_calculation :
  forall (P : Platform.t) (cfg : CalculatorConfig.t) (w0 : World.t)
         (cmds : list Calculator.Command)
         (operation : string) (a b : PyValue) (now : Z)
         (r : float) (self' : Calculator.t) (w' : World.t),
    Forall keeps_observers cmds ->
    let s := Calculator.run P cmds (Calculator.__init__ cfg w0) in
    Calculator.perform_calculation P (fst s) operation a b now (snd s)
      = (Return r, self', w') ->
    exists calculation,
      Calculator.history self' =
        CalculationHistory.add_calculation (Calculator.history (fst s)) calculation /\
      Calculation.result calculation = r /\
      World.events w' =
        World.events (snd s) ++
        World.Logged "INFO" (World.CalculationPerformed calculation) ::
        (if CalculatorConfig.auto_save cfg
         then [if World.writable (snd s) (Calculator.history_file cfg)
               then World.CsvWritten (Calculator.history_file cfg)
                      (CalculatorConfig.default_encoding cfg)
                      (CalculationHistory.get_history (Calculator.history self'))
               else World.Printed "Failed to auto-save history"]
         else []).
Proof.
  intros P cfg w0 cmds operation a b now r self' w' Hc s H.
  assert (Ho : Calculator.observers (fst s) =
               CalculatorObserver.LoggingObserver ::
               (if CalculatorConfig.auto_save cfg
                then [CalculatorObserver.AutoSaveObserver (Calculator.history_file cfg)
                        (CalculatorConfig.default_encoding cfg)]
                else [])).
  { unfold s. rewrite observers_run by assumption. apply observers_init. }
  apply perform_returns in H. destruct H as (x & y & _ & -> & Hn).
  eexists. split; [reflexivity|]. split; [reflexivity|].
  cbn zeta in Hn. unfold Calculator.notify_observers in Hn.
  cbn [performed Calculator.observers Calculator.history] in Hn.
  rewrite Ho in Hn. cbn [Calculator.notify CalculatorObserver.on_calculation_performed] in Hn.
  destruct (CalculatorConfig.auto_save cfg).
  - cbn [Calculator.notify CalculatorObserver.on_calculation_performed] in Hn.
    unfold CalculationHistory.save_to_csv in Hn.
    cbn -[Calculator.history_file] in Hn.
    destruct (World.writable (snd s) (Calculator.history_file cfg));
      injection Hn as <-; cbn; rewrite <- app_assoc; reflexivity.
  - cbn in Hn. injection Hn as <-. reflexivity.
Qed.

Lemma auto_save_follows_each_calculation_witness :
  (exists r self' w',
     Calculator.perform_calculation Examples.platform (fst Examples.added) "multiply"
       (PyNum 2) (PyNum 4) 11 (snd Examples.added) = (Return r, self', w') /\
     exists calculation,
       Calculator.history self' =
         CalculationHistory.add_calculation (Calculator.history (fst Examples.added))
           calculation /\
       Calculation.result calculation = r /\
       World.events w' =
         World.events (snd Examples.added) ++
         [World.Logged "INFO" (World.CalculationPerformed calculation);
          World.CsvWritten "history/calculator_history.csv" "utf-8"
            (CalculationHistory.get_history (Calculator.history self'))]) /\
  (let s := Calculator.__init__ Examples.in_working_directory Examples.boot in
   exists r self' w',
     Calculator.perform_calculation Examples.platform (fst s) "multiply"
       (PyInt 2) (PyInt 4) 11 (snd s) = (Return r, self', w') /\
     exists calculation,
       Calculator.history self' =
         CalculationHistory.add_calculation (Calculator.history (fst s)) calculation /\
       Calculation.result calculation = r /\
       World.events w' =
         World.events (snd s) ++
         [World.Logged "INFO" (World.CalculationPerformed calculation);
          World.CsvWritten "calculator_history.csv" "utf-8"
            (CalculationHistory.get_history (Calculator.history self'))]).
Proof.
  split.
  - do 3 eexists. split; [vm_compute; reflexivity|].
    apply (auto_save_follows_each_calculation Examples.platform
             CalculatorConfig.DEFAULTS Examples.boot
             [Calculator.Perform "add" (PyNum 5) (PyNum 3) 10]
             "multiply" (PyNum 2) (PyNum 4) 11).
    + repeat constructor.
    + vm_compute. reflexivity.
  - cbv zeta. do 3 eexists. split; [vm_compute; reflexivity|].
    apply (auto_save_follows_each_calculation Examples.platform
             Examples.in_working_directory Examples.boot []
             "multiply" (PyInt 2) (PyInt 4) 11).
    + constructor.
    + vm_compute. reflexivity.
Defined.
